(** * yahoo_fin.stock_info: a shallow embedding and its checked properties

    The development follows [src/yahoo_fin/stock_info.py].  Python values,
    exceptions and the few library routines the module leans on (string
    methods, [float], [re.sub], a slice of pandas) are modelled first; the
    functions of the module come next, under their own names; the theorems
    are collected at the end. *)

From Stdlib Require Import ZArith List String Ascii Bool Lia.
From Stdlib Require Import Floats.SpecFloat.
From Stdlib Require Import DecimalString.
From Stdlib Require Import Sorting.Sorted.
Import ListNotations.

Local Open Scope string_scope.
Local Open Scope Z_scope.

(** ** Python strings (ASCII fragment) *)

Module PyStr.

Definition eqb_ascii (a b : ascii) : bool := Ascii.eqb a b.

(** [c in chars], for a character and a string used as a character set. *)
Fixpoint mem_char (c : ascii) (chars : string) : bool :=
  match chars with
  | EmptyString => false
  | String d rest => eqb_ascii c d || mem_char c rest
  end.

(** [s.startswith(p)] *)
Fixpoint startswith (p s : string) : bool :=
  match p, s with
  | EmptyString, _ => true
  | String a p', String b s' => eqb_ascii a b && startswith p' s'
  | String _ _, EmptyString => false
  end.

(** [needle in s], substring containment. *)
Fixpoint contains (needle s : string) : bool :=
  startswith needle s ||
  match s with
  | EmptyString => false
  | String _ s' => contains needle s'
  end.

(** [s.endswith(p)] *)
Fixpoint endswith (p s : string) : bool :=
  String.eqb p s ||
  match s with
  | EmptyString => false
  | String _ s' => endswith p s'
  end.

(** [s[n:]] *)
Fixpoint skipn_chars (n : nat) (s : string) : string :=
  match n, s with
  | S k, String _ s' => skipn_chars k s'
  | _, _ => s
  end.

(** [s.lstrip(chars)] *)
Fixpoint lstrip (chars s : string) : string :=
  match s with
  | EmptyString => EmptyString
  | String c s' => if mem_char c chars then lstrip chars s' else s
  end.

(** [s.rstrip(chars)] *)
Fixpoint rstrip (chars s : string) : string :=
  match s with
  | EmptyString => EmptyString
  | String c s' =>
      match rstrip chars s' with
      | EmptyString => if mem_char c chars then EmptyString else String c EmptyString
      | r => String c r
      end
  end.

(** [s.strip(chars)]: every leading and every trailing character that
    belongs to [chars] is removed. *)
Definition strip (chars s : string) : string := rstrip chars (lstrip chars s).

(** [s * n] for a string and an integer: [n] copies, none when [n <= 0]. *)
Definition repeat (s : string) (n : Z) : string :=
  match n with
  | Zpos p => Pos.iter (append s) EmptyString p
  | _ => EmptyString
  end.

Definition upper_char (c : ascii) : ascii :=
  let n := nat_of_ascii c in
  if (97 <=? n)%nat && (n <=? 122)%nat then ascii_of_nat (n - 32) else c.

Definition lower_char (c : ascii) : ascii :=
  let n := nat_of_ascii c in
  if (65 <=? n)%nat && (n <=? 90)%nat then ascii_of_nat (n + 32) else c.

Fixpoint map_chars (f : ascii -> ascii) (s : string) : string :=
  match s with
  | EmptyString => EmptyString
  | String c s' => String (f c) (map_chars f s')
  end.

(** [s.upper()] and [s.lower()] *)
Definition upper : string -> string := map_chars upper_char.
Definition lower : string -> string := map_chars lower_char.

(** [str(n)] for an integer. *)
Definition of_Z (n : Z) : string := NilZero.string_of_int (Z.to_int n).

(** Whitespace, as [str.isspace] sees it among ASCII characters. *)
Definition is_space (c : ascii) : bool :=
  let n := nat_of_ascii c in
  ((9 <=? n)%nat && (n <=? 13)%nat) || ((28 <=? n)%nat && (n <=? 32)%nat).

Fixpoint lstrip_space (s : string) : string :=
  match s with
  | String c s' => if is_space c then lstrip_space s' else s
  | EmptyString => EmptyString
  end.

Fixpoint rstrip_space (s : string) : string :=
  match s with
  | EmptyString => EmptyString
  | String c s' =>
      match rstrip_space s' with
      | EmptyString => if is_space c then EmptyString else String c EmptyString
      | r => String c r
      end
  end.

(** [s.strip()] *)
Definition strip_space (s : string) : string := rstrip_space (lstrip_space s).

Definition hex_digit (n : nat) : ascii :=
  ascii_of_nat (if (n <? 10)%nat then 48 + n else 87 + n).

(** One character of [repr(s)], between the quotes [quote]. *)
Definition repr_char (quote c : ascii) : string :=
  let n := nat_of_ascii c in
  let bs : ascii := "092"%char in
  if eqb_ascii c quote || eqb_ascii c bs then String bs (String c EmptyString)
  else if (n =? 9)%nat then String bs "t"
  else if (n =? 10)%nat then String bs "n"
  else if (n =? 13)%nat then String bs "r"
  else if (n <? 32)%nat || (126 <? n)%nat
  then String bs (String "x" (String (hex_digit (n / 16))
                                (String (hex_digit (n mod 16)) EmptyString)))
  else String c EmptyString.

Fixpoint repr_body (quote : ascii) (s : string) : string :=
  match s with
  | EmptyString => EmptyString
  | String c s' => repr_char quote c ++ repr_body quote s'
  end.

(** [repr(s)]: single quotes, unless the text holds one and no double
    quote. *)
Definition repr (s : string) : string :=
  let quote : ascii :=
    if mem_char "'" s && negb (mem_char "034" s) then "034"%char else "'"%char in
  String quote (repr_body quote s ++ String quote EmptyString).

(** [s.split(sep)] for a non-empty separator.  [skip] counts the
    characters of a separator still to be passed over; the head of the
    result is the piece being read. *)
Fixpoint split_from (sep : string) (skip : nat) (s : string) : list string :=
  match s with
  | EmptyString => [EmptyString]
  | String c s' =>
      match skip with
      | S k => split_from sep k s'
      | O =>
          if startswith sep s
          then EmptyString :: split_from sep (String.length sep - 1) s'
          else
            match split_from sep 0 s' with
            | piece :: pieces => String c piece :: pieces
            | [] => [String c EmptyString]
            end
      end
  end.

Definition split (sep s : string) : list string := split_from sep 0 s.

(** [s.split(sep, 1)] *)
Fixpoint split1 (sep s : string) : list string :=
  match s with
  | EmptyString => [EmptyString]
  | String c s' =>
      if startswith sep s
      then [EmptyString; skipn_chars (String.length sep) s]
      else
        match split1 sep s' with
        | piece :: pieces => String c piece :: pieces
        | [] => [String c EmptyString]
        end
  end.

(** [s.replace(old, new)] for a non-empty [old]: occurrences are taken
    from the left and do not overlap. *)
Fixpoint replace_from (old new : string) (skip : nat) (s : string) : string :=
  match s with
  | EmptyString => EmptyString
  | String c s' =>
      match skip with
      | S k => replace_from old new k s'
      | O =>
          if startswith old s
          then new ++ replace_from old new (String.length old - 1) s'
          else String c (replace_from old new 0 s')
      end
  end.

Definition replace (old new s : string) : string := replace_from old new 0 s.

(** [s[:-1]] *)
Fixpoint drop_last (s : string) : string :=
  match s with
  | EmptyString => EmptyString
  | String c EmptyString => EmptyString
  | String c s' => String c (drop_last s')
  end.

End PyStr.

(** ** Exceptions and results *)

(** The values [json.loads] gives, numbers being integers: a payload
    that holds a number with a fraction or an exponent is outside the
    model, and with it outside every property below. *)
#[warnings="-register-all"]
Inductive json : Type :=
| JNull
| JBool (b : bool)
| JInt (n : Z)
| JStr (s : string)
| JArr (items : list json)
| JObj (fields : list (string * json)).

Inductive exn : Type :=
| AssertionError (payload : json)
| KeyError (key : string)
| IndexError
| TypeError
| ValueError (msg : string)
| AttributeError
| OverflowError
| RecursionError.

Inductive res (A : Type) : Type :=
| Ok (a : A)
| Raise (e : exn).
Arguments Ok {A} a.
Arguments Raise {A} e.

Definition res_bind {A B} (r : res A) (k : A -> res B) : res B :=
  match r with
  | Ok a => k a
  | Raise e => Raise e
  end.

(** ** Python floats: IEEE binary64, as [spec_float] *)

Module PyFloat.

Definition prec : Z := 53.
Definition emax : Z := 1024.

Definition float := spec_float.

Definition mul (x y : float) : float := SFmul prec emax x y.

(** The double nearest to [(-1)^s * m * 10^e10] (ties to even), as
    [strtod] returns it; overflow gives an infinity. *)
Definition of_decimal (s : bool) (m : positive) (e10 : Z) : float :=
  if 0 <=? e10
  then binary_round prec emax s (m * Z.to_pos (10 ^ e10)) 0
  else
    let '(q, e, l) :=
      SFdiv_core_binary prec emax (Zpos m) 0 (10 ^ (- e10)) 0 in
    binary_round_aux prec emax s q e l.

(** The double nearest to an integer. *)
Definition nearest (n : Z) : float := binary_normalize prec emax n 0 false.

(** [float(n)] for a Python integer: nearest double, [OverflowError] when
    it does not fit. *)
Definition of_int (n : Z) : res float :=
  match nearest n with
  | S754_infinity _ => Raise OverflowError
  | f => Ok f
  end.

(** *** The text accepted by [float(str)] *)

Definition is_digit (c : ascii) : bool :=
  let n := nat_of_ascii c in (48 <=? n)%nat && (n <=? 57)%nat.

Definition digit_val (c : ascii) : Z := Z.of_nat (nat_of_ascii c) - 48.

(** Underscores may only sit between two digits; they are then dropped.
    [prev] is the character before [s]. *)
Fixpoint drop_underscores (prev : ascii) (s : string) : option string :=
  match s with
  | EmptyString => if PyStr.eqb_ascii prev "_" then None else Some EmptyString
  | String c s' =>
      if PyStr.eqb_ascii c "_"
      then if is_digit prev then drop_underscores c s' else None
      else if PyStr.eqb_ascii prev "_" && negb (is_digit c) then None
      else option_map (String c) (drop_underscores c s')
  end.

(** A run of digits: its value appended to [acc], how many were read, and
    what follows. *)
Fixpoint digits (acc : Z) (s : string) : Z * Z * string :=
  match s with
  | String c s' =>
      if is_digit c
      then let '(v, n, r) := digits (10 * acc + digit_val c) s' in (v, n + 1, r)
      else (acc, 0, s)
  | EmptyString => (acc, 0, s)
  end.

Definition sign (s : string) : bool * string :=
  match s with
  | String "-" s' => (true, s')
  | String "+" s' => (false, s')
  | _ => (false, s)
  end.

(** An exponent part is read only when at least one digit follows the
    [e]; otherwise nothing is consumed. *)
Definition exponent (s : string) : Z * string :=
  match s with
  | String c s' =>
      if PyStr.eqb_ascii c "e" || PyStr.eqb_ascii c "E"
      then
        let '(neg, s'') := sign s' in
        let '(v, n, r) := digits 0 s'' in
        if n =? 0 then (0, s) else ((if neg then - v else v), r)
      else (0, s)
  | EmptyString => (0, s)
  end.

Definition of_mantissa (neg : bool) (m e10 : Z) : float :=
  match m with
  | Zpos p => of_decimal neg p e10
  | _ => S754_zero neg
  end.

(** The blanks [float] passes over at both ends of an ASCII string: tab,
    line feed, vertical tab, form feed, carriage return and space.  The
    separators 28 to 31, which [str.strip] removes, are not among them. *)
Definition is_blank (c : ascii) : bool :=
  let n := nat_of_ascii c in
  ((9 <=? n)%nat && (n <=? 13)%nat) || (n =? 32)%nat.

Fixpoint lstrip_blank (s : string) : string :=
  match s with
  | String c s' => if is_blank c then lstrip_blank s' else s
  | EmptyString => EmptyString
  end.

Fixpoint rstrip_blank (s : string) : string :=
  match s with
  | EmptyString => EmptyString
  | String c s' =>
      match rstrip_blank s' with
      | EmptyString => if is_blank c then EmptyString else String c EmptyString
      | r => String c r
      end
  end.

Definition strip_blank (s : string) : string := rstrip_blank (lstrip_blank s).

(** [float(s)] for a string; [None] stands for the [ValueError]. *)
Definition of_string (s : string) : option float :=
  match drop_underscores "000" (strip_blank s) with
  | None => None
  | Some t =>
      let '(neg, body) := sign t in
      let low := PyStr.lower body in
      if String.eqb low "inf" || String.eqb low "infinity"
      then Some (S754_infinity neg)
      else if String.eqb low "nan" then Some S754_nan
      else
        let '(ip, n1, r1) := digits 0 body in
        let '(m, n2, r2) :=
          match r1 with
          | String "." r => digits ip r
          | _ => (ip, 0, r1)
          end in
        if n1 + n2 =? 0 then None
        else
          let '(e, r3) := exponent r2 in
          match r3 with
          | EmptyString => Some (of_mantissa neg m (e - n2))
          | _ => None
          end
  end.

(** The value of a float literal of the source text. *)
Definition literal (s : string) : float :=
  match of_string s with
  | Some f => f
  | None => S754_nan
  end.

End PyFloat.

(** ** Python values that reach the numeric normalizer *)

Inductive pyval : Type :=
| VNone
| VBool (b : bool)
| VInt (n : Z)
| VFloat (f : PyFloat.float)
| VStr (s : string).

(** [float(elt)] *)
Definition py_float (elt : pyval) : res PyFloat.float :=
  match elt with
  | VNone => Raise TypeError
  | VBool b => Ok (if b then PyFloat.of_mantissa false 1 0 else S754_zero false)
  | VInt n => PyFloat.of_int n
  | VFloat f => Ok f
  | VStr s =>
      match PyFloat.of_string s with
      | Some f => Ok f
      | None => Raise (ValueError ("could not convert string to float: " ++ PyStr.repr s))
      end
  end.

(** [a * b] *)
Definition py_mul (a b : pyval) : res pyval :=
  let int_of_bool (b : bool) : Z := if b then 1 else 0 in
  let as_int (v : pyval) : option Z :=
    match v with
    | VInt n => Some n
    | VBool b => Some (int_of_bool b)
    | _ => None
    end in
  match a, b with
  | VFloat x, VFloat y => Ok (VFloat (PyFloat.mul x y))
  | VFloat x, (VInt _ | VBool _) =>
      res_bind (py_float b) (fun y => Ok (VFloat (PyFloat.mul x y)))
  | (VInt _ | VBool _), VFloat y =>
      res_bind (py_float a) (fun x => Ok (VFloat (PyFloat.mul x y)))
  | VStr s, (VInt _ | VBool _) =>
      match as_int b with Some n => Ok (VStr (PyStr.repeat s n)) | None => Raise TypeError end
  | (VInt _ | VBool _), VStr s =>
      match as_int a with Some n => Ok (VStr (PyStr.repeat s n)) | None => Raise TypeError end
  | (VInt _ | VBool _), (VInt _ | VBool _) =>
      match as_int a, as_int b with
      | Some m, Some n => Ok (VInt (m * n))
      | _, _ => Raise TypeError
      end
  | _, _ => Raise TypeError
  end.

(** ** Numeric normalizer: [force_float] and [_convert_to_numeric] *)

(** [try: return float(elt)  except: return elt] *)
Definition force_float (elt : pyval) : pyval :=
  match py_float elt with
  | Ok f => VFloat f
  | Raise _ => elt
  end.

Definition _convert_to_numeric (s : string) : res pyval :=
  if PyStr.contains "M" s then
    let s := PyStr.strip "M" s in
    py_mul (force_float (VStr s)) (VInt 1000000)
  else if PyStr.contains "B" s then
    let s := PyStr.strip "B" s in
    py_mul (force_float (VStr s)) (VInt 1000000000)
  else Ok (force_float (VStr s)).


(** ** A backtracking matcher for the fragment of [re] the module uses *)

Module Re.

(** Atoms of a pattern: a literal, a class [[...]], and a capturing lazy
    run [(.*?)] ([.] matches anything but a newline). *)
Inductive atom : Type :=
| Lit (c : ascii)
| OneOf (chars : string)
| LazyDots.

Definition pattern := list atom.

Definition newline : ascii := "010".

(** [match_here p s]: the leftmost-preference match of [p] at the start of
    [s], as the captured groups and the text left after the match. *)
Fixpoint match_here (p : pattern) : string -> option (list string * string) :=
  match p with
  | [] => fun s => Some ([], s)
  | Lit c :: p' =>
      fun s =>
        match s with
        | String d s' => if PyStr.eqb_ascii c d then match_here p' s' else None
        | EmptyString => None
        end
  | OneOf chars :: p' =>
      fun s =>
        match s with
        | String d s' => if PyStr.mem_char d chars then match_here p' s' else None
        | EmptyString => None
        end
  | LazyDots :: p' =>
      fix lazy (s : string) : option (list string * string) :=
        match match_here p' s with
        | Some (groups, rest) => Some (EmptyString :: groups, rest)
        | None =>
            match s with
            | String d s' =>
                if PyStr.eqb_ascii d newline then None
                else
                  match lazy s' with
                  | Some (g :: groups, rest) => Some (String d g :: groups, rest)
                  | _ => None
                  end
            | EmptyString => None
            end
        end
  end.

(** [re.sub(p, r'\1', s)]: matches are looked for from the left; a match
    is replaced by its first group and the scan resumes after it, any
    other character is copied.  [skip] counts the characters of the last
    match still to be passed over. *)
Fixpoint sub_from (p : pattern) (skip : nat) (s : string) : string :=
  match skip with
  | S k =>
      match s with
      | String _ s' => sub_from p k s'
      | EmptyString => EmptyString
      end
  | O =>
      match match_here p s with
      | Some (groups, rest) =>
          let g1 := hd EmptyString groups in
          let used := (String.length s - String.length rest)%nat in
          match s with
          | String c s' =>
              match used with
              | O => g1 ++ String c (sub_from p 0 s')
              | S k => g1 ++ sub_from p k s'
              end
          | EmptyString => g1
          end
      | None =>
          match s with
          | String c s' => String c (sub_from p 0 s')
          | EmptyString => EmptyString
          end
      end
  end.

Definition sub_group1 (p : pattern) (s : string) : string := sub_from p 0 s.

(** [re.search(p, s) is not None] *)
Fixpoint search (p : pattern) (s : string) : bool :=
  match match_here p s with
  | Some _ => true
  | None =>
      match s with
      | String _ s' => search p s'
      | EmptyString => false
      end
  end.

End Re.

(** ** JSON values as Python sees them *)

Module Json.

Fixpoint lookup (k : string) (fields : list (string * json)) : option json :=
  match fields with
  | [] => None
  | (k', v) :: rest => if String.eqb k k' then Some v else lookup k rest
  end.

(** [obj[key]] for a string key. *)
Definition getitem (obj : json) (key : string) : res json :=
  match obj with
  | JObj fields =>
      match lookup key fields with
      | Some v => Ok v
      | None => Raise (KeyError key)
      end
  | _ => Raise TypeError
  end.

(** [obj[i]] for a non-negative integer index. *)
Definition getindex (obj : json) (i : nat) : res json :=
  match obj with
  | JArr items =>
      match nth_error items i with
      | Some v => Ok v
      | None => Raise IndexError
      end
  | JStr s =>
      match String.get i s with
      | Some c => Ok (JStr (String c EmptyString))
      | None => Raise IndexError
      end
  | JObj _ => Raise (KeyError (PyStr.of_Z (Z.of_nat i)))
  | _ => Raise TypeError
  end.

Definition is_str (k : string) (v : json) : bool :=
  match v with
  | JStr s => String.eqb k s
  | _ => false
  end.

(** [key in obj] for a string key. *)
Definition contains (key : string) (obj : json) : res bool :=
  match obj with
  | JObj fields => Ok (match lookup key fields with Some _ => true | None => false end)
  | JArr items => Ok (existsb (is_str key) items)
  | JStr s => Ok (PyStr.contains key s)
  | _ => Raise TypeError
  end.

(** *** [json.dumps], default separators and [ensure_ascii] *)

Definition hex_digit (n : nat) : ascii :=
  ascii_of_nat (if (n <? 10)%nat then 48 + n else 87 + n).

Definition escape_char (c : ascii) : string :=
  let n := nat_of_ascii c in
  let bs : ascii := "092"%char in
  if PyStr.eqb_ascii c "034"%char then String bs (String "034" EmptyString)
  else if PyStr.eqb_ascii c bs then String bs (String bs EmptyString)
  else if (n =? 10)%nat then String bs "n"
  else if (n =? 13)%nat then String bs "r"
  else if (n =? 9)%nat then String bs "t"
  else if (n =? 8)%nat then String bs "b"
  else if (n =? 12)%nat then String bs "f"
  else if (n <? 32)%nat || (126 <? n)%nat
       then String bs ("u00" ++ String (hex_digit (n / 16)) (String (hex_digit (n mod 16)) EmptyString))
  else String c EmptyString.

Fixpoint escape (s : string) : string :=
  match s with
  | EmptyString => EmptyString
  | String c s' => escape_char c ++ escape s'
  end.

Definition quoted (s : string) : string :=
  String "034" (escape s ++ String "034" EmptyString).

Fixpoint dumps (v : json) : string :=
  match v with
  | JNull => "null"
  | JBool true => "true"
  | JBool false => "false"
  | JInt n => PyStr.of_Z n
  | JStr s => quoted s
  | JArr items =>
      let fix go (l : list json) : string :=
        match l with
        | [] => EmptyString
        | [x] => dumps x
        | x :: rest => dumps x ++ ", " ++ go rest
        end in
      "[" ++ go items ++ "]"
  | JObj fields =>
      let fix go (l : list (string * json)) : string :=
        match l with
        | [] => EmptyString
        | [(k, x)] => quoted k ++ ": " ++ dumps x
        | (k, x) :: rest => quoted k ++ ": " ++ dumps x ++ ", " ++ go rest
        end in
      "{" ++ go fields ++ "}"
  end.

End Json.

(** The pattern of [_parse_json]:
    [\{[\'|\"]raw[\'|\"]:(.*?),(.*?)\}] *)
Definition quote_class : string := String "039" (String "|" (String "034" EmptyString)).

Definition raw_pattern : Re.pattern :=
  [Re.Lit "{"; Re.OneOf quote_class; Re.Lit "r"; Re.Lit "a"; Re.Lit "w";
   Re.OneOf quote_class; Re.Lit ":"; Re.LazyDots; Re.Lit ","; Re.LazyDots;
   Re.Lit "}"]%char.

(** Lines 405 and 406 of [_parse_json], on the text [json.dumps(data)]. *)
Definition repair (dumped : string) : string :=
  let new_data := PyStr.replace "{}" "null" dumped in
  Re.sub_group1 raw_pattern new_data.


(** ** The part of pandas the module uses

    A frame keeps its row labels, its columns in order (label and cells)
    and the names of both axes.  Labels and cells share one type, since
    [transpose] and [set_index] move values between the two.  A cell
    holds the JSON value it came from: the conversion of a column to one
    dtype, which turns the integers of a column with a [null] into floats
    and the [null] into [NaN], is not modelled, and no property below
    speaks of the value of a numeric cell. *)

Module Pd.

Inductive timestamp : Type :=
| NaT
| Ts (seconds : Z).

Inductive cell : Type :=
| NaN
| CJ (j : json)
| CT (t : timestamp).

Record DataFrame : Type := mkFrame {
  index : list cell;
  index_name : option string;
  columns : list (cell * list cell);
  columns_name : option string
}.

Definition name (s : string) : cell := CJ (JStr s).

Definition is_name (s : string) (c : cell) : bool :=
  match c with
  | CJ (JStr t) => String.eqb s t
  | _ => false
  end.

(** [pd.DataFrame()] *)
Definition empty_frame : DataFrame := mkFrame [] None [] None.

(** [df.empty]: some axis has length zero. *)
Definition empty (df : DataFrame) : bool :=
  match index df, columns df with
  | [], _ => true
  | _, [] => true
  | _, _ => false
  end.

Definition range_index (n : nat) : list cell :=
  map (fun i => CJ (JInt (Z.of_nat i))) (seq 0 n).

Definition is_obj (v : json) : bool := match v with JObj _ => true | _ => false end.
Definition is_arr (v : json) : bool := match v with JArr _ => true | _ => false end.

Definition arr_len (v : json) : option nat :=
  match v with JArr l => Some (List.length l) | _ => None end.

(** Keys in order of first appearance. *)
Fixpoint add_keys (seen : list string) (ks : list string) : list string :=
  match ks with
  | [] => seen
  | k :: rest =>
      if existsb (String.eqb k) seen then add_keys seen rest
      else add_keys (seen ++ [k]) rest
  end.

Definition keys_of (v : json) : list string :=
  match v with JObj fields => map fst fields | _ => [] end.

Definition union_keys (vs : list json) : list string :=
  fold_left (fun seen v => add_keys seen (keys_of v)) vs [].

Definition cell_at (k : string) (v : json) : cell :=
  match v with
  | JObj fields =>
      match Json.lookup k fields with Some x => CJ x | None => NaN end
  | _ => NaN
  end.

(** [pd.DataFrame(d)] for a dict [d]: a dict of dicts gives one column
    per outer key and one row per inner key; otherwise lists must agree
    in length and scalars are repeated along them. *)
Definition of_dict (d : list (string * json)) : res DataFrame :=
  match d with
  | [] => Ok empty_frame
  | _ =>
      if forallb (fun kv => is_obj (snd kv)) d then
        let rows := union_keys (map snd d) in
        Ok (mkFrame (map name rows) None
              (map (fun kv => (name (fst kv), map (fun r => cell_at r (snd kv)) rows)) d)
              None)
      else if existsb (fun kv => is_obj (snd kv)) d then
        Raise (ValueError "Mixing dicts with non-Series may lead to ambiguous ordering.")
      else
        match flat_map (fun kv => match arr_len (snd kv) with Some n => [n] | None => [] end) d with
        | [] => Raise (ValueError "If using all scalar values, you must pass an index")
        | n :: lens =>
            if forallb (Nat.eqb n) lens then
              Ok (mkFrame (range_index n) None
                    (map (fun kv =>
                            (name (fst kv),
                             match snd kv with
                             | JArr l => map CJ l
                             | v => List.repeat (CJ v) n
                             end)) d)
                    None)
            else Raise (ValueError "All arrays must be of the same length")
        end
  end.

(** [pd.DataFrame(records)] for a list of dicts: one row per record, one
    column per key. *)
Definition of_records (rs : list json) : DataFrame :=
  mkFrame (range_index (List.length rs)) None
    (map (fun k => (name k, map (cell_at k) rs)) (union_keys rs))
    None.

(** [pd.DataFrame(data)] for the JSON shapes that reach it here: a dict,
    a list of dicts (possibly empty), or [None].  Scalars are refused as
    pandas refuses them; lists holding anything but dicts are outside
    this model and are refused as well. *)
Definition of_json (data : json) : res DataFrame :=
  match data with
  | JNull => Ok empty_frame
  | JObj d => of_dict d
  | JArr items =>
      if forallb is_obj items then Ok (of_records items)
      else Raise (ValueError "list of non-dict values")
  | _ => Raise (ValueError "DataFrame constructor not properly called!")
  end.

Definition n_rows (df : DataFrame) : nat := List.length (index df).

Fixpoint has_column (c : string) (cols : list (cell * list cell)) : bool :=
  match cols with
  | [] => false
  | (l, _) :: rest => is_name c l || has_column c rest
  end.

Fixpoint get_column (c : string) (cols : list (cell * list cell)) : option (list cell) :=
  match cols with
  | [] => None
  | (l, v) :: rest => if is_name c l then Some v else get_column c rest
  end.

Fixpoint put_column (c : string) (v : list cell) (cols : list (cell * list cell))
  : list (cell * list cell) :=
  match cols with
  | [] => [(name c, v)]
  | (l, old) :: rest =>
      if is_name c l then (l, v) :: rest else (l, old) :: put_column c v rest
  end.

Fixpoint remove_column (c : string) (cols : list (cell * list cell))
  : list (cell * list cell) :=
  match cols with
  | [] => []
  | (l, v) :: rest =>
      if is_name c l then remove_column c rest else (l, v) :: remove_column c rest
  end.

(** [df[c] = values] for a list of values.  A frame without rows takes
    its rows from a non-empty list, older columns being filled with
    [NaN]. *)
Definition set_column (c : string) (v : list cell) (df : DataFrame) : res DataFrame :=
  if (List.length v =? n_rows df)%nat
  then Ok (mkFrame (index df) (index_name df) (put_column c v (columns df)) (columns_name df))
  else if (n_rows df =? 0)%nat
  then Ok (mkFrame (range_index (List.length v)) (index_name df)
             (put_column c v
                (map (fun lv => (fst lv, List.repeat NaN (List.length v))) (columns df)))
             (columns_name df))
  else Raise (ValueError "Length of values does not match length of index").

(** [df[c] = value] for a scalar. *)
Definition set_scalar (c : string) (v : cell) (df : DataFrame) : DataFrame :=
  mkFrame (index df) (index_name df)
    (put_column c (List.repeat v (n_rows df)) (columns df)) (columns_name df).

(** [df.index = labels], the new index being called [name]. *)
Definition set_axis (labels : list cell) (name : option string) (df : DataFrame)
  : res DataFrame :=
  if (List.length labels =? n_rows df)%nat
  then Ok (mkFrame labels name (columns df) (columns_name df))
  else Raise (ValueError "Length mismatch").

(** [df.index.name = name] *)
Definition set_index_name (name : string) (df : DataFrame) : DataFrame :=
  mkFrame (index df) (Some name) (columns df) (columns_name df).

(** [repr] of a list of labels, none of which holds a quote or a
    backslash: [['a', 'b']]. *)
Fixpoint quoted_labels (cs : list string) : string :=
  match cs with
  | [] => EmptyString
  | [c] => "'" ++ c ++ "'"
  | c :: rest => "'" ++ c ++ "', " ++ quoted_labels rest
  end.

Definition labels_repr (cs : list string) : string := "[" ++ quoted_labels cs ++ "]".

Definition missing_columns (cs : list string) (df : DataFrame) : list string :=
  filter (fun c => negb (has_column c (columns df))) cs.

(** [df[[c1, ..., cn]]]; the labels are distinct.  The messages are
    those of pandas 2. *)
Fixpoint select (cs : list string) (df : DataFrame) : res (list (cell * list cell)) :=
  match cs with
  | [] => Ok []
  | c :: rest =>
      match get_column c (columns df) with
      | None => Raise (KeyError c)
      | Some v => res_bind (select rest df) (fun cols => Ok ((name c, v) :: cols))
      end
  end.

Definition getitem_list (cs : list string) (df : DataFrame) : res DataFrame :=
  match missing_columns cs df with
  | [] =>
      res_bind (select cs df)
        (fun cols => Ok (mkFrame (index df) (index_name df) cols (columns_name df)))
  | missing =>
      if (List.length missing =? List.length cs)%nat
      then Raise (KeyError ("None of [Index(" ++ labels_repr cs
                            ++ ", dtype='object')] are in the [columns]"))
      else Raise (KeyError (labels_repr missing ++ " not in index"))
  end.

(** [del df[c]] *)
Definition drop_column (c : string) (df : DataFrame) : res DataFrame :=
  if has_column c (columns df)
  then Ok (mkFrame (index df) (index_name df) (remove_column c (columns df)) (columns_name df))
  else Raise (KeyError c).

(** [df.drop(columns=[c1, ..., cn])], and [df.drop(columns=c)] as the
    list of one label: every label is looked up before any column goes,
    and the error names all that are missing. *)
Definition drop_columns (cs : list string) (df : DataFrame) : res DataFrame :=
  match missing_columns cs df with
  | [] =>
      Ok (mkFrame (index df) (index_name df)
            (fold_left (fun cols c => remove_column c cols) cs (columns df))
            (columns_name df))
  | missing => Raise (KeyError (labels_repr missing ++ " not found in axis"))
  end.

(** [df.rename(columns={old: new})] *)
Definition rename_column (old new : string) (df : DataFrame) : DataFrame :=
  mkFrame (index df) (index_name df)
    (map (fun lv => if is_name old (fst lv) then (name new, snd lv) else lv) (columns df))
    (columns_name df).

(** [df.reset_index()]: the index becomes the first column, called after
    the index name, or [index], or [level_0] when [index] is taken. *)
Definition reset_index (df : DataFrame) : res DataFrame :=
  let label :=
    match index_name df with
    | Some n => n
    | None => if has_column "index" (columns df) then "level_0" else "index"
    end in
  if has_column label (columns df)
  then Raise (ValueError "cannot insert, already exists")
  else Ok (mkFrame (range_index (n_rows df)) None
             ((name label, index df) :: columns df) (columns_name df)).

(** [df.set_index(c, inplace=True)] *)
Definition set_index (c : string) (df : DataFrame) : res DataFrame :=
  match get_column c (columns df) with
  | None => Raise (KeyError ("None of " ++ labels_repr [c] ++ " are in the columns"))
  | Some v => Ok (mkFrame v (Some c) (remove_column c (columns df)) (columns_name df))
  end.

Definition row_at (cols : list (cell * list cell)) (i : nat) : list cell :=
  map (fun lv => nth i (snd lv) NaN) cols.

(** [df.transpose()] *)
Definition transpose (df : DataFrame) : DataFrame :=
  mkFrame (map fst (columns df)) (columns_name df)
    (map (fun il => (snd il, row_at (columns df) (fst il)))
         (combine (seq 0 (n_rows df)) (index df)))
    (index_name df).

(** *** Timestamps *)

Definition max_seconds : Z := 9223372036.

(** A plain decimal integer, as the keys of the events dicts are. *)
Definition int_of_string (s : string) : option Z :=
  let '(neg, body) := PyFloat.sign s in
  let '(v, n, rest) := PyFloat.digits 0 body in
  match rest with
  | EmptyString => if n =? 0 then None else Some (if neg then - v else v)
  | _ => None
  end.

(** One value under [pd.to_datetime(..., unit="s")]. *)
Definition to_timestamp (c : cell) : res timestamp :=
  let of_seconds (z : Z) : res timestamp :=
    if (- max_seconds <=? z) && (z <=? max_seconds) then Ok (Ts z)
    else Raise (ValueError "Out of bounds nanosecond timestamp") in
  match c with
  | NaN | CJ JNull => Ok NaT
  | CT t => Ok t
  | CJ (JInt z) => of_seconds z
  | CJ (JStr s) =>
      match int_of_string s with
      | Some z => of_seconds z
      | None => Raise (ValueError "non convertible value with the unit 's'")
      end
  | _ => Raise TypeError
  end.

Fixpoint to_datetime (cs : list cell) : res (list timestamp) :=
  match cs with
  | [] => Ok []
  | c :: rest =>
      res_bind (to_timestamp c) (fun t =>
      res_bind (to_datetime rest) (fun ts => Ok (t :: ts)))
  end.

Definition seconds_per_day : Z := 86400.

(** [dt.floor("d")].  The midnight before the earliest timestamps lies
    below the least one there is, and the rounding overflows; pandas 1
    lets that [OverflowError] through, pandas 2 raises its
    [OutOfBoundsDatetime] from it. *)
Definition floor_day (t : timestamp) : res timestamp :=
  match t with
  | NaT => Ok NaT
  | Ts z =>
      let midnight := seconds_per_day * (z / seconds_per_day) in
      if midnight <? - max_seconds then Raise OverflowError else Ok (Ts midnight)
  end.

(** [index.map(lambda dt: dt.floor("d"))] *)
Fixpoint floor_days (idx : list timestamp) : res (list timestamp) :=
  match idx with
  | [] => Ok []
  | t :: rest =>
      res_bind (floor_day t) (fun d =>
      res_bind (floor_days rest) (fun ds => Ok (d :: ds)))
  end.

(** The seconds elapsed since midnight. *)
Definition intraday (z : Z) : Z := z mod seconds_per_day.

(** *** [df.sort_index()] on a time index: a stable sort, [NaT] last. *)

Definition label_leb (a b : cell) : bool :=
  match a, b with
  | CT (Ts x), CT (Ts y) => x <=? y
  | CT (Ts _), CT NaT => true
  | CT NaT, CT (Ts _) => false
  | CJ (JInt x), CJ (JInt y) => x <=? y
  | _, _ => true
  end.

Fixpoint insert_row (r : cell * list cell) (rows : list (cell * list cell))
  : list (cell * list cell) :=
  match rows with
  | [] => [r]
  | r' :: rest =>
      if label_leb (fst r') (fst r) then r' :: insert_row r rest
      else r :: rows
  end.

Definition sort_rows (rows : list (cell * list cell)) : list (cell * list cell) :=
  fold_left (fun sorted r => insert_row r sorted) rows [].

Definition rows_of (df : DataFrame) : list (cell * list cell) :=
  map (fun il => (snd il, row_at (columns df) (fst il)))
      (combine (seq 0 (n_rows df)) (index df)).

Definition sort_index (df : DataFrame) : DataFrame :=
  let rows := sort_rows (rows_of df) in
  mkFrame (map fst rows) (index_name df)
    (map (fun jl => (fst (snd jl), map (fun r => nth (fst jl) (snd r) NaN) rows))
         (combine (seq 0 (List.length (columns df))) (columns df)))
    (columns_name df).

End Pd.


(** ** The outside world: the clock and the HTTP server

    A computation reads and extends a [World]: the Unix time and the
    offset of the local time zone, the server (whose answer may depend on
    what was sent before) and the requests sent so far, oldest first.  An
    exception keeps the world it was raised in. *)

Record request : Type := mkRequest {
  req_url : string;
  req_params : list (string * pyval);
  req_headers : list (string * string)
}.

Record response : Type := mkResponse {
  ok : bool;
  text : string
}.

Record World : Type := mkWorld {
  (* whole seconds since the epoch *)
  now_seconds : Z;
  (* seconds the local wall clock is ahead of UTC *)
  utc_offset : Z;
  server : list request -> request -> response;
  sent : list request
}.

Definition M (A : Type) : Type := World -> res A * World.

Definition ret {A} (a : A) : M A := fun w => (Ok a, w).

Definition raise {A} (e : exn) : M A := fun w => (Raise e, w).

Definition bind {A B} (m : M A) (k : A -> M B) : M B :=
  fun w =>
    match m w with
    | (Ok a, w') => k a w'
    | (Raise e, w') => (Raise e, w')
    end.

Definition lift {A} (r : res A) : M A := fun w => (r, w).

Declare Scope io_scope.
Delimit Scope io_scope with io.
Notation "x <- m ;; k" := (bind m (fun x => k))
  (at level 61, m at next level, right associativity) : io_scope.
Notation "' p <- m ;; k" := (bind m (fun p => k))
  (at level 61, p pattern, m at next level, right associativity) : io_scope.
Local Open Scope io_scope.

(** The world once [r] has been sent. *)
Definition log_request (r : request) (w : World) : World :=
  mkWorld (now_seconds w) (utc_offset w) (server w) (sent w ++ [r]).

(** What the server of [w] answers to [r]. *)
Definition answer (w : World) (r : request) : response := server w (sent w) r.

(** [requests.get(url, params=params, headers=headers)] *)
Definition requests_get (url : string) (params : list (string * pyval))
    (headers : list (string * string)) : M response :=
  fun w =>
    let r := mkRequest url params headers in
    (Ok (answer w r), log_request r w).

(** [int(pd.Timestamp("now").timestamp())]: [pd.Timestamp("now")] is the
    local wall clock, without a zone, and [timestamp()] reads a zone-less
    timestamp as UTC.  The value is the Unix time moved by the offset of
    the local zone. *)
Definition wall_seconds (w : World) : Z := now_seconds w + utc_offset w.

Definition clock : M Z := fun w => (Ok (wall_seconds w), w).

(** Date-like arguments: a text to be parsed, or a timestamp object
    given by its tick count. *)
Inductive date_like : Type :=
| DateText (s : string)
| DateTicks (ticks : Z).

Definition default_headers : list (string * string) :=
  [("User-Agent",
    "Mozilla/5.0 (Macintosh; Intel Mac OS X 10_10_1) AppleWebKit/537.36 (KHTML, like Gecko) Chrome/39.0.2171.95 Safari/537.36")].

Definition base_url : string := "https://query1.finance.yahoo.com/v8/finance/chart/".

Section StockInfo.

(** Library routines the module calls and that are left abstract:
    [json.loads]; [int(pd.Timestamp(d).timestamp())];
    [pd.Timestamp(d).strftime("%Y-%m-%d")]. *)
Variable json_loads : string -> res json.
Variable timestamp_seconds : date_like -> res Z.
Variable strftime_ymd : date_like -> res string.

Definition build_url (ticker : string) (start_date end_date : option date_like)
    (interval : string) : M (string * list (string * pyval)) :=
  end_seconds <-
    match end_date with
    | None => clock
    | Some d => lift (timestamp_seconds d)
    end ;;
  start_seconds <-
    match start_date with
    | None => ret 7223400
    | Some d => lift (timestamp_seconds d)
    end ;;
  let site := base_url ++ ticker in
  let params :=
    [("period1", VInt start_seconds); ("period2", VInt end_seconds);
     ("interval", VStr (PyStr.lower interval)); ("events", VStr "div,splits")] in
  ret (site, params).

(** [resp.json()] *)
Definition resp_json (resp : response) : res json := json_loads (text resp).

(** [data["chart"]["result"][0]] *)
Definition chart_result (data : json) : res json :=
  res_bind (Json.getitem data "chart") (fun chart =>
  res_bind (Json.getitem chart "result") (fun result =>
  Json.getindex result 0)).

(** [pd.to_datetime(temp_time, unit = "s")] as an index. *)
Definition datetime_index (temp_time : json) : res (list Pd.timestamp) :=
  match temp_time with
  | JArr items => Pd.to_datetime (map Pd.CJ items)
  | _ => Raise TypeError
  end.

Definition time_labels (ts : list Pd.timestamp) : list Pd.cell := map Pd.CT ts.

(** The timestamps of a chart payload, as [pd.to_datetime] reads them. *)
Definition payload_index (data : json) : res (list Pd.timestamp) :=
  res_bind (chart_result data) (fun r =>
  res_bind (Json.getitem r "timestamp") datetime_index).

(** [frame.reset_index()] followed by the renaming of [index] to [date]. *)
Definition index_to_date_column (frame : Pd.DataFrame) : res Pd.DataFrame :=
  res_bind (Pd.reset_index frame) (fun frame =>
  Ok (Pd.rename_column "index" "date" frame)).

Definition get_data (ticker : string) (start_date end_date : option date_like)
    (index_as_date : bool) (interval : string)
    (headers : list (string * string)) : M Pd.DataFrame :=
  if negb (existsb (String.eqb interval) ["1d"; "1wk"; "1mo"; "1m"])
  then raise (AssertionError (JStr "interval must be of of '1d', '1wk', '1mo', or '1m'"))
  else
    '(site, params) <- build_url ticker start_date end_date interval ;;
    resp <- requests_get site params headers ;;
    if negb (ok resp)
    then body <- lift (resp_json resp) ;; raise (AssertionError body)
    else
      data <- lift (resp_json resp) ;;
      quote <- lift (res_bind (chart_result data) (fun r =>
                     res_bind (Json.getitem r "indicators") (fun ind =>
                     res_bind (Json.getitem ind "quote") (fun q =>
                     Json.getindex q 0)))) ;;
      frame <- lift (Pd.of_json quote) ;;
      temp_time <- lift (res_bind (chart_result data) (fun r =>
                         Json.getitem r "timestamp")) ;;
      frame <-
        (if negb (String.eqb interval "1m") then
           adjclose <- lift (res_bind (chart_result data) (fun r =>
                             res_bind (Json.getitem r "indicators") (fun ind =>
                             res_bind (Json.getitem ind "adjclose") (fun a =>
                             res_bind (Json.getindex a 0) (fun a0 =>
                             Json.getitem a0 "adjclose"))))) ;;
           frame <- lift (match adjclose with
                          | JArr l => Pd.set_column "adjclose" (map Pd.CJ l) frame
                          | JObj _ => Raise (ValueError "dict assigned to a column")
                          | v => Ok (Pd.set_scalar "adjclose" (Pd.CJ v) frame)
                          end) ;;
           idx <- lift (datetime_index temp_time) ;;
           frame <- lift (Pd.set_axis (time_labels idx) None frame) ;;
           floored <- lift (Pd.floor_days idx) ;;
           frame <- lift (Pd.set_axis (time_labels floored) None frame) ;;
           lift (Pd.getitem_list ["open"; "high"; "low"; "close"; "adjclose"; "volume"] frame)
         else
           idx <- lift (datetime_index temp_time) ;;
           frame <- lift (Pd.set_axis (time_labels idx) None frame) ;;
           lift (Pd.getitem_list ["open"; "high"; "low"; "close"; "volume"] frame)) ;;
      let frame := Pd.set_scalar "ticker" (Pd.CJ (JStr (PyStr.upper ticker))) frame in
      if negb index_as_date
      then lift (index_to_date_column frame)
      else ret frame.

(** The reshaping shared by [get_dividends] and [get_splits], up to the
    [ticker] column: transpose, date the index, floor it to the day, sort
    it. *)
Definition events_frame (ticker : string) (events : json) : res Pd.DataFrame :=
  res_bind (Pd.of_json events) (fun frame =>
  let frame := Pd.transpose frame in
  res_bind (Pd.to_datetime (Pd.index frame)) (fun idx =>
  res_bind (Pd.set_axis (time_labels idx) (Pd.index_name frame) frame) (fun frame =>
  res_bind (Pd.floor_days idx) (fun floored =>
  res_bind (Pd.set_axis (time_labels floored) (Pd.index_name frame) frame) (fun frame =>
  let frame := Pd.sort_index frame in
  Ok (Pd.set_scalar "ticker" (Pd.CJ (JStr (PyStr.upper ticker))) frame)))))).

Definition get_dividends (ticker : string) (start_date end_date : option date_like)
    (index_as_date : bool) (headers : list (string * string)) : M Pd.DataFrame :=
  '(site, params) <- build_url ticker start_date end_date "1d" ;;
  resp <- requests_get site params headers ;;
  if negb (ok resp)
  then ret Pd.empty_frame
  else
    data <- lift (resp_json resp) ;;
    no_events <- lift (res_bind (chart_result data) (fun r =>
                       res_bind (Json.contains "events" r) (fun b => Ok (negb b)))) ;;
    no_dividends <-
      (if no_events then ret true
       else lift (res_bind (chart_result data) (fun r =>
                  res_bind (Json.getitem r "events") (fun ev =>
                  res_bind (Json.contains "dividends" ev) (fun b => Ok (negb b)))))) ;;
    if no_dividends
    then ret Pd.empty_frame
    else
      dividends <- lift (res_bind (chart_result data) (fun r =>
                         res_bind (Json.getitem r "events") (fun ev =>
                         Json.getitem ev "dividends"))) ;;
      frame <- lift (events_frame ticker dividends) ;;
      frame <- lift (Pd.drop_columns ["date"] frame) ;;
      let frame := Pd.rename_column "amount" "dividend" frame in
      if negb index_as_date
      then lift (index_to_date_column frame)
      else ret frame.

Definition no_splits_message : string :=
  "There is no data available on stock splits, or none have occured".

Definition get_splits (ticker : string) (start_date end_date : option date_like)
    (index_as_date : bool) (headers : list (string * string)) : M Pd.DataFrame :=
  '(site, params) <- build_url ticker start_date end_date "1d" ;;
  resp <- requests_get site params headers ;;
  if negb (ok resp)
  then body <- lift (resp_json resp) ;; raise (AssertionError body)
  else
    data <- lift (resp_json resp) ;;
    no_splits <- lift (res_bind (chart_result data) (fun r =>
                       res_bind (Json.getitem r "events") (fun ev =>
                       res_bind (Json.contains "splits" ev) (fun b => Ok (negb b))))) ;;
    if no_splits
    then raise (AssertionError (JStr no_splits_message))
    else
      splits <- lift (res_bind (chart_result data) (fun r =>
                      res_bind (Json.getitem r "events") (fun ev =>
                      Json.getitem ev "splits"))) ;;
      frame <- lift (events_frame ticker splits) ;;
      frame <- lift (Pd.drop_columns ["date"; "denominator"; "numerator"] frame) ;;
      if negb index_as_date
      then lift (index_to_date_column frame)
      else ret frame.

(** ** Embedded-JSON extractor and statement flattener *)

Definition parse_json_headers : list (string * string) := [("User-agent", "Mozilla/5.0")].

(** [l[i]] on a Python list. *)
Definition list_get {A} (l : list A) (i : nat) : res A :=
  match nth_error l i with
  | Some a => Ok a
  | None => Raise IndexError
  end.

(** [doc['context']['dispatcher']['stores']] *)
Definition stores_of_page (doc : json) : res json :=
  res_bind (Json.getitem doc "context") (fun ctx =>
  res_bind (Json.getitem ctx "dispatcher") (fun disp =>
  Json.getitem disp "stores")).

(** [json.loads(json_str)['context']['dispatcher']['stores']] *)
Definition stores_of (json_str : string) : res json :=
  res_bind (json_loads json_str) stores_of_page.

Definition _parse_json (url : string) (headers : list (string * string)) : M json :=
  resp <- requests_get url [] headers ;;
  let html := text resp in
  after <- lift (list_get (PyStr.split "root.App.main =" html) 1) ;;
  before_this <- lift (list_get (PyStr.split "(this)" after) 0) ;;
  before_brace <- lift (list_get (PyStr.split (String ";" (String "010" "}")) before_this) 0) ;;
  let json_str := PyStr.strip_space before_brace in
  match res_bind (stores_of json_str) (fun st => Json.getitem st "QuoteSummaryStore") with
  | Raise _ =>
      (* the handler prints the available store names, then raises *)
      match stores_of json_str with
      | Raise e => raise e
      | Ok (JObj _) => raise (ValueError "Cannot find QuoteSummaryStore")
      | Ok _ => raise AttributeError
      end
  | Ok data =>
      let new_data := repair (Json.dumps data) in
      lift (json_loads new_data)
  end.

Definition _parse_table (json_info : json) : res Pd.DataFrame :=
  res_bind (Pd.of_json json_info) (fun df =>
  if Pd.empty df then Ok df
  else
    res_bind (Pd.drop_column "maxAge" df) (fun df =>
    res_bind (Pd.set_index "endDate" df) (fun df =>
    res_bind (Pd.to_datetime (Pd.index df)) (fun idx =>
    res_bind (Pd.set_axis (time_labels idx) (Pd.index_name df) df) (fun df =>
    let df := Pd.transpose df in
    Ok (Pd.set_index_name "Breakdown" df)))))).

(** ** Earnings calendar *)

Definition main_marker : string := "root.App.main = ".

Definition _parse_earnings_json (url : string) (headers : list (string * string)) : M json :=
  resp <- requests_get url [] headers ;;
  let content := text resp in
  let rows := filter (PyStr.startswith main_marker) (PyStr.split (String "010" EmptyString) content) in
  row <- lift (list_get rows 0) ;;
  let page_data := PyStr.drop_last row in
  page_data <- lift (list_get (PyStr.split1 main_marker page_data) 1) ;;
  lift (json_loads page_data).

Definition base_earnings_url : string := "https://finance.yahoo.com/calendar/earnings".

(** [offset >= count], [count] coming from the payload. *)
Definition offset_ge (offset : Z) (count : json) : res bool :=
  match count with
  | JInt c => Ok (c <=? offset)
  | JBool b => Ok ((if b then 1 else 0) <=? offset)
  | _ => Raise TypeError
  end.

(** [current_earnings + more_earnings] *)
Definition concat_rows (current : json) (more : list json) : res (list json) :=
  match current with
  | JArr rows => Ok (rows ++ more)%list
  | _ => Raise TypeError
  end.

(** [stores['ScreenerCriteriaStore']['meta']['total']] *)
Definition reported_total (stores : json) : res json :=
  res_bind (Json.getitem stores "ScreenerCriteriaStore") (fun c =>
  res_bind (Json.getitem c "meta") (fun meta =>
  Json.getitem meta "total")).

(** [stores['ScreenerResultsStore']['results']['rows']] *)
Definition page_rows (stores : json) : res json :=
  res_bind (Json.getitem stores "ScreenerResultsStore") (fun r =>
  res_bind (Json.getitem r "results") (fun results =>
  Json.getitem results "rows")).

(** ['{0}?day={1}&offset={2}&size={3}'.format(base_earnings_url, date, offset, 100)] *)
Definition dated_url (date : string) (offset : Z) : string :=
  base_earnings_url ++ "?day=" ++ date ++ "&offset=" ++ PyStr.of_Z offset
    ++ "&size=" ++ PyStr.of_Z 100.

(** [depth] is the number of frames the interpreter still grants; the
    default arguments are [offset = 0] and [count = 1]. *)
Fixpoint get_earnings_for_date (depth : nat) (date : date_like) (offset : Z)
    (count : json) : M (list json) :=
  match depth with
  | O => raise RecursionError
  | S depth' =>
      at_end <- lift (offset_ge offset count) ;;
      if at_end then ret []
      else
        date <- lift (strftime_ymd date) ;;
        result <- _parse_earnings_json (dated_url date offset) default_headers ;;
        stores <- lift (stores_of_page result) ;;
        earnings_count <- lift (reported_total stores) ;;
        let new_offset := offset + 100 in
        more_earnings <- get_earnings_for_date depth' (DateText date) new_offset earnings_count ;;
        current_earnings <- lift (page_rows stores) ;;
        total_earnings <- lift (concat_rows current_earnings more_earnings) ;;
        ret total_earnings
  end.

End StockInfo.

(** ** Python dicts keyed by JSON scalars *)

Module PyDict.

Definition dict := list (json * json).

(** Lists and dicts cannot be keys. *)
Definition hashable (k : json) : bool :=
  match k with
  | JArr _ | JObj _ => false
  | _ => true
  end.

Definition int_of (k : json) : Z :=
  match k with
  | JInt n => n
  | JBool true => 1
  | _ => 0
  end.

(** [a == b] between keys: booleans are the integers 0 and 1. *)
Definition key_eqb (a b : json) : bool :=
  match a, b with
  | JStr s, JStr t => String.eqb s t
  | JNull, JNull => true
  | (JInt _ | JBool _), (JInt _ | JBool _) => int_of a =? int_of b
  | _, _ => false
  end.

(** [d[k] = v]: an existing key keeps its place (and its key object). *)
Fixpoint set (k v : json) (d : dict) : dict :=
  match d with
  | [] => [(k, v)]
  | (k', v') :: rest =>
      if key_eqb k k' then (k', v) :: rest else (k', v') :: set k v rest
  end.

(** [d.get(k)] *)
Fixpoint get (k : json) (d : dict) : option json :=
  match d with
  | [] => None
  | (k', v') :: rest => if key_eqb k k' then Some v' else get k rest
  end.

End PyDict.

(** ** Further operations of the module *)

Section Further.

Variable json_loads : string -> res json.
Variable strftime_ymd : date_like -> res string.

(** [pd.Timestamp(d)], as its count of nanoseconds since the epoch. *)
Variable pd_timestamp : date_like -> res Z.

(** *** Quote endpoint *)

Definition quote_url : string :=
  "https://query1.finance.yahoo.com/v7/finance/quote?symbols=".

Definition invalid_response_message : string :=
  "Invalid response from server.  Check if ticker is"
    ++ String "010" "                              valid.".

(** The [headers] argument is accepted; the request carries the literal
    written in the body, which is the text of [default_headers]. *)
Definition get_quote_data (ticker : string) (headers : list (string * string)) : M json :=
  let site := quote_url ++ ticker in
  resp <- requests_get site [] default_headers ;;
  if negb (ok resp)
  then raise (AssertionError (JStr invalid_response_message))
  else
    json_result <- lift (resp_json json_loads resp) ;;
    info <- lift (res_bind (Json.getitem json_result "quoteResponse") (fun q =>
                  Json.getitem q "result")) ;;
    lift (Json.getindex info 0).

Definition get_market_status : M json :=
  quote_data <- get_quote_data "^dji" default_headers ;;
  lift (Json.getitem quote_data "marketState").

Definition get_premarket_price (ticker : string) : M json :=
  quote_data <- get_quote_data ticker default_headers ;;
  present <- lift (Json.contains "preMarketPrice" quote_data) ;;
  if present
  then lift (Json.getitem quote_data "preMarketPrice")
  else raise (AssertionError (JStr "Premarket price not currently available.")).

Definition get_postmarket_price (ticker : string) : M json :=
  quote_data <- get_quote_data ticker default_headers ;;
  present <- lift (Json.contains "postMarketPrice" quote_data) ;;
  if present
  then lift (Json.getitem quote_data "postMarketPrice")
  else raise (AssertionError (JStr "Postmarket price not currently available.")).

(** *** Financial statements *)

(** ["https://finance.yahoo.com/quote/" + ticker + "/<tab>?p=" + ticker] *)
Definition quote_page (ticker tab : string) : string :=
  "https://finance.yahoo.com/quote/" ++ ticker ++ "/" ++ tab ++ "?p=" ++ ticker.

(** [json_info[outer][inner]] *)
Definition statement_records (json_info : json) (outer inner : string) : res json :=
  res_bind (Json.getitem json_info outer) (fun h => Json.getitem h inner).

Definition get_balance_sheet (ticker : string) (yearly : bool) : M Pd.DataFrame :=
  json_info <- _parse_json json_loads (quote_page ticker "balance-sheet") parse_json_headers ;;
  let temp :=
    match (if yearly
           then statement_records json_info "balanceSheetHistory" "balanceSheetStatements"
           else statement_records json_info "balanceSheetHistoryQuarterly"
                  "balanceSheetStatements") with
    | Ok records => records
    | Raise _ => JArr []
    end in
  lift (_parse_table temp).

Definition get_cash_flow (ticker : string) (yearly : bool) : M Pd.DataFrame :=
  json_info <- _parse_json json_loads (quote_page ticker "cash-flow") parse_json_headers ;;
  temp <- lift (if yearly
                then statement_records json_info "cashflowStatementHistory" "cashflowStatements"
                else statement_records json_info "cashflowStatementHistoryQuarterly"
                       "cashflowStatements") ;;
  lift (_parse_table temp).

(** One entry of the result of [get_financials]. *)
Definition statement_table (json_info : json) (outer inner : string) : res Pd.DataFrame :=
  res_bind (statement_records json_info outer inner) _parse_table.

Definition get_financials (ticker : string) (yearly quarterly : bool)
  : M (list (string * Pd.DataFrame)) :=
  if negb yearly && negb quarterly
  then raise (AssertionError (JStr "yearly or quarterly must be True"))
  else
    json_info <- _parse_json json_loads (quote_page ticker "financials") parse_json_headers ;;
    let result := [] in
    result <-
      (if yearly then
         t1 <- lift (statement_table json_info "incomeStatementHistory"
                       "incomeStatementHistory") ;;
         t2 <- lift (statement_table json_info "balanceSheetHistory"
                       "balanceSheetStatements") ;;
         t3 <- lift (statement_table json_info "cashflowStatementHistory"
                       "cashflowStatements") ;;
         ret (result ++ [("yearly_income_statement", t1);
                         ("yearly_balance_sheet", t2);
                         ("yearly_cash_flow", t3)])%list
       else ret result) ;;
    if quarterly then
      t1 <- lift (statement_table json_info "incomeStatementHistoryQuarterly"
                    "incomeStatementHistory") ;;
      t2 <- lift (statement_table json_info "balanceSheetHistoryQuarterly"
                    "balanceSheetStatements") ;;
      t3 <- lift (statement_table json_info "cashflowStatementHistoryQuarterly"
                    "cashflowStatements") ;;
      ret (result ++ [("quarterly_income_statement", t1);
                      ("quarterly_balance_sheet", t2);
                      ("quarterly_cash_flow", t3)])%list
    else ret result.

(** The three empty tables [get_earnings] starts from. *)
Definition no_earnings : list (string * Pd.DataFrame) :=
  [("quarterly_results", Pd.empty_frame);
   ("yearly_revenue_earnings", Pd.empty_frame);
   ("quarterly_revenue_earnings", Pd.empty_frame)].

Definition get_earnings (ticker : string) : M (list (string * Pd.DataFrame)) :=
  json_info <- _parse_json json_loads (quote_page ticker "financials") parse_json_headers ;;
  present <- lift (Json.contains "earnings" json_info) ;;
  if negb present then ret no_earnings
  else
    temp <- lift (Json.getitem json_info "earnings") ;;
    match temp with
    | JNull => ret no_earnings
    | _ =>
        quarterly_results <-
          lift (res_bind (statement_records temp "earningsChart" "quarterly") Pd.of_json) ;;
        yearly_revenue <-
          lift (res_bind (statement_records temp "financialsChart" "yearly") Pd.of_json) ;;
        quarterly_revenue <-
          lift (res_bind (statement_records temp "financialsChart" "quarterly") Pd.of_json) ;;
        ret [("quarterly_results", quarterly_results);
             ("yearly_revenue_earnings", yearly_revenue);
             ("quarterly_revenue_earnings", quarterly_revenue)]
    end.

(** *** Time-series store *)

(** [len(obj)] *)
Definition py_len (obj : json) : res nat :=
  match obj with
  | JArr items => Ok (List.length items)
  | JStr s => Ok (String.length s)
  | JObj fields => Ok (List.length fields)
  | _ => Raise TypeError
  end.

(** One turn of the loop of [list_to_obj]: the value is read before the
    key, and the key must be hashable. *)
Definition add_report (json_obj : json) (acc : res PyDict.dict) (i : nat)
  : res PyDict.dict :=
  res_bind acc (fun empty_obj =>
  res_bind (Json.getindex json_obj i) (fun years =>
  match years with
  | JNull => Ok empty_obj
  | _ =>
      res_bind (Json.getitem years "reportedValue") (fun value =>
      res_bind (Json.getitem years "asOfDate") (fun key =>
      if PyDict.hashable key then Ok (PyDict.set key value empty_obj)
      else Raise TypeError))
  end)).

Definition list_to_obj (json_obj : json) : res PyDict.dict :=
  match json_obj with
  | JArr [] => Ok []
  | _ =>
      res_bind (py_len json_obj) (fun n =>
      fold_left (add_report json_obj) (seq 0 n) (Ok []))
  end.

(** [del obj[key]], giving what is left of a dict. *)
Definition delitem (key : string) (obj : json) : res (list (string * json)) :=
  match obj with
  | JObj fields =>
      match Json.lookup key fields with
      | Some _ => Ok (filter (fun kv => negb (String.eqb key (fst kv))) fields)
      | None => Raise (KeyError key)
      end
  | _ => Raise TypeError
  end.

(** [{k: list_to_obj(json_dict[k]) for k in json_dict.keys()}] *)
Fixpoint series_dict (fields : list (string * json))
  : res (list (string * PyDict.dict)) :=
  match fields with
  | [] => Ok []
  | (k, v) :: rest =>
      res_bind (list_to_obj v) (fun o =>
      res_bind (series_dict rest) (fun others => Ok ((k, o) :: others)))
  end.

(** The body of the [try] block of [_parse_json_series]. *)
Definition series_of_store (yearly : bool) (json_str : string)
  : res (list (string * PyDict.dict)) :=
  res_bind (res_bind (stores_of json_loads json_str) (fun st =>
            Json.getitem st "QuoteTimeSeriesStore")) (fun data =>
  let clean_data := repair (Json.dumps data) in
  res_bind (res_bind (json_loads clean_data) (fun doc =>
            Json.getitem doc (if yearly then "timeSeries" else "timeSeriesQuarterly")))
           (fun json_dict =>
  res_bind (delitem "timestamp" json_dict) series_dict)).

(** [None] is the value the function falls back to when the [try] block
    raised. *)
Definition _parse_json_series (url : string) (headers : list (string * string))
    (yearly : bool) : M (option (list (string * PyDict.dict))) :=
  resp <- requests_get url [] headers ;;
  let html := text resp in
  after <- lift (list_get (PyStr.split "root.App.main =" html) 1) ;;
  before_this <- lift (list_get (PyStr.split "(this)" after) 0) ;;
  before_brace <- lift (list_get (PyStr.split (String ";" (String "010" "}")) before_this) 0) ;;
  let json_str := PyStr.strip_space before_brace in
  match series_of_store yearly json_str with
  | Ok series => ret (Some series)
  | Raise _ => ret None
  end.

(** *** Earnings over a range of dates *)

Definition day_ticks : Z := 86400 * 1000000000.

(** [range(n)] *)
Definition py_range (n : Z) : list Z := map Z.of_nat (seq 0 (Z.to_nat n)).

Fixpoint format_dates (dates : list date_like) : res (list string) :=
  match dates with
  | [] => Ok []
  | d :: rest =>
      res_bind (strftime_ymd d) (fun t =>
      res_bind (format_dates rest) (fun ts => Ok (t :: ts)))
  end.

(** The [while] loop: a date whose fetch raises adds nothing, and the
    scan goes on from the world the failure left. *)
Fixpoint scan_dates (depth : nat) (dates : list string) (earnings_data : list json)
  : M (list json) :=
  match dates with
  | [] => ret earnings_data
  | d :: rest =>
      fun w =>
        match get_earnings_for_date json_loads strftime_ymd depth (DateText d) 0 (JInt 1) w with
        | (Ok rows, w') => scan_dates depth rest (earnings_data ++ rows) w'
        | (Raise _, w') => scan_dates depth rest earnings_data w'
        end
  end.

(** [depth] is the number of frames granted to each call of
    [get_earnings_for_date]. *)
Definition get_earnings_in_date_range (depth : nat) (start_date end_date : date_like)
  : M (list json) :=
  e <- lift (pd_timestamp end_date) ;;
  s <- lift (pd_timestamp start_date) ;;
  let days_diff := (e - s) / day_ticks in
  current_date <- lift (pd_timestamp start_date) ;;
  let dates := map (fun diff => DateTicks (current_date + diff * day_ticks))
                   (py_range (days_diff + 1)) in
  dates <- lift (format_dates dates) ;;
  scan_dates depth dates [].

End Further.

(** *** Symbol directories *)

Section Listings.

(** Two routines left abstract.  [retrieve name]: the bytes of the file
    of that name in the symbol directory of the FTP server, as
    [r.getvalue()] holds them after the transfer, or what [ftplib] raised.
    [decode]: [bytes.decode()], which raises [UnicodeDecodeError] on bytes
    that are not UTF-8. *)
Variable retrieve : string -> res string.
Variable decode : string -> res string.

Definition crlf : string := String "013" (String "010" EmptyString).

(** [[x.split("\r\n")[1] for x in pieces]] *)
Fixpoint second_parts (pieces : list string) : res (list string) :=
  match pieces with
  | [] => Ok []
  | x :: rest =>
      res_bind (list_get (PyStr.split crlf x) 1) (fun ticker =>
      res_bind (second_parts rest) (fun others => Ok (ticker :: others)))
  end.

(** [tickers_nasdaq()], with [include_company_data] left at [False]. *)
Definition tickers_nasdaq : res (list string) :=
  res_bind (retrieve "nasdaqlisted.txt") (fun raw =>
  res_bind (decode raw) (fun info =>
  let splits := PyStr.split "|" info in
  let tickers := filter (PyStr.contains crlf) splits in
  res_bind (second_parts
              (filter (fun x => negb (PyStr.contains "NASDAQ" x) && negb (String.eqb x crlf))
                      tickers)) (fun tickers =>
  Ok (filter (fun ticker => negb (PyStr.contains "File" ticker)) tickers)))).

(** [tickers_other()], with [include_company_data] left at [False]. *)
Definition tickers_other : res (list string) :=
  res_bind (retrieve "otherlisted.txt") (fun raw =>
  res_bind (decode raw) (fun info =>
  let splits := PyStr.split "|" info in
  let tickers := filter (PyStr.contains crlf) splits in
  res_bind (second_parts tickers) (fun tickers =>
  Ok (filter (fun ticker => negb (PyStr.contains "File" ticker)) tickers)))).

End Listings.

(** ** Data used in the statements below *)

(** The letter [M] or [B] occurs in [s], but not as its last character. *)
Definition only_non_trailing (s : string) : bool :=
  (PyStr.contains "M" s || PyStr.contains "B" s)
  && negb (PyStr.endswith "M" s) && negb (PyStr.endswith "B" s).


(** A raw wrapper whose [raw] value is itself a raw wrapper. *)
Definition nested_wrapper : json :=
  JObj [("raw", JObj [("raw", JInt 1); ("fmt", JStr "1")]); ("x", JInt 2)].

(** Raw wrappers around scalars, an empty object, a list of wrappers. *)
Definition flat_wrappers : json :=
  JObj [("a", JObj [("raw", JInt 5); ("fmt", JStr "5")]);
        ("b", JObj []);
        ("c", JArr [JObj [("raw", JInt 1); ("fmt", JStr "1,0"); ("longFmt", JStr "1")];
                    JNull])].

(** The dates under which a price table is read: its index, or the
    [date] column when the index was moved there. *)
Definition time_axis (index_as_date : bool) (frame : Pd.DataFrame) : option (list Pd.cell) :=
  if index_as_date then Some (Pd.index frame)
  else Pd.get_column "date" (Pd.columns frame).

(** A date without intra-day part: midnight, or [NaT], which carries no
    time at all. *)
Definition zero_intraday (c : Pd.cell) : Prop :=
  match c with
  | Pd.CT (Pd.Ts z) => Pd.intraday z = 0
  | Pd.CT Pd.NaT => True
  | _ => False
  end.

(** *** Sample collaborators and worlds *)

Definition epoch_ticks (d : date_like) : res Z :=
  match d with
  | DateTicks t => Ok (t / 1000000000)
  | DateText _ => Raise (ValueError "unparsed date")
  end.

(** A world whose server gives one answer to everything, on a machine
    whose local zone is UTC. *)
Definition world_answering (r : response) : World :=
  mkWorld 1700000000 0 (fun _ _ => r) [].

(** The same instant on a machine whose local zone is nine hours ahead
    of UTC. *)
Definition tokyo_world : World :=
  mkWorld 1700000000 32400 (fun _ _ => mkResponse false "not found") [].

Definition quiet_world : World := world_answering (mkResponse false "not found").

(** A chart payload whose [events] object is empty. *)
Definition no_actions_payload : json :=
  JObj [("chart",
         JObj [("result", JArr [JObj [("meta", JObj []); ("events", JObj [])]]);
               ("error", JNull)])].

(** A chart payload with two dividends, the later one first. *)
Definition dividends_payload : json :=
  JObj [("chart",
         JObj [("result",
                JArr [JObj [("meta", JObj []);
                            ("events",
                             JObj [("dividends",
                                    JObj [("1612535400",
                                           JObj [("amount", JInt 2); ("date", JInt 1612535400)]);
                                          ("1604673000",
                                           JObj [("amount", JInt 1); ("date", JInt 1604673000)])])])]]);
               ("error", JNull)])].

(** Two period records, as they come out of the repaired store. *)
Definition period_records : json :=
  JArr [JObj [("maxAge", JInt 1); ("endDate", JInt 1609372800);
              ("netIncome", JInt 100); ("ebit", JInt 120)];
        JObj [("maxAge", JInt 1); ("endDate", JInt 1577750400);
              ("netIncome", JInt 90); ("ebit", JNull)]].

(** The error body of the chart endpoint. *)
Definition not_found_payload : json :=
  JObj [("chart",
         JObj [("result", JNull);
               ("error", JObj [("code", JStr "Not Found");
                               ("description", JStr "No data found, symbol may be delisted")])])].

(** An earnings page that reports [total] entries and carries [rows]. *)
Definition earnings_page (total : Z) (rows : list json) : json :=
  JObj [("context",
         JObj [("dispatcher",
                JObj [("stores",
                       JObj [("ScreenerCriteriaStore",
                              JObj [("meta", JObj [("total", JInt total)])]);
                             ("ScreenerResultsStore",
                              JObj [("results", JObj [("rows", JArr rows)])])])])])].

Definition sample_rows : list json :=
  [JObj [("ticker", JStr "MSFT"); ("epsestimate", JInt 2)];
   JObj [("ticker", JStr "AAPL"); ("epsestimate", JNull)]].

(** Two bars stamped 14:30 UTC on 2021-01-01 and on 2021-01-04. *)
Definition daily_payload : json :=
  JObj [("chart",
         JObj [("result",
                JArr [JObj [("meta", JObj []);
                            ("timestamp", JArr [JInt 1609511400; JInt 1609770600]);
                            ("indicators",
                             JObj [("quote",
                                    JArr [JObj [("volume", JArr [JInt 1000; JInt 2000]);
                                                ("open", JArr [JInt 10; JInt 11]);
                                                ("high", JArr [JInt 12; JInt 13]);
                                                ("low", JArr [JInt 9; JInt 10]);
                                                ("close", JArr [JInt 11; JNull])]]);
                                   ("adjclose",
                                    JArr [JObj [("adjclose", JArr [JInt 11; JNull])]])])]]);
               ("error", JNull)])].

(** Two bars stamped 14:30 and 14:31 UTC on 2021-01-01. *)
Definition minute_payload : json :=
  JObj [("chart",
         JObj [("result",
                JArr [JObj [("meta", JObj []);
                            ("timestamp", JArr [JInt 1609511400; JInt 1609511460]);
                            ("indicators",
                             JObj [("quote",
                                    JArr [JObj [("volume", JArr [JInt 1000; JInt 2000]);
                                                ("open", JArr [JInt 10; JInt 11]);
                                                ("high", JArr [JInt 12; JInt 13]);
                                                ("low", JArr [JInt 9; JInt 10]);
                                                ("close", JArr [JInt 11; JInt 12])]])])]]);
               ("error", JNull)])].

(** A loader that knows the sample bodies by name. *)
Definition sample_loads (body : string) : res json :=
  if String.eqb body "no actions" then Ok no_actions_payload
  else if String.eqb body "not found" then Ok not_found_payload
  else if String.eqb body "dividends" then Ok dividends_payload
  else if String.eqb body "daily bars" then Ok daily_payload
  else if String.eqb body "minute bars" then Ok minute_payload
  else if String.eqb body "full page" then Ok (earnings_page 100 sample_rows)
  else Raise (ValueError "Expecting value").

(** The HTML of an earnings page: the assignment line among others. *)
Definition earnings_html : string :=
  "<script>" ++ String "010" "root.App.main = full page;" ++ String "010" "</script>".

(** A formatter for dates already written as year-month-day. *)
Definition keep_text (d : date_like) : res string :=
  match d with
  | DateText s => Ok s
  | DateTicks _ => Raise (ValueError "unformatted date")
  end.

(** The table of a run, the empty one if the run raised. *)
Definition table_of (run : res Pd.DataFrame * World) : Pd.DataFrame :=
  match fst run with
  | Ok frame => frame
  | Raise _ => Pd.empty_frame
  end.

Definition daily_run (index_as_date : bool) : res Pd.DataFrame * World :=
  get_data sample_loads epoch_ticks "msft" None None index_as_date "1d" default_headers
    (world_answering (mkResponse true "daily bars")).

Definition minute_run (index_as_date : bool) : res Pd.DataFrame * World :=
  get_data sample_loads epoch_ticks "msft" None None index_as_date "1m" default_headers
    (world_answering (mkResponse true "minute bars")).

(** *** Vocabulary of the further properties *)

(** A computation that leaves the world as it found it: no request is
    sent. *)
Definition quiet {A} (m : M A) : Prop := forall w, snd (m w) = w.

(** The columns [get_data] selects, in its order. *)
Definition price_columns (interval : string) : list string :=
  if String.eqb interval "1m"
  then ["open"; "high"; "low"; "close"; "volume"]
  else ["open"; "high"; "low"; "close"; "adjclose"; "volume"].

(** [a] is a date no later than [b]; [NaT] comes after every date. *)
Definition no_later (a b : Pd.cell) : Prop :=
  match a, b with
  | Pd.CT (Pd.Ts x), Pd.CT (Pd.Ts y) => x <= y
  | Pd.CT _, Pd.CT Pd.NaT => True
  | _, _ => False
  end.

(** Dates in chronological order. *)
Definition chronological (axis : list Pd.cell) : Prop := StronglySorted no_later axis.

Definition is_time (c : Pd.cell) : Prop :=
  match c with Pd.CT _ => True | _ => False end.

(** The record is a dict with the key [k]. *)
Definition has_key (k : string) (record : json) : bool :=
  match record with
  | JObj fields => match Json.lookup k fields with Some _ => true | None => false end
  | _ => false
  end.

(** An entry of a reported series: [null], or a dict that holds a date
    text under [asOfDate] and a value under [reportedValue]. *)
Definition report_ok (item : json) : bool :=
  match item with
  | JNull => true
  | JObj fields =>
      match Json.lookup "asOfDate" fields, Json.lookup "reportedValue" fields with
      | Some (JStr _), Some _ => true
      | _, _ => false
      end
  | _ => false
  end.

(** What an entry reports for [date], if anything. *)
Definition reported (date : string) (item : json) : option json :=
  match item with
  | JObj fields =>
      match Json.lookup "asOfDate" fields, Json.lookup "reportedValue" fields with
      | Some (JStr d), Some v => if String.eqb date d then Some v else None
      | _, _ => None
      end
  | _ => None
  end.

(** The value of the last entry of a series that reports for [date]. *)
Fixpoint last_reported (date : string) (items : list json) : option json :=
  match items with
  | [] => None
  | item :: rest =>
      match last_reported date rest with
      | Some v => Some v
      | None => reported date item
      end
  end.

(** One turn of the loop, on the entry itself. *)
Definition add_entry (acc : res PyDict.dict) (item : json) : res PyDict.dict :=
  res_bind acc (fun empty_obj =>
  match item with
  | JNull => Ok empty_obj
  | _ =>
      res_bind (Json.getitem item "reportedValue") (fun value =>
      res_bind (Json.getitem item "asOfDate") (fun key =>
      if PyDict.hashable key then Ok (PyDict.set key value empty_obj)
      else Raise TypeError))
  end).

(** The request for the earnings page of [date] at [offset]. *)
Definition page_request (date : string) (offset : Z) : request :=
  mkRequest (dated_url date offset) [] default_headers.

(** The offsets of [n] pages from page [i] on. *)
Definition page_offsets (i n : nat) : list Z :=
  map (fun k => 100 * Z.of_nat k) (seq i n).

(** The world once the requests [rs] have been sent, in that order. *)
Definition log_requests (rs : list request) (w : World) : World :=
  fold_left (fun w r => log_request r w) rs w.

(** A well-behaved upstream for [date]: at every offset the page is
    served and parsed, reports [total offset] entries in all and carries
    [rows offset]. *)
Definition serves_pages (json_loads : string -> res json) (w0 : World)
    (date : string) (total : Z -> Z) (rows : Z -> list json) : Prop :=
  forall offset w,
    server w = server w0 ->
    exists result stores,
      _parse_earnings_json json_loads (dated_url date offset) default_headers w
      = (Ok result, log_request (page_request date offset) w)
      /\ stores_of_page result = Ok stores
      /\ reported_total stores = Ok (JInt (total offset))
      /\ page_rows stores = Ok (JArr (rows offset)).

(** The text of a raw wrapper: the opener with its two quote characters,
    the raw text, a comma, the other fields, the closing brace. *)
Definition wrapper_text (q1 q2 : ascii) (raw others : string) : string :=
  String "{" (String q1 ("raw" ++ String q2 (":" ++ raw ++ "," ++ others ++ "}"))).

(** A raw wrapper, by its two quote characters, its raw text and the
    text of its other fields. *)
Record wrapper : Type := mkWrapper {
  open_quote : ascii;
  close_quote : ascii;
  raw_text : string;
  other_text : string
}.

Definition text_of (x : wrapper) : string :=
  wrapper_text (open_quote x) (close_quote x) (raw_text x) (other_text x).

(** The pattern matches the wrapper whole, with the raw text as its
    first group: the quotes are of the class, the raw text holds no comma
    and the other fields no closing brace, and neither holds a newline. *)
Definition wrapper_ok (x : wrapper) : bool :=
  PyStr.mem_char (open_quote x) quote_class
  && PyStr.mem_char (close_quote x) quote_class
  && negb (PyStr.mem_char "," (raw_text x))
  && negb (PyStr.mem_char Re.newline (raw_text x))
  && negb (PyStr.mem_char "}" (other_text x))
  && negb (PyStr.mem_char Re.newline (other_text x)).

(** The raw text is a scalar as [json.dumps] writes it after a key: a
    blank, then a text without braces. *)
Definition flat_raw (x : wrapper) : bool :=
  match raw_text x with
  | String c _ => PyStr.eqb_ascii c " "
  | EmptyString => false
  end
  && negb (PyStr.mem_char "{" (raw_text x))
  && negb (PyStr.mem_char "}" (raw_text x)).

(** The head of the raw-wrapper pattern, up to the colon, and what
    follows it. *)
Definition after_brace : Re.pattern :=
  [Re.OneOf quote_class; Re.Lit "r"; Re.Lit "a"; Re.Lit "w";
   Re.OneOf quote_class; Re.Lit ":"]%char.

Definition head_pattern : Re.pattern := Re.Lit "{"%char :: after_brace.

Definition tail_pattern : Re.pattern :=
  [Re.LazyDots; Re.Lit ","; Re.LazyDots; Re.Lit "}"]%char.

(** The atom reads one character, and [x] is not one it accepts. *)
Definition refuses (x : ascii) (a : Re.atom) : bool :=
  match a with
  | Re.Lit c => negb (PyStr.eqb_ascii c x)
  | Re.OneOf chars => negb (PyStr.mem_char x chars)
  | Re.LazyDots => false
  end.

(** The text holds no head of a raw wrapper. *)
Definition head_free (t : string) : bool := negb (Re.search head_pattern t).

(** A stretch of text between two wrappers: no head of a wrapper in it,
    and no empty object literal. *)
Definition segment_ok (t : string) : bool :=
  head_free t && negb (PyStr.contains "{}" t).

(** A text cut at its raw wrappers: what comes first, then each wrapper
    with what follows it; and the same text with every wrapper replaced
    by its raw text. *)
Fixpoint wrapped (t0 : string) (ws : list (wrapper * string)) : string :=
  match ws with
  | [] => t0
  | (x, t) :: rest => t0 ++ text_of x ++ wrapped t rest
  end.

Fixpoint unwrapped (t0 : string) (ws : list (wrapper * string)) : string :=
  match ws with
  | [] => t0
  | (x, t) :: rest => t0 ++ raw_text x ++ unwrapped t rest
  end.

(** *** Further samples *)

(** A chart payload with two splits, the later one first. *)
Definition splits_payload : json :=
  JObj [("chart",
         JObj [("result",
                JArr [JObj [("meta", JObj []);
                            ("events",
                             JObj [("splits",
                                    JObj [("1598880600",
                                           JObj [("date", JInt 1598880600);
                                                 ("numerator", JInt 4);
                                                 ("denominator", JInt 1);
                                                 ("splitRatio", JStr "4:1")]);
                                          ("1402320600",
                                           JObj [("date", JInt 1402320600);
                                                 ("numerator", JInt 7);
                                                 ("denominator", JInt 1);
                                                 ("splitRatio", JStr "7:1")])])])]]);
               ("error", JNull)])].

Definition quote_payload : json :=
  JObj [("quoteResponse",
         JObj [("result",
                JArr [JObj [("symbol", JStr "MSFT"); ("marketState", JStr "PRE");
                            ("preMarketPrice", JInt 250)]]);
               ("error", JNull)])].

(** The document of a page that holds one store. *)
Definition store_doc (name : string) (store : json) : json :=
  JObj [("context", JObj [("dispatcher", JObj [("stores", JObj [(name, store)])])])].

(** A summary store without statements, and what its repaired text
    reads as. *)
Definition summary_store : json :=
  JObj [("price",
         JObj [("regularMarketPrice", JObj [("raw", JInt 5); ("fmt", JStr "5")])]);
        ("earnings", JObj [])].

Definition summary_info : json :=
  JObj [("price", JObj [("regularMarketPrice", JInt 5)]); ("earnings", JNull)].

(** A summary store with the six statements, one of them filled. *)
Definition statements_store : json :=
  JObj [("incomeStatementHistory",
         JObj [("incomeStatementHistory",
                JArr [JObj [("maxAge", JInt 1);
                            ("endDate", JObj [("raw", JInt 1609372800);
                                              ("fmt", JStr "2020-12-31")]);
                            ("netIncome", JObj [("raw", JInt 100); ("fmt", JStr "100");
                                                ("longFmt", JStr "100")])]])]);
        ("balanceSheetHistory", JObj [("balanceSheetStatements", JArr [])]);
        ("cashflowStatementHistory", JObj [("cashflowStatements", JArr [])]);
        ("incomeStatementHistoryQuarterly", JObj [("incomeStatementHistory", JArr [])]);
        ("balanceSheetHistoryQuarterly", JObj [("balanceSheetStatements", JArr [])]);
        ("cashflowStatementHistoryQuarterly", JObj [("cashflowStatements", JArr [])])].

Definition statements_info : json :=
  JObj [("incomeStatementHistory",
         JObj [("incomeStatementHistory",
                JArr [JObj [("maxAge", JInt 1); ("endDate", JInt 1609372800);
                            ("netIncome", JInt 100)]])]);
        ("balanceSheetHistory", JObj [("balanceSheetStatements", JArr [])]);
        ("cashflowStatementHistory", JObj [("cashflowStatements", JArr [])]);
        ("incomeStatementHistoryQuarterly", JObj [("incomeStatementHistory", JArr [])]);
        ("balanceSheetHistoryQuarterly", JObj [("balanceSheetStatements", JArr [])]);
        ("cashflowStatementHistoryQuarterly", JObj [("cashflowStatements", JArr [])])].

(** A time-series store: a series with a gap and two reports for one
    date, and an empty series. *)
Definition series_reports (wrapped : bool) : json :=
  let value (n : Z) : json :=
    if wrapped then JObj [("raw", JInt n); ("fmt", JStr (PyStr.of_Z n))] else JInt n in
  JArr [JNull;
        JObj [("asOfDate", JStr "2019-12-31"); ("periodType", JStr "12M");
              ("reportedValue", value 280)];
        JObj [("asOfDate", JStr "2020-12-31"); ("periodType", JStr "12M");
              ("reportedValue", value 300)];
        JObj [("asOfDate", JStr "2020-12-31"); ("periodType", JStr "12M");
              ("reportedValue", value 310)]].

Definition series_store_of (wrapped : bool) : json :=
  JObj [("timeSeries",
         JObj [("timestamp", JArr [JInt 1577750400; JInt 1609372800]);
               ("annualTotalAssets", series_reports wrapped);
               ("annualGoodwill", JArr [])])].

Definition series_store : json := series_store_of true.
Definition series_info : json := series_store_of false.

(** A loader that knows more sample bodies, the repaired texts of the
    sample stores among them. *)
Definition more_loads (body : string) : res json :=
  if String.eqb body "summary doc" then Ok (store_doc "QuoteSummaryStore" summary_store)
  else if String.eqb body (repair (Json.dumps summary_store)) then Ok summary_info
  else if String.eqb body "statements doc"
       then Ok (store_doc "QuoteSummaryStore" statements_store)
  else if String.eqb body (repair (Json.dumps statements_store)) then Ok statements_info
  else if String.eqb body "series doc" then Ok (store_doc "QuoteTimeSeriesStore" series_store)
  else if String.eqb body (repair (Json.dumps series_store)) then Ok series_info
  else if String.eqb body "splits" then Ok splits_payload
  else if String.eqb body "quote" then Ok quote_payload
  else if String.eqb body "long page" then Ok (earnings_page 250 sample_rows)
  else sample_loads body.

(** The text that [_parse_json] and [_parse_json_series] read as JSON,
    for a page that holds the marker: what follows the first marker, up
    to the first [(this)] and then to the first semicolon, newline and
    closing brace, with the white space at both ends removed. *)
Definition embedded_text (html : string) : string :=
  PyStr.strip_space
    (hd EmptyString
       (PyStr.split (String ";" (String "010" "}"))
          (hd EmptyString
             (PyStr.split "(this)"
                (nth 1 (PyStr.split "root.App.main =" html) EmptyString))))).

(** The HTML of a quote page whose script assigns [body]. *)
Definition page_html (body : string) : string :=
  "<html><script>(function (root) {" ++ String "010" "root.App.main = " ++ body ++ ";"
    ++ String "010" "}(this));</script></html>".

(** The HTML of a calendar page of 250 entries. *)
Definition long_earnings_html : string :=
  "<script>" ++ String "010" "root.App.main = long page;" ++ String "010" "</script>".

(** The rows a fetch contributes to a scan: its rows, or nothing when it
    raised. *)
Definition rows_or_none (r : res (list json)) : list json :=
  match r with
  | Ok rows => rows
  | Raise _ => []
  end.

(** The outcome of [get_earnings_for_date] on each day in turn, every day
    fetched in the world the day before left, and the world after the
    last day. *)
Fixpoint day_outcomes (json_loads : string -> res json)
    (strftime_ymd : date_like -> res string) (depth : nat) (days : list string)
    (w : World) : list (res (list json)) * World :=
  match days with
  | [] => ([], w)
  | d :: rest =>
      let run := get_earnings_for_date json_loads strftime_ymd depth (DateText d) 0 (JInt 1) w in
      let later := day_outcomes json_loads strftime_ymd depth rest (snd run) in
      (fst run :: fst later, snd later)
  end.

(** Timestamps given by their ticks, and a formatter that names a day by
    its number since the epoch. *)
Definition ticks_of (d : date_like) : res Z :=
  match d with
  | DateTicks t => Ok t
  | DateText _ => Raise (ValueError "unparsed date")
  end.

Definition day_number_text (d : date_like) : res string :=
  match d with
  | DateText s => Ok s
  | DateTicks t => Ok ("day " ++ PyStr.of_Z (t / day_ticks))
  end.

Definition dividends_run : res Pd.DataFrame * World :=
  get_dividends sample_loads epoch_ticks "msft" None None true default_headers
    (world_answering (mkResponse true "dividends")).

Definition splits_run : res Pd.DataFrame * World :=
  get_splits more_loads epoch_ticks "aapl" None None true default_headers
    (world_answering (mkResponse true "splits")).

(** The tables of a run of [get_financials], none if the run raised. *)
Definition tables_of (run : res (list (string * Pd.DataFrame)) * World)
  : list (string * Pd.DataFrame) :=
  match fst run with
  | Ok tables => tables
  | Raise _ => []
  end.

Definition summary_world : World :=
  world_answering (mkResponse true (page_html "summary doc")).

Definition statements_world : World :=
  world_answering (mkResponse true (page_html "statements doc")).

Definition long_world : World := world_answering (mkResponse true long_earnings_html).

(** The two period records of [period_records], as a list. *)
Definition period_record_list : list json :=
  match period_records with
  | JArr records => records
  | _ => []
  end.

(** *** Listing files *)

(** A line of a listing file: its first field (the symbol), the fields
    in between, its last field. *)
Record listing_line : Type := mkLine {
  first_field : string;
  middle_fields : list string;
  last_field : string
}.

(** A field holds no bar, no carriage return and no line feed. *)
Definition clean (f : string) : bool :=
  negb (PyStr.mem_char "|" f) && negb (PyStr.mem_char "013" f)
  && negb (PyStr.mem_char "010" f).

Definition clean_line (l : listing_line) : bool :=
  clean (first_field l) && forallb clean (middle_fields l) && clean (last_field l).

Fixpoint render_fields (fields : list string) : string :=
  match fields with
  | [] => EmptyString
  | f :: rest => f ++ "|" ++ render_fields rest
  end.

(** The text of a line: its fields between bars, and the line break. *)
Definition render_line (l : listing_line) : string :=
  first_field l ++ "|" ++ render_fields (middle_fields l) ++ last_field l ++ crlf.

Fixpoint render (lines : list listing_line) : string :=
  match lines with
  | [] => EmptyString
  | l :: rest => render_line l ++ render rest
  end.

(** The last field of the last line, [p] if there is no line. *)
Fixpoint final_field (p : string) (lines : list listing_line) : string :=
  match lines with
  | [] => p
  | l :: rest => final_field (last_field l) rest
  end.

(** The pieces between bars that hold a line break: the last field of a
    line with the first field of the next, and the last field of all. *)
Fixpoint line_breaks (p : string) (lines : list listing_line) : list string :=
  match lines with
  | [] => [p ++ crlf]
  | l :: rest => (p ++ crlf ++ first_field l) :: line_breaks (last_field l) rest
  end.

(** The symbol of the line is not empty, and neither it nor the last
    field holds the word NASDAQ. *)
Definition plain_line (l : listing_line) : bool :=
  negb (String.eqb (first_field l) EmptyString)
  && negb (PyStr.contains "NASDAQ" (first_field l))
  && negb (PyStr.contains "NASDAQ" (last_field l)).

Definition no_file (ticker : string) : bool := negb (PyStr.contains "File" ticker).

(** A small file in the layout of the symbol directory. *)
Definition sample_listing : list listing_line :=
  [mkLine "Symbol" ["Security Name"; "Test Issue"] "NextShares";
   mkLine "AAPL" ["Apple Inc. - Common Stock"; "N"] "N";
   mkLine "MSFT" ["Microsoft Corporation - Common Stock"; "N"] "N";
   mkLine "File Creation Time: 1217202118:02" [""; ""] ""].

Definition sample_retrieve (name : string) : res string := Ok (render sample_listing).

(** Bytes below 128 decode to themselves. *)
Definition ascii_decode (raw : string) : res string := Ok raw.

(** * Properties *)

(** ** Strings *)

Lemma contains_letter c x s :
  PyStr.contains (String c EmptyString) (String x s)
  = PyStr.eqb_ascii c x || PyStr.contains (String c EmptyString) s.
Proof. cbn [PyStr.contains PyStr.startswith]. now rewrite andb_true_r. Qed.

Lemma contains_letter_append c d t :
  PyStr.contains (String c EmptyString) (d ++ t)
  = PyStr.contains (String c EmptyString) d || PyStr.contains (String c EmptyString) t.
Proof.
  induction d as [|x d IH].
  - reflexivity.
  - cbn [append]. rewrite !contains_letter, IH. now rewrite orb_assoc.
Qed.

Lemma contains_char_mem c s :
  PyStr.contains (String c EmptyString) s = PyStr.mem_char c s.
Proof.
  induction s as [|x s IH]; [reflexivity|].
  rewrite contains_letter, IH. reflexivity.
Qed.

Lemma mem_char_append c a b :
  PyStr.mem_char c (a ++ b) = PyStr.mem_char c a || PyStr.mem_char c b.
Proof.
  induction a as [|x a IH]; [reflexivity|].
  cbn [append PyStr.mem_char]. rewrite IH. apply orb_assoc.
Qed.

Lemma append_assoc (a b c : string) : ((a ++ b) ++ c = a ++ (b ++ c))%string.
Proof. induction a as [|x a IH]; simpl; [reflexivity | now rewrite IH]. Qed.

Lemma startswith_through m : forall a c b,
  PyStr.mem_char c m = false ->
  PyStr.startswith m (a ++ String c b) = PyStr.startswith m a.
Proof.
  induction m as [|y m IH]; intros a c b H.
  - destruct a; reflexivity.
  - cbn [PyStr.mem_char] in H. apply orb_false_iff in H as [Hy Hm].
    destruct a as [|x a]; cbn [append PyStr.startswith].
    + unfold PyStr.eqb_ascii in *. rewrite Ascii.eqb_sym, Hy. reflexivity.
    + rewrite (IH a c b Hm). reflexivity.
Qed.

Lemma contains_through y m a c b :
  PyStr.mem_char c (String y m) = false ->
  PyStr.contains (String y m) (a ++ String c b)
  = PyStr.contains (String y m) a || PyStr.contains (String y m) b.
Proof.
  intros H. pose proof H as H'.
  cbn [PyStr.mem_char] in H'. apply orb_false_iff in H' as [Hy Hm].
  induction a as [|x a IH].
  - cbn [append PyStr.contains PyStr.startswith].
    unfold PyStr.eqb_ascii in *. rewrite Ascii.eqb_sym, Hy. reflexivity.
  - cbn [append PyStr.contains PyStr.startswith].
    rewrite (startswith_through m a c b Hm), IH. apply orb_assoc.
Qed.

(** ** Numeric normalizer *)

Lemma force_float_ok (elt : pyval) (f : PyFloat.float) :
  py_float elt = Ok f -> force_float elt = VFloat f.
Proof. unfold force_float. intros ->. reflexivity. Qed.

Lemma force_float_raise (elt : pyval) (e : exn) :
  py_float elt = Raise e -> force_float elt = elt.
Proof. unfold force_float. intros ->. reflexivity. Qed.

Lemma convert_M (s : string) :
  PyStr.contains "M" s = true ->
  _convert_to_numeric s
  = py_mul (force_float (VStr (PyStr.strip "M" s))) (VInt 1000000).
Proof. unfold _convert_to_numeric. intros ->. reflexivity. Qed.

Lemma convert_B (s : string) :
  PyStr.contains "M" s = false ->
  PyStr.contains "B" s = true ->
  _convert_to_numeric s
  = py_mul (force_float (VStr (PyStr.strip "B" s))) (VInt 1000000000).
Proof. unfold _convert_to_numeric. intros -> ->. reflexivity. Qed.

Lemma convert_plain (s : string) :
  PyStr.contains "M" s = false ->
  PyStr.contains "B" s = false ->
  _convert_to_numeric s = Ok (force_float (VStr s)).
Proof. unfold _convert_to_numeric. intros -> ->. reflexivity. Qed.

Lemma py_mul_float_int (f : PyFloat.float) (n : Z) (g : PyFloat.float) :
  PyFloat.of_int n = Ok g ->
  py_mul (VFloat f) (VInt n) = Ok (VFloat (PyFloat.mul f g)).
Proof. intros H. simpl. rewrite H. reflexivity. Qed.

Lemma py_mul_str_int (t : string) (n : Z) :
  py_mul (VStr t) (VInt n) = Ok (VStr (PyStr.repeat t n)).
Proof. reflexivity. Qed.

Lemma length_append (a b : string) :
  String.length (a ++ b) = (String.length a + String.length b)%nat.
Proof. induction a as [|c a IH]; simpl; [reflexivity | now rewrite IH]. Qed.

Lemma repeat_length (t : string) (p : positive) :
  Z.of_nat (String.length (PyStr.repeat t (Zpos p)))
  = Zpos p * Z.of_nat (String.length t).
Proof.
  unfold PyStr.repeat.
  induction p as [|p IH] using Pos.peano_ind.
  - simpl Pos.iter. rewrite length_append. simpl String.length. lia.
  - rewrite Pos.iter_succ, length_append, Nat2Z.inj_add, IH, Pos2Z.inj_succ. lia.
Qed.

Section FloatText.

(** A character that no text of a float holds: not a blank, a digit, a
    sign, a point, an underscore or an exponent mark, and not a letter of
    [inf], [infinity] or [nan] in either case. *)
Variable c : ascii.
Hypothesis c_not_blank : PyFloat.is_blank c = false.
Hypothesis c_not_digit : PyFloat.is_digit c = false.
Hypothesis c_not_mark : PyStr.mem_char c "_+-.eE" = false.
Hypothesis c_not_inf : PyStr.mem_char (PyStr.lower_char c) "inf" = false.
Hypothesis c_not_infinity : PyStr.mem_char (PyStr.lower_char c) "infinity" = false.
Hypothesis c_not_nan : PyStr.mem_char (PyStr.lower_char c) "nan" = false.













End FloatText.






(** C3, as stated, fails: a string holding [M] only in front is still
    special-cased. *)
Lemma non_trailing_letter_is_special_cased :
  ~ (forall s, only_non_trailing s = true ->
               _convert_to_numeric s = Ok (force_float (VStr s))).
Proof.
  intros H. specialize (H "M5" eq_refl). vm_compute in H. discriminate H.
Qed.

(** C3, amended.  The branch is chosen by containment, not by position:
    a string holding [M] anywhere (else [B] anywhere) has the leading and
    trailing occurrences of that letter stripped and, when the rest
    converts to a float, that float is multiplied by 1e6 (1e9); a string
    holding neither letter goes to the base coercion. *)
Theorem convert_to_numeric_by_containment (s : string) :
  (PyStr.contains "M" s = true ->
   forall f, py_float (VStr (PyStr.strip "M" s)) = Ok f ->
   _convert_to_numeric s = Ok (VFloat (PyFloat.mul f (PyFloat.nearest 1000000))))
  /\ (PyStr.contains "M" s = false -> PyStr.contains "B" s = true ->
      forall f, py_float (VStr (PyStr.strip "B" s)) = Ok f ->
      _convert_to_numeric s = Ok (VFloat (PyFloat.mul f (PyFloat.nearest 1000000000))))
  /\ (PyStr.contains "M" s = false -> PyStr.contains "B" s = false ->
      _convert_to_numeric s = Ok (force_float (VStr s))).
Proof.
  split; [|split].
  - intros HM f Hf. rewrite (convert_M _ HM), (force_float_ok _ _ Hf).
    apply py_mul_float_int. reflexivity.
  - intros HM HB f Hf. rewrite (convert_B _ HM HB), (force_float_ok _ _ Hf).
    apply py_mul_float_int. reflexivity.
  - apply convert_plain.
Qed.

Lemma convert_to_numeric_by_containment_witness :
  _convert_to_numeric "M5"
  = Ok (VFloat (PyFloat.mul (PyFloat.literal "5") (PyFloat.nearest 1000000)))
  /\ _convert_to_numeric "2.5B"
     = Ok (VFloat (PyFloat.mul (PyFloat.literal "2.5") (PyFloat.nearest 1000000000)))
  /\ _convert_to_numeric "1e3" = Ok (force_float (VStr "1e3")).
Proof.
  split; [|split].
  - apply (proj1 (convert_to_numeric_by_containment "M5")); vm_compute; reflexivity.
  - apply (proj1 (proj2 (convert_to_numeric_by_containment "2.5B")));
      vm_compute; reflexivity.
  - apply (proj2 (proj2 (convert_to_numeric_by_containment "1e3")));
      vm_compute; reflexivity.
Defined.

(** C10. When a string holds [M] (else [B]) and what is left after
    stripping that letter from both ends does not convert to a float,
    the normalizer returns that text repeated 1,000,000 (1,000,000,000)
    times: a string, neither the input nor a float. *)
Theorem convert_to_numeric_repeats_text (s : string) :
  (PyStr.contains "M" s = true ->
   forall e, py_float (VStr (PyStr.strip "M" s)) = Raise e ->
   _convert_to_numeric s = Ok (VStr (PyStr.repeat (PyStr.strip "M" s) 1000000))
   /\ Z.of_nat (String.length (PyStr.repeat (PyStr.strip "M" s) 1000000))
      = 1000000 * Z.of_nat (String.length (PyStr.strip "M" s)))
  /\ (PyStr.contains "M" s = false -> PyStr.contains "B" s = true ->
      forall e, py_float (VStr (PyStr.strip "B" s)) = Raise e ->
      _convert_to_numeric s = Ok (VStr (PyStr.repeat (PyStr.strip "B" s) 1000000000))
      /\ Z.of_nat (String.length (PyStr.repeat (PyStr.strip "B" s) 1000000000))
         = 1000000000 * Z.of_nat (String.length (PyStr.strip "B" s))).
Proof.
  split.
  - intros HM e He. split.
    + rewrite (convert_M _ HM), (force_float_raise _ _ He). apply py_mul_str_int.
    + apply repeat_length.
  - intros HM HB e He. split.
    + rewrite (convert_B _ HM HB), (force_float_raise _ _ He). apply py_mul_str_int.
    + apply repeat_length.
Qed.

Lemma convert_to_numeric_repeats_text_witness :
  (_convert_to_numeric "12M3"
   = Ok (VStr (PyStr.repeat (PyStr.strip "M" "12M3") 1000000))
   /\ Z.of_nat (String.length (PyStr.repeat (PyStr.strip "M" "12M3") 1000000))
      = 1000000 * Z.of_nat (String.length (PyStr.strip "M" "12M3")))
  /\ (_convert_to_numeric "12B3"
      = Ok (VStr (PyStr.repeat (PyStr.strip "B" "12B3") 1000000000))
      /\ Z.of_nat (String.length (PyStr.repeat (PyStr.strip "B" "12B3") 1000000000))
         = 1000000000 * Z.of_nat (String.length (PyStr.strip "B" "12B3"))).
Proof.
  split.
  - apply (proj1 (convert_to_numeric_repeats_text "12M3")
             eq_refl (ValueError "could not convert string to float: '12M3'")).
    reflexivity.
  - apply (proj2 (convert_to_numeric_repeats_text "12B3")
             eq_refl eq_refl (ValueError "could not convert string to float: '12B3'")).
    reflexivity.
Defined.

(** ** Raw/formatted repair *)

Lemma replace_absent (old new s : string) :
  PyStr.contains old s = false -> PyStr.replace old new s = s.
Proof.
  unfold PyStr.replace.
  induction s as [|c s IH]; intros H; [reflexivity|].
  simpl in H. apply orb_false_iff in H. destruct H as [Hhere Hlater].
  cbn [PyStr.replace_from]. rewrite Hhere. f_equal. apply IH. exact Hlater.
Qed.

Lemma sub_absent (p : Re.pattern) (s : string) :
  Re.search p s = false -> Re.sub_group1 p s = s.
Proof.
  unfold Re.sub_group1.
  induction s as [|c s IH]; intros H; cbn [Re.search] in H; cbn [Re.sub_from].
  - destruct (Re.match_here p EmptyString); [discriminate|reflexivity].
  - destruct (Re.match_here p (String c s)); [discriminate|].
    f_equal. apply IH. exact H.
Qed.

Lemma lazy_until c p' v rest groups rest' :
  PyStr.mem_char c v = false ->
  PyStr.mem_char Re.newline v = false ->
  Re.match_here p' rest = Some (groups, rest') ->
  Re.match_here (Re.LazyDots :: Re.Lit c :: p') (v ++ String c rest)
  = Some (v :: groups, rest').
Proof.
  intros Hc Hnl Hrest. induction v as [|x v IH].
  - cbn. unfold PyStr.eqb_ascii. rewrite Ascii.eqb_refl, Hrest. reflexivity.
  - cbn [PyStr.mem_char] in Hc, Hnl.
    apply orb_false_iff in Hc as [Hx Hc]. apply orb_false_iff in Hnl as [Hxn Hnl].
    specialize (IH Hc Hnl).
    cbn [append]. cbn [Re.match_here] in IH |- *.
    unfold PyStr.eqb_ascii in Hx, Hxn. rewrite Ascii.eqb_sym in Hxn.
    unfold PyStr.eqb_ascii at 1. rewrite Hx.
    unfold PyStr.eqb_ascii at 1. rewrite Hxn.
    rewrite IH. reflexivity.
Qed.

Lemma sub_from_skip p x tail :
  Re.sub_from p (String.length x) (x ++ tail) = Re.sub_from p 0 tail.
Proof.
  induction x as [|c x IH]; [reflexivity|].
  cbn [String.length append Re.sub_from]. exact IH.
Qed.

Lemma sub_from_match p c s groups rest :
  Re.match_here p (String c s) = Some (groups, rest) ->
  Re.sub_from p 0 (String c s)
  = hd EmptyString groups
    ++ match (String.length (String c s) - String.length rest)%nat with
       | O => String c (Re.sub_from p 0 s)
       | S k => Re.sub_from p k s
       end.
Proof.
  intros H. cbn [Re.sub_from]. rewrite H.
  destruct (String.length (String c s) - String.length rest)%nat; reflexivity.
Qed.

Lemma match_lit c p s :
  Re.match_here (Re.Lit c :: p) (String c s) = Re.match_here p s.
Proof. cbn [Re.match_here]. unfold PyStr.eqb_ascii. now rewrite Ascii.eqb_refl. Qed.

Lemma match_one_of chars d p s :
  PyStr.mem_char d chars = true ->
  Re.match_here (Re.OneOf chars :: p) (String d s) = Re.match_here p s.
Proof. intros H. cbn [Re.match_here]. now rewrite H. Qed.

Lemma match_wrapper q1 q2 raw others tail :
  PyStr.mem_char q1 quote_class = true ->
  PyStr.mem_char q2 quote_class = true ->
  PyStr.mem_char "," raw = false ->
  PyStr.mem_char Re.newline raw = false ->
  PyStr.mem_char "}" others = false ->
  PyStr.mem_char Re.newline others = false ->
  Re.match_here raw_pattern (wrapper_text q1 q2 raw others ++ tail)
  = Some ([raw; others], tail).
Proof.
  intros Hq1 Hq2 Hraw Hraw_nl Hothers Hothers_nl.
  unfold raw_pattern, wrapper_text.
  change (String "{" (String q1 ("raw" ++ String q2 (":" ++ raw ++ "," ++ others ++ "}")))
            ++ tail)
    with (String "{" (String q1 (String "r" (String "a" (String "w"
            (String q2 (String ":" ((raw ++ String "," (others ++ "}")) ++ tail)))))))).
  rewrite match_lit, (match_one_of _ _ _ _ Hq1), !match_lit.
  rewrite (match_one_of _ _ _ _ Hq2), match_lit.
  rewrite append_assoc.
  change (String "," (others ++ "}") ++ tail) with (String "," ((others ++ "}") ++ tail)).
  rewrite append_assoc.
  change ("}" ++ tail) with (String "}" tail).
  apply lazy_until; [exact Hraw | exact Hraw_nl |].
  apply lazy_until; [exact Hothers | exact Hothers_nl |].
  reflexivity.
Qed.

Lemma raw_pattern_parts : raw_pattern = (head_pattern ++ tail_pattern)%list.
Proof. reflexivity. Qed.

Lemma refused_prefix p q x :
  forallb (refuses x) p = true ->
  forall s, Re.match_here p s = None -> Re.match_here (p ++ q)%list s = None.
Proof.
  induction p as [|a p IH]; intros Hp s H; [discriminate H|].
  cbn [forallb] in Hp. apply andb_true_iff in Hp as [Ha Hp].
  destruct a as [c|chars|]; [| |discriminate Ha]; cbn [app Re.match_here] in *;
    (destruct s as [|d s]; [reflexivity|]).
  - destruct (PyStr.eqb_ascii c d); [exact (IH Hp s H) | reflexivity].
  - destruct (PyStr.mem_char d chars); [exact (IH Hp s H) | reflexivity].
Qed.

Lemma refused_extend p x :
  forallb (refuses x) p = true ->
  forall u y, Re.match_here p u = None -> Re.match_here p (u ++ String x y) = None.
Proof.
  induction p as [|a p IH]; intros Hp u y H; [discriminate H|].
  cbn [forallb] in Hp. apply andb_true_iff in Hp as [Ha Hp].
  destruct a as [c|chars|]; [| |discriminate Ha]; cbn [refuses] in Ha;
    apply negb_true_iff in Ha; cbn [Re.match_here] in *;
    (destruct u as [|d u]; cbn [append]; [now rewrite Ha|]).
  - destruct (PyStr.eqb_ascii c d); [exact (IH Hp u y H) | reflexivity].
  - destruct (PyStr.mem_char d chars); [exact (IH Hp u y H) | reflexivity].
Qed.

(** Where no head starts, no wrapper is matched, whatever follows the
    text, as long as it begins with a character the head cannot read
    after its brace. *)
Lemma no_match_through c t x y :
  forallb (refuses x) after_brace = true ->
  Re.match_here head_pattern (String c t) = None ->
  Re.match_here raw_pattern (String c (t ++ String x y)) = None.
Proof.
  intros Hx H. rewrite raw_pattern_parts.
  apply (refused_prefix head_pattern tail_pattern " " eq_refl).
  unfold head_pattern in *. cbn [Re.match_here] in *.
  destruct (PyStr.eqb_ascii "{" c); [|reflexivity].
  exact (refused_extend after_brace x Hx t y H).
Qed.

Lemma no_match_at_end s :
  Re.match_here head_pattern s = None -> Re.match_here raw_pattern s = None.
Proof.
  rewrite raw_pattern_parts.
  apply (refused_prefix head_pattern tail_pattern " " eq_refl).
Qed.

Lemma head_free_cons c t :
  head_free (String c t) = true ->
  Re.match_here head_pattern (String c t) = None /\ head_free t = true.
Proof.
  unfold head_free. cbn [Re.search].
  destruct (Re.match_here head_pattern (String c t)); [discriminate|].
  intros H. split; [reflexivity | exact H].
Qed.

Lemma search_end t : head_free t = true -> Re.search raw_pattern t = false.
Proof.
  induction t as [|c t IH]; intros H; [reflexivity|].
  apply head_free_cons in H as [Hhere Hrest].
  cbn [Re.search]. rewrite (no_match_at_end _ Hhere). exact (IH Hrest).
Qed.

Lemma search_through t x y :
  forallb (refuses x) after_brace = true ->
  head_free t = true ->
  Re.search raw_pattern (t ++ String x y) = Re.search raw_pattern (String x y).
Proof.
  intros Hx. induction t as [|c t IH]; intros H; [reflexivity|].
  apply head_free_cons in H as [Hhere Hrest].
  cbn [append Re.search]. rewrite (no_match_through c t x y Hx Hhere).
  exact (IH Hrest).
Qed.

Lemma sub_through t x y :
  forallb (refuses x) after_brace = true ->
  head_free t = true ->
  Re.sub_from raw_pattern 0 (t ++ String x y)
  = t ++ Re.sub_from raw_pattern 0 (String x y).
Proof.
  intros Hx. induction t as [|c t IH]; intros H; [reflexivity|].
  apply head_free_cons in H as [Hhere Hrest].
  cbn [append]. cbn [Re.sub_from]. rewrite (no_match_through c t x y Hx Hhere).
  f_equal. exact (IH Hrest).
Qed.

Lemma wrapper_ok_parts x :
  wrapper_ok x = true ->
  PyStr.mem_char (open_quote x) quote_class = true
  /\ PyStr.mem_char (close_quote x) quote_class = true
  /\ PyStr.mem_char "," (raw_text x) = false
  /\ PyStr.mem_char Re.newline (raw_text x) = false
  /\ PyStr.mem_char "}" (other_text x) = false
  /\ PyStr.mem_char Re.newline (other_text x) = false.
Proof.
  unfold wrapper_ok. intros H.
  repeat (apply andb_true_iff in H as [H ?]).
  repeat match goal with
         | H : negb _ = true |- _ => apply negb_true_iff in H
         end.
  auto 10.
Qed.

(** A wrapper is replaced by its raw text, and the scan resumes after
    its closing brace. *)
Lemma sub_wrapper x rest :
  wrapper_ok x = true ->
  Re.sub_from raw_pattern 0 (text_of x ++ rest)
  = raw_text x ++ Re.sub_from raw_pattern 0 rest.
Proof.
  intros Hx. destruct (wrapper_ok_parts x Hx) as (Hq1 & Hq2 & Hraw & Hraw_nl & Hoth & Hoth_nl).
  pose proof (match_wrapper _ _ _ _ rest Hq1 Hq2 Hraw Hraw_nl Hoth Hoth_nl) as Hmatch.
  unfold text_of.
  set (inner := String (open_quote x)
                  ("raw" ++ String (close_quote x)
                              (":" ++ raw_text x ++ "," ++ other_text x ++ "}"))).
  change (wrapper_text (open_quote x) (close_quote x) (raw_text x) (other_text x) ++ rest)
    with (String "{" (inner ++ rest)) in *.
  rewrite (sub_from_match _ _ _ _ _ Hmatch). cbn [hd].
  replace (String.length (String "{" (inner ++ rest)) - String.length rest)%nat
    with (S (String.length inner))
    by (cbn [String.length]; rewrite length_append; lia).
  f_equal. apply sub_from_skip.
Qed.

(** A stretch without a head is copied, and the wrapper after it gives
    way to its raw text. *)
Lemma sub_step t0 x rest :
  head_free t0 = true ->
  wrapper_ok x = true ->
  Re.sub_from raw_pattern 0 (t0 ++ text_of x ++ rest)
  = t0 ++ raw_text x ++ Re.sub_from raw_pattern 0 rest.
Proof.
  intros H0 Hx. rewrite <- (sub_wrapper x rest Hx).
  unfold text_of, wrapper_text. apply (sub_through t0 "{" _ eq_refl H0).
Qed.

Lemma skip_without_brace (P : string -> bool) v r :
  (forall c s, PyStr.eqb_ascii "{" c = false -> P (String c s) = P s) ->
  PyStr.mem_char "{" v = false -> P (v ++ r) = P r.
Proof.
  intros HP. induction v as [|c v IH]; intros H; [reflexivity|].
  cbn [PyStr.mem_char] in H. apply orb_false_iff in H as [Hc Hv].
  cbn [append]. rewrite (HP c _ Hc). exact (IH Hv).
Qed.

Lemma search_skips c s :
  PyStr.eqb_ascii "{" c = false ->
  Re.search raw_pattern (String c s) = Re.search raw_pattern s.
Proof.
  intros Hc. cbn [Re.search]. unfold raw_pattern at 1. cbn [Re.match_here].
  rewrite Hc. reflexivity.
Qed.

Lemma empty_object_skips c s :
  PyStr.eqb_ascii "{" c = false ->
  PyStr.contains "{}" (String c s) = PyStr.contains "{}" s.
Proof. intros Hc. cbn [PyStr.contains PyStr.startswith]. rewrite Hc. reflexivity. Qed.

Lemma flat_raw_parts x :
  flat_raw x = true ->
  (exists v, raw_text x = String " " v)
  /\ PyStr.mem_char "{" (raw_text x) = false.
Proof.
  unfold flat_raw. intros H.
  apply andb_true_iff in H as [H _]. apply andb_true_iff in H as [Hb Hopen].
  apply negb_true_iff in Hopen. split; [|exact Hopen].
  destruct (raw_text x) as [|c v]; [discriminate Hb|].
  unfold PyStr.eqb_ascii in Hb. apply Ascii.eqb_eq in Hb. subst c. now exists v.
Qed.

(** Once every wrapper has given way to its raw text, the text holds
    neither a wrapper nor an empty object literal. *)
Lemma unwrapped_is_clean ws : forall t0,
  segment_ok t0 = true ->
  forallb (fun xt => wrapper_ok (fst xt) && flat_raw (fst xt) && segment_ok (snd xt)) ws
  = true ->
  Re.search raw_pattern (unwrapped t0 ws) = false
  /\ PyStr.contains "{}" (unwrapped t0 ws) = false.
Proof.
  induction ws as [|[x t] ws IH]; intros t0 H0 Hws; cbn [unwrapped];
    unfold segment_ok in H0; apply andb_true_iff in H0 as [Hhead Hobj];
    apply negb_true_iff in Hobj.
  - split; [exact (search_end t0 Hhead) | exact Hobj].
  - cbn [forallb fst snd] in Hws.
    apply andb_true_iff in Hws as [Hxt Hws]. apply andb_true_iff in Hxt as [Hx Ht].
    apply andb_true_iff in Hx as [_ Hflat].
    destruct (flat_raw_parts x Hflat) as ((v & Hv) & Hopen).
    destruct (IH t Ht Hws) as (IHs & IHc).
    assert (Hs : Re.search raw_pattern (raw_text x ++ unwrapped t ws) = false).
    { rewrite (skip_without_brace (Re.search raw_pattern) _ _ search_skips Hopen).
      exact IHs. }
    assert (Hc : PyStr.contains "{}" (raw_text x ++ unwrapped t ws) = false).
    { rewrite (skip_without_brace (PyStr.contains "{}") _ _ empty_object_skips Hopen).
      exact IHc. }
    rewrite Hv in *. cbn [append] in *. split.
    + rewrite (search_through t0 " " _ eq_refl Hhead). exact Hs.
    + rewrite (contains_through "{" "}" t0 " " _ eq_refl), Hobj.
      cbn [orb]. rewrite (empty_object_skips " " _ eq_refl) in Hc. exact Hc.
Qed.

(** C5, as stated, fails: the repaired text of a wrapper nested in the
    [raw] value of another still holds a raw wrapper, and a second repair
    changes it. *)
Lemma repair_not_idempotent :
  Re.search raw_pattern (repair (Json.dumps nested_wrapper)) = true
  /\ repair (repair (Json.dumps nested_wrapper)) <> repair (Json.dumps nested_wrapper).
Proof.
  split; [vm_compute; reflexivity|].
  vm_compute. discriminate.
Qed.

Lemma repair_noop_without_patterns (s : string) :
  PyStr.contains "{}" s = false ->
  Re.search raw_pattern s = false ->
  repair s = s.
Proof.
  intros Hobj Hraw. unfold repair.
  rewrite (replace_absent _ _ _ Hobj). apply sub_absent. exact Hraw.
Qed.

(** C5, amended.  The repair is idempotent on texts whose raw wrappers
    are flat.  When the text left by the replacement of the empty object
    literals is cut by its wrappers into stretches that hold neither a
    wrapper head nor an empty object literal, and every wrapper has a raw
    text that starts with a blank and holds no comma, brace or newline,
    and other fields that hold no closing brace or newline, then the
    repair puts the raw text in the place of every wrapper, and repairing
    the result again changes nothing. *)
Theorem repair_idempotent_on_flat_wrappers (s t0 : string) (ws : list (wrapper * string)) :
  PyStr.replace "{}" "null" s = wrapped t0 ws ->
  segment_ok t0 = true ->
  forallb (fun xt => wrapper_ok (fst xt) && flat_raw (fst xt) && segment_ok (snd xt)) ws
  = true ->
  repair s = unwrapped t0 ws
  /\ repair (repair s) = repair s.
Proof.
  intros Hs H0 Hws.
  assert (Hfirst : repair s = unwrapped t0 ws).
  { unfold repair, Re.sub_group1. rewrite Hs. clear Hs. revert t0 H0.
    induction ws as [|[x t] ws IH]; intros t0 H0; cbn [wrapped unwrapped];
      unfold segment_ok in H0; apply andb_true_iff in H0 as [H0 _].
    - apply sub_absent. exact (search_end t0 H0).
    - cbn [forallb fst snd] in Hws.
      apply andb_true_iff in Hws as [Hxt Hws]. apply andb_true_iff in Hxt as [Hx Ht].
      apply andb_true_iff in Hx as [Hx _].
      rewrite (sub_step t0 x _ H0 Hx), (IH Hws t Ht). reflexivity. }
  split; [exact Hfirst|].
  rewrite Hfirst.
  destruct (unwrapped_is_clean ws t0 H0 Hws) as (Hsearch & Hobj).
  exact (repair_noop_without_patterns _ Hobj Hsearch).
Qed.

Lemma repair_idempotent_on_flat_wrappers_witness :
  repair (Json.dumps flat_wrappers)
  = "{" ++ Json.quoted "a" ++ ":  5, " ++ Json.quoted "b" ++ ": null, "
      ++ Json.quoted "c" ++ ": [ 1, null]}"
  /\ repair (repair (Json.dumps flat_wrappers)) = repair (Json.dumps flat_wrappers).
Proof.
  apply (repair_idempotent_on_flat_wrappers
           (Json.dumps flat_wrappers)
           ("{" ++ Json.quoted "a" ++ ": ")
           [(mkWrapper "034" "034" " 5" (" " ++ Json.quoted "fmt" ++ ": " ++ Json.quoted "5"),
             ", " ++ Json.quoted "b" ++ ": null, " ++ Json.quoted "c" ++ ": [");
            (mkWrapper "034" "034" " 1"
               (" " ++ Json.quoted "fmt" ++ ": " ++ Json.quoted "1,0" ++ ", "
                    ++ Json.quoted "longFmt" ++ ": " ++ Json.quoted "1"),
             ", null]}")]);
    vm_compute; reflexivity.
Defined.

(** ** Statement flattener *)

(** The labels of the table of the two sample records: the items down
    the rows, the dates across the columns. *)
Example parse_table_sample :
  match _parse_table period_records with
  | Ok df =>
      (Pd.index df, Pd.index_name df, map fst (Pd.columns df), Pd.columns_name df)
      = ([Pd.name "netIncome"; Pd.name "ebit"], Some "Breakdown",
         [Pd.CT (Pd.Ts 1609372800); Pd.CT (Pd.Ts 1577750400)], Some "endDate")
  | Raise _ => False
  end.
Proof. vm_compute. reflexivity. Qed.

(** C9. Flattening an empty sequence of period records gives the empty
    table; the [maxAge] column, which that table does not have and whose
    removal would raise, is never touched. *)
Theorem parse_table_empty :
  _parse_table (JArr []) = Ok Pd.empty_frame
  /\ Pd.empty Pd.empty_frame = true
  /\ Pd.drop_column "maxAge" Pd.empty_frame = Raise (KeyError "maxAge").
Proof. split; [|split]; reflexivity. Qed.

(** ** Endpoint builder *)

Section BuildUrl.

Variable timestamp_seconds : date_like -> res Z.

Lemma build_url_world ticker start_date end_date interval w r w' :
  build_url timestamp_seconds ticker start_date end_date interval w = (r, w') ->
  w' = w.
Proof.
  unfold build_url, bind, lift, clock, ret.
  destruct end_date as [d|]; [destruct (timestamp_seconds d)|];
    (destruct start_date as [d'|]; [destruct (timestamp_seconds d')|]);
    intros H; inversion H; reflexivity.
Qed.

(** C7. The endpoint builder returns the chart root followed by the
    ticker, and the parameters [period1], [period2], [interval] and
    [events = div,splits]; [period1] is 7223400 when no start date is
    given, and a date that is given counts as its integer seconds.  The
    world, and with it the list of requests sent, is left as it was.
    When no end date is given [period2] is the local wall clock read as
    UTC: the Unix time moved by the offset of the local zone, which is
    the current time only where that offset is zero. *)
Theorem build_url_spec ticker start_date end_date interval w p1 p2 :
  match start_date with
  | None => Ok 7223400
  | Some d => timestamp_seconds d
  end = Ok p1 ->
  match end_date with
  | None => Ok (now_seconds w + utc_offset w)
  | Some d => timestamp_seconds d
  end = Ok p2 ->
  build_url timestamp_seconds ticker start_date end_date interval w
  = (Ok (base_url ++ ticker,
         [("period1", VInt p1); ("period2", VInt p2);
          ("interval", VStr (PyStr.lower interval)); ("events", VStr "div,splits")]),
     w)
  /\ (end_date = None -> utc_offset w <> 0 -> p2 <> now_seconds w).
Proof.
  intros H1 H2. split.
  - unfold build_url, bind, lift, clock, wall_seconds, ret.
    destruct end_date as [d|]; destruct start_date as [d'|];
      try rewrite H2; try rewrite H1;
      repeat match goal with
             | H : Ok _ = Ok _ |- _ => injection H as <-
             end; reflexivity.
  - intros -> Hoff. injection H2 as <-. lia.
Qed.

End BuildUrl.

Lemma build_url_spec_witness :
  build_url epoch_ticks "aapl" None None "1WK" quiet_world
  = (Ok ("https://query1.finance.yahoo.com/v8/finance/chart/aapl",
         [("period1", VInt 7223400); ("period2", VInt 1700000000);
          ("interval", VStr "1wk"); ("events", VStr "div,splits")]),
     quiet_world)
  /\ build_url epoch_ticks "aapl" (Some (DateTicks 86400000000000)) None "1d" quiet_world
     = (Ok ("https://query1.finance.yahoo.com/v8/finance/chart/aapl",
            [("period1", VInt 86400); ("period2", VInt 1700000000);
             ("interval", VStr "1d"); ("events", VStr "div,splits")]),
        quiet_world)
  /\ (now_seconds tokyo_world = 1700000000
      /\ build_url epoch_ticks "aapl" None None "1d" tokyo_world
         = (Ok ("https://query1.finance.yahoo.com/v8/finance/chart/aapl",
                [("period1", VInt 7223400); ("period2", VInt 1700032400);
                 ("interval", VStr "1d"); ("events", VStr "div,splits")]),
            tokyo_world)
      /\ 1700032400 <> now_seconds tokyo_world).
Proof.
  split; [|split; [|split; [|split]]].
  - apply (build_url_spec epoch_ticks "aapl" None None "1WK" quiet_world); reflexivity.
  - apply (build_url_spec epoch_ticks "aapl" (Some (DateTicks 86400000000000)) None "1d"
             quiet_world); reflexivity.
  - reflexivity.
  - apply (build_url_spec epoch_ticks "aapl" None None "1d" tokyo_world); reflexivity.
  - apply (proj2 (build_url_spec epoch_ticks "aapl" None None "1d" tokyo_world
                    7223400 1700032400 eq_refl eq_refl)); [reflexivity|].
    vm_compute. discriminate.
Defined.

(** ** Time-series assembler: guards *)

Section Guards.

Variable json_loads : string -> res json.
Variable timestamp_seconds : date_like -> res Z.


Lemma contains_obj key fields :
  Json.contains key (JObj fields)
  = Ok (match Json.lookup key fields with Some _ => true | None => false end).
Proof. reflexivity. Qed.

Lemma getitem_obj key fields v :
  Json.lookup key fields = Some v -> Json.getitem (JObj fields) key = Ok v.
Proof. intros H. simpl. rewrite H. reflexivity. Qed.

(** C1. With a chart payload whose [events] object has no [dividends]
    key, [get_dividends] returns the empty table; with one whose [events]
    object has no [splits] key, [get_splits] raises.  When [events] itself
    is missing the two differ in the same way.  Ticker, dates and headers
    are arbitrary. *)
Theorem absent_dividends_empty_absent_splits_fatal
    ticker start_date end_date index_as_date headers w site params data r :
  build_url timestamp_seconds ticker start_date end_date "1d" w = (Ok (site, params), w) ->
  ok (answer w (mkRequest site params headers)) = true ->
  json_loads (text (answer w (mkRequest site params headers))) = Ok data ->
  chart_result data = Ok (JObj r) ->
  (forall ev, Json.lookup "events" r = Some (JObj ev) ->
              Json.lookup "dividends" ev = None ->
              fst (get_dividends json_loads timestamp_seconds ticker start_date end_date
                     index_as_date headers w)
              = Ok Pd.empty_frame)
  /\ (forall ev, Json.lookup "events" r = Some (JObj ev) ->
                 Json.lookup "splits" ev = None ->
                 fst (get_splits json_loads timestamp_seconds ticker start_date end_date
                        index_as_date headers w)
                 = Raise (AssertionError (JStr no_splits_message)))
  /\ (Json.lookup "events" r = None ->
      fst (get_dividends json_loads timestamp_seconds ticker start_date end_date
             index_as_date headers w)
      = Ok Pd.empty_frame
      /\ fst (get_splits json_loads timestamp_seconds ticker start_date end_date
                index_as_date headers w)
         = Raise (KeyError "events")).
Proof.
  intros Hurl Hok Hdata Hres.
  assert (Hdiv : get_dividends json_loads timestamp_seconds ticker start_date end_date
                   index_as_date headers w
                 = (no_events <- lift (res_bind (Json.contains "events" (JObj r))
                                         (fun b => Ok (negb b))) ;;
                    no_dividends <-
                      (if no_events then ret true
                       else lift (res_bind (Json.getitem (JObj r) "events") (fun ev =>
                                  res_bind (Json.contains "dividends" ev)
                                    (fun b => Ok (negb b))))) ;;
                    if no_dividends then ret Pd.empty_frame
                    else
                      dividends <- lift (res_bind (Json.getitem (JObj r) "events") (fun ev =>
                                         Json.getitem ev "dividends")) ;;
                      frame <- lift (events_frame ticker dividends) ;;
                      frame <- lift (Pd.drop_columns ["date"] frame) ;;
                      let frame := Pd.rename_column "amount" "dividend" frame in
                      if negb index_as_date
                      then lift (index_to_date_column frame)
                      else ret frame)
                     (log_request (mkRequest site params headers) w)).
  { unfold get_dividends, bind at 1. rewrite Hurl.
    unfold bind at 1, requests_get. rewrite Hok. cbn [negb].
    unfold bind at 1, lift at 1, resp_json. rewrite Hdata, Hres. reflexivity. }
  assert (Hspl : get_splits json_loads timestamp_seconds ticker start_date end_date
                   index_as_date headers w
                 = (no_splits <- lift (res_bind (Json.getitem (JObj r) "events") (fun ev =>
                                       res_bind (Json.contains "splits" ev)
                                         (fun b => Ok (negb b)))) ;;
                    if no_splits
                    then raise (AssertionError (JStr no_splits_message))
                    else
                      splits <- lift (res_bind (Json.getitem (JObj r) "events") (fun ev =>
                                      Json.getitem ev "splits")) ;;
                      frame <- lift (events_frame ticker splits) ;;
                      frame <- lift (Pd.drop_columns ["date"; "denominator"; "numerator"]
                                       frame) ;;
                      if negb index_as_date
                      then lift (index_to_date_column frame)
                      else ret frame)
                     (log_request (mkRequest site params headers) w)).
  { unfold get_splits, bind at 1. rewrite Hurl.
    unfold bind at 1, requests_get. rewrite Hok. cbn [negb].
    unfold bind at 1, lift at 1, resp_json. rewrite Hdata, Hres. reflexivity. }
  split; [|split].
  - intros ev Hev Habsent. rewrite Hdiv.
    unfold bind, lift, ret. rewrite contains_obj, Hev. cbn [res_bind negb].
    rewrite (getitem_obj _ _ _ Hev). cbn [res_bind].
    rewrite contains_obj, Habsent. reflexivity.
  - intros ev Hev Habsent. rewrite Hspl.
    unfold bind, lift, raise. rewrite (getitem_obj _ _ _ Hev). cbn [res_bind].
    rewrite contains_obj, Habsent. reflexivity.
  - intros Hnone. split.
    + rewrite Hdiv. unfold bind, lift, ret. rewrite contains_obj, Hnone. reflexivity.
    + rewrite Hspl. unfold bind, lift. cbn [Json.getitem]. rewrite Hnone. reflexivity.
Qed.

(** C2, amended.  On a non-success response [get_data] and [get_splits]
    raise an [AssertionError] that carries the decoded error body (the
    decoding error itself when the body is not JSON), after the one
    request and no other; [get_dividends] returns the empty table
    instead. *)
Theorem non_success_fatal_for_prices_and_splits
    ticker start_date end_date index_as_date headers w :
  (forall interval site params,
     existsb (String.eqb interval) ["1d"; "1wk"; "1mo"; "1m"] = true ->
     build_url timestamp_seconds ticker start_date end_date interval w = (Ok (site, params), w) ->
     ok (answer w (mkRequest site params headers)) = false ->
     get_data json_loads timestamp_seconds ticker start_date end_date index_as_date interval headers w
     = (match json_loads (text (answer w (mkRequest site params headers))) with
        | Ok body => Raise (AssertionError body)
        | Raise e => Raise e
        end,
        log_request (mkRequest site params headers) w))
  /\ (forall site params,
        build_url timestamp_seconds ticker start_date end_date "1d" w = (Ok (site, params), w) ->
        ok (answer w (mkRequest site params headers)) = false ->
        get_splits json_loads timestamp_seconds ticker start_date end_date index_as_date headers w
        = (match json_loads (text (answer w (mkRequest site params headers))) with
           | Ok body => Raise (AssertionError body)
           | Raise e => Raise e
           end,
           log_request (mkRequest site params headers) w)
        /\ get_dividends json_loads timestamp_seconds ticker start_date end_date index_as_date headers w
           = (Ok Pd.empty_frame, log_request (mkRequest site params headers) w)).
Proof.
  split.
  - intros interval site params Hvalid Hurl Hok.
    unfold get_data. rewrite Hvalid. cbn [negb].
    unfold bind at 1. rewrite Hurl.
    unfold bind at 1, requests_get. rewrite Hok. cbn [negb].
    unfold bind, lift, resp_json, raise.
    destruct (json_loads _); reflexivity.
  - intros site params Hurl Hok. split.
    + unfold get_splits, bind at 1. rewrite Hurl.
      unfold bind at 1, requests_get. rewrite Hok. cbn [negb].
      unfold bind, lift, resp_json, raise.
      destruct (json_loads _); reflexivity.
    + unfold get_dividends, bind at 1. rewrite Hurl.
      unfold bind at 1, requests_get. rewrite Hok. reflexivity.
Qed.

End Guards.

Example dividends_table :
  fst (get_dividends sample_loads epoch_ticks "msft" None None true default_headers
         (world_answering (mkResponse true "dividends")))
  = Ok (Pd.mkFrame
          [Pd.CT (Pd.Ts 1604620800); Pd.CT (Pd.Ts 1612483200)] None
          [(Pd.name "dividend", [Pd.CJ (JInt 1); Pd.CJ (JInt 2)]);
           (Pd.name "ticker", [Pd.CJ (JStr "MSFT"); Pd.CJ (JStr "MSFT")])]
          None).
Proof. vm_compute. reflexivity. Qed.

Lemma absent_dividends_empty_absent_splits_fatal_witness :
  fst (get_dividends sample_loads epoch_ticks "msft" None None true default_headers
         (world_answering (mkResponse true "no actions")))
  = Ok Pd.empty_frame
  /\ fst (get_splits sample_loads epoch_ticks "msft" None None true default_headers
            (world_answering (mkResponse true "no actions")))
     = Raise (AssertionError (JStr no_splits_message)).
Proof.
  pose proof (absent_dividends_empty_absent_splits_fatal sample_loads epoch_ticks
                "msft" None None true default_headers
                (world_answering (mkResponse true "no actions"))
                (base_url ++ "msft")
                [("period1", VInt 7223400); ("period2", VInt 1700000000);
                 ("interval", VStr "1d"); ("events", VStr "div,splits")]
                no_actions_payload
                [("meta", JObj []); ("events", JObj [])]
                eq_refl eq_refl eq_refl eq_refl) as (Hdiv & Hsplit & _).
  split; [apply (Hdiv []) | apply (Hsplit [])]; reflexivity.
Defined.

(** C2, as stated, fails for [get_dividends]: a non-success response gives
    the empty table, not an error. *)
Lemma get_dividends_swallows_failure :
  ok (answer quiet_world
        (mkRequest (base_url ++ "msft")
           [("period1", VInt 7223400); ("period2", VInt 1700000000);
            ("interval", VStr "1d"); ("events", VStr "div,splits")]
           default_headers)) = false
  /\ fst (get_dividends sample_loads epoch_ticks "msft" None None true default_headers
            quiet_world)
     = Ok Pd.empty_frame.
Proof. split; reflexivity. Qed.

Lemma non_success_fatal_for_prices_and_splits_witness :
  get_data sample_loads epoch_ticks "msft" None None true "1d" default_headers quiet_world
  = (Raise (AssertionError not_found_payload),
     log_request
       (mkRequest (base_url ++ "msft")
          [("period1", VInt 7223400); ("period2", VInt 1700000000);
           ("interval", VStr "1d"); ("events", VStr "div,splits")]
          default_headers) quiet_world)
  /\ get_splits sample_loads epoch_ticks "msft" None None true default_headers quiet_world
     = (Raise (AssertionError not_found_payload),
        log_request
          (mkRequest (base_url ++ "msft")
             [("period1", VInt 7223400); ("period2", VInt 1700000000);
              ("interval", VStr "1d"); ("events", VStr "div,splits")]
             default_headers) quiet_world).
Proof.
  pose proof (non_success_fatal_for_prices_and_splits sample_loads epoch_ticks
                "msft" None None true default_headers quiet_world) as [Hdata Hsplits].
  split.
  - apply (Hdata "1d"); reflexivity.
  - apply Hsplits; reflexivity.
Defined.

(** ** Earnings calendar: pagination *)

Section Pagination.

Variable json_loads : string -> res json.
Variable strftime_ymd : date_like -> res string.

Lemma parse_earnings_json_world url headers w r w1 :
  _parse_earnings_json json_loads url headers w = (r, w1) ->
  w1 = log_request (mkRequest url [] headers) w.
Proof.
  unfold _parse_earnings_json, bind at 1, requests_get.
  unfold bind, lift.
  destruct (list_get _ 0); [destruct (list_get _ 1)|];
    intros H; inversion H; reflexivity.
Qed.

(** One frame of the recursion. *)
Lemma get_earnings_for_date_frame depth date offset count :
  get_earnings_for_date json_loads strftime_ymd (S depth) date offset count
  = (at_end <- lift (offset_ge offset count) ;;
     if at_end then ret []
     else
       date <- lift (strftime_ymd date) ;;
       result <- _parse_earnings_json json_loads (dated_url date offset) default_headers ;;
       stores <- lift (stores_of_page result) ;;
       earnings_count <- lift (reported_total stores) ;;
       more_earnings <- get_earnings_for_date json_loads strftime_ymd depth
                          (DateText date) (offset + 100) earnings_count ;;
       current_earnings <- lift (page_rows stores) ;;
       total_earnings <- lift (concat_rows current_earnings more_earnings) ;;
       ret total_earnings).
Proof. reflexivity. Qed.

(** The recursive call made after a first page of 100 entries out of 100
    reported: its offset has reached the count, it returns the empty list
    and touches nothing. *)
Lemma last_page_is_empty depth date w :
  get_earnings_for_date json_loads strftime_ymd (S depth) date 100 (JInt 100) w
  = (Ok [], w).
Proof. reflexivity. Qed.

(** C8. When the first page reports a total equal to the page size, 100,
    the fetch returns the rows of that page after one request and one
    recursive call: two frames are enough whatever more is granted, and
    one frame is not. *)
Theorem pagination_stops_after_first_page depth date d w result w1 stores rows :
  strftime_ymd date = Ok d ->
  _parse_earnings_json json_loads (dated_url d 0) default_headers w = (Ok result, w1) ->
  stores_of_page result = Ok stores ->
  reported_total stores = Ok (JInt 100) ->
  page_rows stores = Ok (JArr rows) ->
  get_earnings_for_date json_loads strftime_ymd (S (S depth)) date 0 (JInt 1) w
  = (Ok rows, w1)
  /\ get_earnings_for_date json_loads strftime_ymd 1 date 0 (JInt 1) w
     = (Raise RecursionError, w1)
  /\ (forall w', get_earnings_for_date json_loads strftime_ymd (S depth) (DateText d)
                   (0 + 100) (JInt 100) w' = (Ok [], w'))
  /\ sent w1 = (sent w ++ [mkRequest (dated_url d 0) [] default_headers])%list.
Proof.
  intros Hdate Hpage Hstores Htotal Hrows.
  split; [|split; [|split]].
  - rewrite get_earnings_for_date_frame.
    unfold bind at 1, lift at 1. cbn [offset_ge Z.leb Z.compare].
    unfold bind at 1, lift at 1. rewrite Hdate.
    unfold bind at 1. rewrite Hpage.
    unfold bind at 1, lift at 1. rewrite Hstores.
    unfold bind at 1, lift at 1. rewrite Htotal.
    unfold bind at 1. change (0 + 100) with 100. rewrite last_page_is_empty.
    unfold bind at 1, lift at 1. rewrite Hrows.
    unfold bind, lift, ret, concat_rows. rewrite app_nil_r. reflexivity.
  - rewrite get_earnings_for_date_frame.
    unfold bind at 1, lift at 1. cbn [offset_ge Z.leb Z.compare].
    unfold bind at 1, lift at 1. rewrite Hdate.
    unfold bind at 1. rewrite Hpage.
    unfold bind at 1, lift at 1. rewrite Hstores.
    unfold bind at 1, lift at 1. rewrite Htotal.
    reflexivity.
  - intros w'. apply last_page_is_empty.
  - rewrite (parse_earnings_json_world _ _ _ _ _ Hpage). reflexivity.
Qed.

End Pagination.

Lemma pagination_stops_after_first_page_witness :
  get_earnings_for_date sample_loads keep_text 2 (DateText "2021-02-03") 0 (JInt 1)
    (world_answering (mkResponse true earnings_html))
  = (Ok sample_rows,
     log_request (mkRequest (dated_url "2021-02-03" 0) [] default_headers)
       (world_answering (mkResponse true earnings_html)))
  /\ get_earnings_for_date sample_loads keep_text 1 (DateText "2021-02-03") 0 (JInt 1)
       (world_answering (mkResponse true earnings_html))
     = (Raise RecursionError,
        log_request (mkRequest (dated_url "2021-02-03" 0) [] default_headers)
          (world_answering (mkResponse true earnings_html))).
Proof.
  pose proof (pagination_stops_after_first_page sample_loads keep_text 0
                (DateText "2021-02-03") "2021-02-03"
                (world_answering (mkResponse true earnings_html))
                (earnings_page 100 sample_rows)
                (log_request (mkRequest (dated_url "2021-02-03" 0) [] default_headers)
                   (world_answering (mkResponse true earnings_html)))
                (JObj [("ScreenerCriteriaStore",
                        JObj [("meta", JObj [("total", JInt 100)])]);
                       ("ScreenerResultsStore",
                        JObj [("results", JObj [("rows", JArr sample_rows)])])])
                sample_rows
                eq_refl eq_refl eq_refl eq_refl eq_refl) as (Hrun & Hshort & _).
  split; [exact Hrun | exact Hshort].
Defined.

(** ** Time-series assembler: the day-floor invariant *)

Lemma bind_ok {A B} (m : M A) (k : A -> M B) w b w' :
  bind m k w = (Ok b, w') ->
  exists a w1, m w = (Ok a, w1) /\ k a w1 = (Ok b, w').
Proof.
  unfold bind. destruct (m w) as [[a|e] w1]; intros H.
  - exists a, w1. split; [reflexivity | exact H].
  - discriminate H.
Qed.

Lemma lift_ok {A} (r : res A) w a w' :
  lift r w = (Ok a, w') -> r = Ok a /\ w' = w.
Proof. unfold lift. intros H. inversion H. split; reflexivity. Qed.

Lemma res_bind_ok {A B} (r : res A) (k : A -> res B) b :
  res_bind r k = Ok b -> exists a, r = Ok a /\ k a = Ok b.
Proof.
  destruct r as [a|e]; simpl; intros H; [exists a; split; [reflexivity|exact H] | discriminate H].
Qed.

Lemma set_axis_ok labels name df df' :
  Pd.set_axis labels name df = Ok df' ->
  Pd.index df' = labels /\ Pd.index_name df' = name /\ Pd.columns df' = Pd.columns df.
Proof.
  unfold Pd.set_axis. destruct (_ =? _)%nat; intros H; inversion H. repeat split.
Qed.

Lemma getitem_list_ok cs df df' :
  Pd.getitem_list cs df = Ok df' ->
  Pd.index df' = Pd.index df /\ Pd.index_name df' = Pd.index_name df
  /\ Pd.select cs df = Ok (Pd.columns df').
Proof.
  unfold Pd.getitem_list. destruct (Pd.missing_columns cs df).
  - destruct (Pd.select cs df) as [cols|e]; simpl; intros H; inversion H. repeat split.
  - destruct (_ =? _)%nat; discriminate.
Qed.

Lemma select_labels cs df cols :
  Pd.select cs df = Ok cols -> map fst cols = map Pd.name cs.
Proof.
  revert cols. induction cs as [|c cs IH]; simpl; intros cols H.
  - inversion H. reflexivity.
  - destruct (Pd.get_column c (Pd.columns df)); [|discriminate H].
    destruct (Pd.select cs df) as [rest|e]; simpl in H; [|discriminate H].
    inversion H. simpl. f_equal. apply IH. reflexivity.
Qed.

Lemma has_column_labels c cols :
  Pd.has_column c cols = existsb (Pd.is_name c) (map fst cols).
Proof.
  induction cols as [|[l v] cols IH]; simpl; [reflexivity | now rewrite IH].
Qed.

Lemma has_column_put c t v cols :
  Pd.has_column c (Pd.put_column t v cols)
  = Pd.has_column c cols || Pd.is_name c (Pd.name t).
Proof.
  induction cols as [|[l old] cols IH]; simpl.
  - now rewrite orb_false_r.
  - destruct (Pd.is_name t l) eqn:Ht; simpl.
    + destruct l as [|[| | |t'| |]|]; simpl in Ht; try discriminate Ht.
      apply String.eqb_eq in Ht. subst t'.
      simpl. destruct (String.eqb c t); simpl; [reflexivity|].
      now rewrite orb_false_r.
    + rewrite IH. now rewrite orb_assoc.
Qed.

(** Moving the index of a price table into the [date] column. *)
Lemma date_column_of_index cs ticker frame0 frame1 frame :
  existsb (String.eqb "index") cs = false ->
  Pd.getitem_list cs frame0 = Ok frame1 ->
  Pd.index_name frame0 = None ->
  index_to_date_column (Pd.set_scalar "ticker" ticker frame1) = Ok frame ->
  Pd.get_column "date" (Pd.columns frame) = Some (Pd.index frame0).
Proof.
  intros Hcs Hsel Hname H.
  apply getitem_list_ok in Hsel as (Hidx & Hnm & Hsel).
  apply select_labels in Hsel.
  unfold index_to_date_column, Pd.reset_index in H.
  cbn [Pd.set_scalar Pd.index_name Pd.columns Pd.index] in H.
  rewrite Hnm, Hname in H.
  assert (Hno : Pd.has_column "index"
                  (Pd.put_column "ticker"
                     (List.repeat ticker (Pd.n_rows frame1)) (Pd.columns frame1)) = false).
  { rewrite has_column_put, has_column_labels, Hsel.
    apply orb_false_iff. split; [|reflexivity].
    clear -Hcs. induction cs as [|c cs IH]; simpl in *; [reflexivity|].
    apply orb_false_iff in Hcs as [Hc Hcs]. rewrite Hc. simpl. apply IH. exact Hcs. }
  rewrite Hno in H. rewrite Hno in H. cbn [res_bind] in H.
  inversion H. cbn. rewrite Hidx. reflexivity.
Qed.

Lemma floor_day_zero_intraday (idx floored : list Pd.timestamp) :
  Pd.floor_days idx = Ok floored ->
  Forall zero_intraday (time_labels floored).
Proof.
  revert floored. induction idx as [|t idx IH]; intros floored H; cbn [Pd.floor_days] in H.
  - injection H as <-. constructor.
  - apply res_bind_ok in H as (d & Hd & H).
    apply res_bind_ok in H as (ds & Hds & H). injection H as <-.
    cbn [time_labels map]. constructor; [|exact (IH ds Hds)].
    destruct t as [|z]; cbn [Pd.floor_day] in Hd.
    + injection Hd as <-. exact I.
    + assert (d = Pd.Ts (Pd.seconds_per_day * (z / Pd.seconds_per_day))) as ->
        by (cbv zeta in Hd; destruct (_ <? _); [discriminate Hd | congruence]).
      unfold zero_intraday, Pd.intraday. rewrite Z.mul_comm. apply Z_mod_mult.
Qed.

Lemma floor_days_length idx floored :
  Pd.floor_days idx = Ok floored -> List.length floored = List.length idx.
Proof.
  revert floored. induction idx as [|t idx IH]; intros floored H; cbn [Pd.floor_days] in H.
  - injection H as <-. reflexivity.
  - apply res_bind_ok in H as (d & _ & H).
    apply res_bind_ok in H as (ds & Hds & H). injection H as <-.
    cbn [List.length]. f_equal. exact (IH ds Hds).
Qed.

Section DayFloor.

Variable json_loads : string -> res json.
Variable timestamp_seconds : date_like -> res Z.

(** The dates of a price table are the timestamps of the payload, floored
    to the day unless the interval is one minute. *)
Lemma get_data_time_axis
    ticker start_date end_date index_as_date interval headers w frame w' :
  get_data json_loads timestamp_seconds ticker start_date end_date index_as_date
    interval headers w = (Ok frame, w') ->
  exists site params data idx,
    build_url timestamp_seconds ticker start_date end_date interval w
    = (Ok (site, params), w)
    /\ json_loads (text (answer w (mkRequest site params headers))) = Ok data
    /\ payload_index data = Ok idx
    /\ exists floored,
         (if String.eqb interval "1m" then Ok idx else Pd.floor_days idx) = Ok floored
         /\ time_axis index_as_date frame = Some (time_labels floored).
Proof.
  intros H. unfold get_data in H.
  destruct (existsb _ _); cbn [negb] in H; [|discriminate H].
  apply bind_ok in H as ([site params] & w1 & Hurl & H).
  pose proof (build_url_world _ _ _ _ _ _ _ _ Hurl). subst w1.
  apply bind_ok in H as (resp & w2 & Hget & H).
  unfold requests_get in Hget. inversion Hget. subst resp w2. clear Hget.
  destruct (ok _); cbn [negb] in H.
  2:{ apply bind_ok in H as (body & w3 & _ & H). discriminate H. }
  apply bind_ok in H as (data & w3 & Hdata & H). apply lift_ok in Hdata as [Hdata ->].
  apply bind_ok in H as (quote & w3 & _ & H).
  apply bind_ok in H as (frame0 & w4 & _ & H).
  apply bind_ok in H as (temp_time & w5 & Htemp & H). apply lift_ok in Htemp as [Htemp _].
  apply bind_ok in H as (frame1 & w6 & Hbranch & H).
  exists site, params, data.
  assert (Hpayload : forall idx, datetime_index temp_time = Ok idx ->
                                 payload_index data = Ok idx).
  { intros idx Hidx. unfold payload_index.
    apply res_bind_ok in Htemp as (r & -> & Hr). simpl. rewrite Hr. exact Hidx. }
  destruct (String.eqb interval "1m"); cbn [negb] in Hbranch.
  - apply bind_ok in Hbranch as (idx & w7 & Hidx & Hbranch).
    apply lift_ok in Hidx as [Hidx _].
    apply bind_ok in Hbranch as (frame2 & w8 & Haxis & Hbranch).
    apply lift_ok in Haxis as [Haxis _]. apply lift_ok in Hbranch as [Hsel _].
    apply set_axis_ok in Haxis as (Hi2 & Hn2 & _).
    exists idx. split; [exact Hurl|]. split; [exact Hdata|]. split; [auto|].
    exists idx. split; [reflexivity|].
    destruct index_as_date; cbn [negb time_axis] in *.
    + inversion H. cbn [Pd.set_scalar Pd.index].
      apply getitem_list_ok in Hsel as (-> & _). now rewrite Hi2.
    + apply lift_ok in H as [H _].
      rewrite (fun Hcs => date_column_of_index _ _ _ _ _ Hcs Hsel Hn2 H) by reflexivity.
      now rewrite Hi2.
  - apply bind_ok in Hbranch as (adjclose & w7 & _ & Hbranch).
    apply bind_ok in Hbranch as (frame2 & w8 & _ & Hbranch).
    apply bind_ok in Hbranch as (idx & w9 & Hidx & Hbranch).
    apply lift_ok in Hidx as [Hidx _].
    apply bind_ok in Hbranch as (frame3 & w10 & _ & Hbranch).
    apply bind_ok in Hbranch as (floored & w12 & Hfloor & Hbranch).
    apply lift_ok in Hfloor as [Hfloor _].
    apply bind_ok in Hbranch as (frame4 & w11 & Haxis & Hbranch).
    apply lift_ok in Haxis as [Haxis _]. apply lift_ok in Hbranch as [Hsel _].
    apply set_axis_ok in Haxis as (Hi4 & Hn4 & _).
    exists idx. split; [exact Hurl|]. split; [exact Hdata|]. split; [auto|].
    exists floored. split; [exact Hfloor|].
    destruct index_as_date; cbn [negb time_axis] in *.
    + inversion H. cbn [Pd.set_scalar Pd.index].
      apply getitem_list_ok in Hsel as (-> & _). now rewrite Hi4.
    + apply lift_ok in H as [H _].
      rewrite (fun Hcs => date_column_of_index _ _ _ _ _ Hcs Hsel Hn4 H) by reflexivity.
      now rewrite Hi4.
Qed.

(** C6. In a price table produced at the daily, weekly or monthly
    interval every date is floored to the day: its intra-day part is
    zero.  At the one-minute interval the dates are the timestamps of the
    payload as they came, nothing being zeroed. *)
Theorem day_floor_invariant
    ticker start_date end_date index_as_date interval headers w frame w' :
  get_data json_loads timestamp_seconds ticker start_date end_date index_as_date
    interval headers w = (Ok frame, w') ->
  (interval = "1d" \/ interval = "1wk" \/ interval = "1mo" ->
   exists axis, time_axis index_as_date frame = Some axis
                /\ Forall zero_intraday axis)
  /\ (interval = "1m" ->
      exists site params data idx,
        build_url timestamp_seconds ticker start_date end_date interval w
        = (Ok (site, params), w)
        /\ json_loads (text (answer w (mkRequest site params headers))) = Ok data
        /\ payload_index data = Ok idx
        /\ time_axis index_as_date frame = Some (time_labels idx)).
Proof.
  intros H.
  apply get_data_time_axis in H
    as (site & params & data & idx & Hurl & Hdata & Hidx & floored & Hfloor & Haxis).
  split.
  - intros Hint.
    assert (Hm : String.eqb interval "1m" = false)
      by (destruct Hint as [-> | [-> | ->]]; reflexivity).
    rewrite Hm in Hfloor. eexists. split; [exact Haxis|].
    exact (floor_day_zero_intraday _ _ Hfloor).
  - intros ->. exists site, params, data, idx. cbn [String.eqb] in Hfloor.
    injection Hfloor as <-.
    repeat split; assumption.
Qed.

End DayFloor.

(** The sample tables: columns in the fixed order, the ticker in upper
    case, the daily dates at midnight, the minute dates untouched. *)
Example daily_table :
  match fst (daily_run true) with
  | Ok frame =>
      Pd.index frame = [Pd.CT (Pd.Ts 1609459200); Pd.CT (Pd.Ts 1609718400)]
      /\ map fst (Pd.columns frame)
         = map Pd.name ["open"; "high"; "low"; "close"; "adjclose"; "volume"; "ticker"]
      /\ Pd.get_column "ticker" (Pd.columns frame)
         = Some [Pd.CJ (JStr "MSFT"); Pd.CJ (JStr "MSFT")]
  | Raise _ => False
  end.
Proof. vm_compute. repeat split. Qed.

Example minute_table :
  time_axis false (table_of (minute_run false))
  = Some [Pd.CT (Pd.Ts 1609511400); Pd.CT (Pd.Ts 1609511460)]
  /\ Pd.intraday 1609511400 = 52200.
Proof. split; vm_compute; reflexivity. Qed.

Lemma day_floor_invariant_witness :
  (exists axis, time_axis false (table_of (daily_run false)) = Some axis
                /\ Forall zero_intraday axis)
  /\ (exists site params data idx,
        build_url epoch_ticks "msft" None None "1m"
          (world_answering (mkResponse true "minute bars"))
        = (Ok (site, params), world_answering (mkResponse true "minute bars"))
        /\ sample_loads
             (text (answer (world_answering (mkResponse true "minute bars"))
                      (mkRequest site params default_headers))) = Ok data
        /\ payload_index data = Ok idx
        /\ time_axis true (table_of (minute_run true)) = Some (time_labels idx)).
Proof.
  split.
  - apply (proj1 (day_floor_invariant sample_loads epoch_ticks
                    "msft" None None false "1d" default_headers
                    (world_answering (mkResponse true "daily bars"))
                    (table_of (daily_run false)) (snd (daily_run false))
                    eq_refl)).
    left. reflexivity.
  - apply (proj2 (day_floor_invariant sample_loads epoch_ticks
                    "msft" None None true "1m" default_headers
                    (world_answering (mkResponse true "minute bars"))
                    (table_of (minute_run true)) (snd (minute_run true))
                    eq_refl)).
    reflexivity.
Defined.

(** * Further properties *)

(** ** Requests sent by the time-series operations *)

Lemma quiet_ret {A} (a : A) : quiet (ret a).
Proof. intros w. reflexivity. Qed.

Lemma quiet_raise {A} (e : exn) : quiet (@raise A e).
Proof. intros w. reflexivity. Qed.

Lemma quiet_lift {A} (r : res A) : quiet (lift r).
Proof. intros w. reflexivity. Qed.

Lemma quiet_bind {A B} (m : M A) (k : A -> M B) :
  quiet m -> (forall a, quiet (k a)) -> quiet (bind m k).
Proof.
  intros Hm Hk w. unfold bind. specialize (Hm w).
  destruct (m w) as [[a|e] w1]; simpl in Hm; subst w1; [apply Hk | reflexivity].
Qed.

Lemma quiet_build_url ts ticker start_date end_date interval :
  quiet (build_url ts ticker start_date end_date interval).
Proof.
  intros w.
  destruct (build_url ts ticker start_date end_date interval w) as [r w'] eqn:H.
  simpl. exact (build_url_world _ _ _ _ _ _ _ _ H).
Qed.

Ltac quiet_steps :=
  repeat first
    [ apply quiet_lift
    | apply quiet_ret
    | apply quiet_raise
    | apply quiet_bind; [|intros]
    | match goal with
      | |- quiet (if ?b then _ else _) => destruct b
      | |- quiet (match ?x with _ => _ end) => destruct x
      end ].

(** What a run does once its request got the answer [resp]. *)
Lemma after_request {A} url params headers (k : response -> M A) w :
  (forall resp, quiet (k resp)) ->
  snd (bind (requests_get url params headers) k w)
  = log_request (mkRequest url params headers) w.
Proof.
  intros Hk. unfold bind, requests_get. apply Hk.
Qed.

Section Requests.

Variable json_loads : string -> res json.
Variable timestamp_seconds : date_like -> res Z.

(** X1. [get_data] sends no request when the interval is not one of the
    four or when a date does not coerce, and exactly one request, to the
    chart endpoint of the ticker, on every other path, whatever the
    server answers and whether the table gets built or not. *)
Theorem get_data_sends_at_most_one_request
    ticker start_date end_date index_as_date interval headers w :
  (existsb (String.eqb interval) ["1d"; "1wk"; "1mo"; "1m"] = false ->
   get_data json_loads timestamp_seconds ticker start_date end_date index_as_date
     interval headers w
   = (Raise (AssertionError (JStr "interval must be of of '1d', '1wk', '1mo', or '1m'")), w))
  /\ (forall e w',
        existsb (String.eqb interval) ["1d"; "1wk"; "1mo"; "1m"] = true ->
        build_url timestamp_seconds ticker start_date end_date interval w = (Raise e, w') ->
        get_data json_loads timestamp_seconds ticker start_date end_date index_as_date
          interval headers w = (Raise e, w))
  /\ (forall site params w',
        existsb (String.eqb interval) ["1d"; "1wk"; "1mo"; "1m"] = true ->
        build_url timestamp_seconds ticker start_date end_date interval w
        = (Ok (site, params), w') ->
        site = base_url ++ ticker
        /\ snd (get_data json_loads timestamp_seconds ticker start_date end_date
                  index_as_date interval headers w)
           = log_request (mkRequest site params headers) w).
Proof.
  split; [|split].
  - intros Hv. unfold get_data. rewrite Hv. reflexivity.
  - intros e w' Hv Hurl. unfold get_data. rewrite Hv. cbn [negb].
    pose proof (build_url_world _ _ _ _ _ _ _ _ Hurl). subst w'.
    unfold bind at 1. rewrite Hurl. reflexivity.
  - intros site params w' Hv Hurl.
    pose proof (build_url_world _ _ _ _ _ _ _ _ Hurl). subst w'.
    split.
    + revert Hurl. unfold build_url, bind, lift, clock, ret.
      destruct end_date as [d|]; [destruct (timestamp_seconds d)|];
        (destruct start_date as [d'|]; [destruct (timestamp_seconds d')|]);
        intros H; inversion H; reflexivity.
    + unfold get_data. rewrite Hv. cbn [negb].
      unfold bind at 1. rewrite Hurl.
      apply after_request. intros resp. quiet_steps.
Qed.

(** X2. [get_dividends] and [get_splits] send exactly one request once
    the URL is built, on every path: no retry, no second call. *)
Theorem corporate_actions_send_one_request
    ticker start_date end_date index_as_date headers w site params w' :
  build_url timestamp_seconds ticker start_date end_date "1d" w = (Ok (site, params), w') ->
  snd (get_dividends json_loads timestamp_seconds ticker start_date end_date
         index_as_date headers w)
  = log_request (mkRequest site params headers) w
  /\ snd (get_splits json_loads timestamp_seconds ticker start_date end_date
            index_as_date headers w)
     = log_request (mkRequest site params headers) w.
Proof.
  intros Hurl.
  pose proof (build_url_world _ _ _ _ _ _ _ _ Hurl). subst w'.
  split.
  - unfold get_dividends. unfold bind at 1. rewrite Hurl.
    apply after_request. intros resp. quiet_steps.
  - unfold get_splits. unfold bind at 1. rewrite Hurl.
    apply after_request. intros resp. quiet_steps.
Qed.

End Requests.

(** ** Shape of a price table *)

Lemma put_column_new c v cols :
  Pd.has_column c cols = false ->
  Pd.put_column c v cols = (cols ++ [(Pd.name c, v)])%list.
Proof.
  induction cols as [|[l old] cols IH]; simpl; intros H; [reflexivity|].
  apply orb_false_iff in H as [Hl Hrest]. rewrite Hl, (IH Hrest). reflexivity.
Qed.

Lemma get_column_last c v cols :
  Pd.has_column c cols = false ->
  Pd.get_column c (cols ++ [(Pd.name c, v)])%list = Some v.
Proof.
  induction cols as [|[l old] cols IH]; simpl; intros H.
  - now rewrite String.eqb_refl.
  - apply orb_false_iff in H as [Hl Hrest]. rewrite Hl. apply IH. exact Hrest.
Qed.

Lemma rename_absent old new cols :
  Pd.has_column old cols = false ->
  map (fun lv : Pd.cell * list Pd.cell =>
         if Pd.is_name old (fst lv) then (Pd.name new, snd lv) else lv) cols = cols.
Proof.
  induction cols as [|[l v] cols IH]; simpl; intros H; [reflexivity|].
  apply orb_false_iff in H as [Hl Hrest]. rewrite Hl, (IH Hrest). reflexivity.
Qed.

Lemma has_column_names c cs cols :
  map fst cols = map Pd.name cs ->
  Pd.has_column c cols = existsb (String.eqb c) cs.
Proof.
  intros H. rewrite has_column_labels, H.
  clear. induction cs as [|x cs IH]; simpl; [reflexivity | now rewrite IH].
Qed.

Lemma range_index_length n : List.length (Pd.range_index n) = n.
Proof. unfold Pd.range_index. now rewrite length_map, length_seq. Qed.

(** The last steps of [get_data]: the [ticker] column, then the index
    moved to a [date] column on request. *)
Lemma price_table_finish cs c frame0 frame1 index_as_date frame w w' :
  existsb (String.eqb "index") cs = false ->
  existsb (String.eqb "ticker") cs = false ->
  Pd.getitem_list cs frame0 = Ok frame1 ->
  Pd.index_name frame0 = None ->
  (let frame := Pd.set_scalar "ticker" c frame1 in
   if negb index_as_date then lift (index_to_date_column frame) else ret frame) w
  = (Ok frame, w') ->
  map fst (Pd.columns frame)
  = map Pd.name ((if index_as_date then [] else ["date"]) ++ cs ++ ["ticker"])%list
  /\ Pd.get_column "ticker" (Pd.columns frame)
     = Some (List.repeat c (Pd.n_rows frame))
  /\ Pd.n_rows frame = Pd.n_rows frame0.
Proof.
  intros Hindex Hticker Hsel Hname H.
  apply getitem_list_ok in Hsel as (Hidx & Hnm & Hsel).
  apply select_labels in Hsel.
  assert (Hrows : Pd.n_rows frame1 = Pd.n_rows frame0)
    by (unfold Pd.n_rows; now rewrite Hidx).
  assert (Hno_ticker : Pd.has_column "ticker" (Pd.columns frame1) = false)
    by (now rewrite (has_column_names _ _ _ Hsel)).
  assert (Hno_index : Pd.has_column "index" (Pd.columns frame1) = false)
    by (now rewrite (has_column_names _ _ _ Hsel)).
  cbv zeta in H. unfold Pd.set_scalar in H.
  rewrite (put_column_new _ _ _ Hno_ticker) in H.
  destruct index_as_date; cbn [negb] in H.
  - inversion H. subst frame. cbn [Pd.columns Pd.n_rows Pd.index app].
    rewrite map_app, Hsel, map_app. cbn [map fst].
    split; [reflexivity|]. split; [|exact Hrows].
    rewrite (get_column_last _ _ _ Hno_ticker). reflexivity.
  - apply lift_ok in H as [H _].
    unfold index_to_date_column, Pd.reset_index in H.
    cbn [Pd.index_name Pd.columns Pd.index] in H. rewrite Hnm, Hname in H.
    assert (Hno : Pd.has_column "index"
                    (Pd.columns frame1 ++ [(Pd.name "ticker",
                                            List.repeat c (Pd.n_rows frame1))])%list = false).
    { rewrite has_column_labels, map_app, existsb_app, <- has_column_labels, Hno_index.
      reflexivity. }
    rewrite Hno in H. rewrite Hno in H. cbn [res_bind] in H.
    inversion H. subst frame. clear H.
    unfold Pd.rename_column, Pd.n_rows in *.
    cbn [Pd.columns Pd.index Pd.index_name Pd.columns_name].
    rewrite range_index_length.
    change (map ?f ((Pd.name "index", ?i) :: ?rest))
      with ((Pd.name "date", i) :: map f rest).
    rewrite (rename_absent _ _ _ Hno).
    split; [|split; [|exact Hrows]].
    + cbn [map fst app]. now rewrite !map_app, Hsel.
    + change (Pd.get_column "ticker" ((Pd.name "date", ?i) :: ?rest))
        with (Pd.get_column "ticker" rest).
      apply (get_column_last _ _ _ Hno_ticker).
Qed.

Section Shape.

Variable json_loads : string -> res json.
Variable timestamp_seconds : date_like -> res Z.

(** X3. A price table has its columns in the fixed order open, high, low,
    close, adjclose (except at the one-minute interval), volume, ticker,
    preceded by date when the index was moved to a column; the ticker
    column holds the upper-cased ticker on every row; and there are as
    many rows as timestamps in the payload. *)
Theorem get_data_columns
    ticker start_date end_date index_as_date interval headers w frame w' :
  get_data json_loads timestamp_seconds ticker start_date end_date index_as_date
    interval headers w = (Ok frame, w') ->
  map fst (Pd.columns frame)
  = map Pd.name ((if index_as_date then [] else ["date"])
                 ++ price_columns interval ++ ["ticker"])%list
  /\ Pd.get_column "ticker" (Pd.columns frame)
     = Some (List.repeat (Pd.CJ (JStr (PyStr.upper ticker))) (Pd.n_rows frame))
  /\ exists site params data idx,
       build_url timestamp_seconds ticker start_date end_date interval w
       = (Ok (site, params), w)
       /\ json_loads (text (answer w (mkRequest site params headers))) = Ok data
       /\ payload_index data = Ok idx
       /\ Pd.n_rows frame = List.length idx.
Proof.
  intros H. unfold get_data in H.
  destruct (existsb _ _); cbn [negb] in H; [|discriminate H].
  apply bind_ok in H as ([site params] & w1 & Hurl & H).
  pose proof (build_url_world _ _ _ _ _ _ _ _ Hurl). subst w1.
  apply bind_ok in H as (resp & w2 & Hget & H).
  unfold requests_get in Hget. inversion Hget. subst resp w2. clear Hget.
  destruct (ok _); cbn [negb] in H.
  2:{ apply bind_ok in H as (body & w3 & _ & H). discriminate H. }
  apply bind_ok in H as (data & w3 & Hdata & H). apply lift_ok in Hdata as [Hdata ->].
  apply bind_ok in H as (quote & w3 & _ & H).
  apply bind_ok in H as (frame0 & w4 & _ & H).
  apply bind_ok in H as (temp_time & w5 & Htemp & H). apply lift_ok in Htemp as [Htemp _].
  apply bind_ok in H as (frame1 & w6 & Hbranch & H).
  assert (Hpayload : forall idx, datetime_index temp_time = Ok idx ->
                                 payload_index data = Ok idx).
  { intros idx Hidx. unfold payload_index.
    apply res_bind_ok in Htemp as (r & -> & Hr). simpl. rewrite Hr. exact Hidx. }
  unfold price_columns.
  destruct (String.eqb interval "1m"); cbn [negb] in Hbranch.
  - apply bind_ok in Hbranch as (idx & w7 & Hidx & Hbranch).
    apply lift_ok in Hidx as [Hidx _].
    apply bind_ok in Hbranch as (frame2 & w8 & Haxis & Hbranch).
    apply lift_ok in Haxis as [Haxis _]. apply lift_ok in Hbranch as [Hsel _].
    apply set_axis_ok in Haxis as (Hi2 & Hn2 & _).
    destruct (fun Ha Hb => price_table_finish _ _ _ _ _ _ _ _ Ha Hb Hsel Hn2 H)
      as (Hcols & Htick & Hrows); [reflexivity | reflexivity |].
    split; [exact Hcols|]. split; [exact Htick|].
    exists site, params, data, idx. repeat split; [exact Hurl | exact Hdata | auto |].
    rewrite Hrows. unfold Pd.n_rows. rewrite Hi2. unfold time_labels.
    now rewrite length_map.
  - apply bind_ok in Hbranch as (adjclose & w7 & _ & Hbranch).
    apply bind_ok in Hbranch as (frame2 & w8 & _ & Hbranch).
    apply bind_ok in Hbranch as (idx & w9 & Hidx & Hbranch).
    apply lift_ok in Hidx as [Hidx _].
    apply bind_ok in Hbranch as (frame3 & w10 & _ & Hbranch).
    apply bind_ok in Hbranch as (floored & w12 & Hfloor & Hbranch).
    apply lift_ok in Hfloor as [Hfloor _].
    apply bind_ok in Hbranch as (frame4 & w11 & Haxis & Hbranch).
    apply lift_ok in Haxis as [Haxis _]. apply lift_ok in Hbranch as [Hsel _].
    apply set_axis_ok in Haxis as (Hi4 & Hn4 & _).
    destruct (fun Ha Hb => price_table_finish _ _ _ _ _ _ _ _ Ha Hb Hsel Hn4 H)
      as (Hcols & Htick & Hrows); [reflexivity | reflexivity |].
    split; [exact Hcols|]. split; [exact Htick|].
    exists site, params, data, idx. repeat split; [exact Hurl | exact Hdata | auto |].
    rewrite Hrows. unfold Pd.n_rows. rewrite Hi4. unfold time_labels.
    rewrite length_map. exact (floor_days_length _ _ Hfloor).
Qed.

End Shape.

(** ** Dividend and split tables *)

Lemma map_snd_enumerate {A} (l : list A) (a : nat) :
  map snd (combine (seq a (List.length l)) l) = l.
Proof.
  revert a. induction l as [|x l IH]; intros a; simpl; [reflexivity | now rewrite IH].
Qed.

Lemma rows_of_labels df : map fst (Pd.rows_of df) = Pd.index df.
Proof.
  unfold Pd.rows_of, Pd.n_rows. rewrite map_map. cbn [fst].
  apply map_snd_enumerate.
Qed.

Lemma in_insert_row r rows x :
  In x (Pd.insert_row r rows) <-> x = r \/ In x rows.
Proof.
  induction rows as [|r' rows IH]; simpl.
  - intuition.
  - destruct (Pd.label_leb (fst r') (fst r)); simpl; [rewrite IH|]; intuition.
Qed.

Lemma in_sort_rows_acc rows acc x :
  In x (fold_left (fun sorted r => Pd.insert_row r sorted) rows acc)
  <-> In x rows \/ In x acc.
Proof.
  revert acc. induction rows as [|r rows IH]; intros acc; simpl.
  - intuition.
  - rewrite IH, in_insert_row. intuition.
Qed.

Lemma label_leb_total a b :
  is_time a -> is_time b -> Pd.label_leb a b = false -> no_later b a.
Proof.
  destruct a as [| |[|x]], b as [| |[|y]]; simpl; try contradiction;
    intros _ _ H; try discriminate H; try exact I.
  apply Z.leb_gt in H. lia.
Qed.

Lemma label_leb_no_later a b :
  is_time a -> is_time b -> Pd.label_leb a b = true -> no_later a b.
Proof.
  destruct a as [| |[|x]], b as [| |[|y]]; simpl; try contradiction;
    intros _ _ H; try discriminate H; try exact I.
  now apply Z.leb_le.
Qed.

Lemma no_later_trans a b c : no_later a b -> no_later b c -> no_later a c.
Proof.
  destruct a as [| |[|x]], b as [| |[|y]], c as [| |[|z]]; simpl;
    try contradiction; try (intros; exact I); intros; lia.
Qed.

Lemma insert_row_sorted r rows :
  is_time (fst r) ->
  Forall is_time (map fst rows) ->
  StronglySorted no_later (map fst rows) ->
  StronglySorted no_later (map fst (Pd.insert_row r rows)).
Proof.
  intros Hr. induction rows as [|r' rows IH]; intros Htime Hsorted.
  - simpl. constructor; constructor.
  - simpl in Htime, Hsorted. inversion Htime as [|? ? Hr' Hrest]; subst.
    apply StronglySorted_inv in Hsorted as [Hsorted Hall].
    simpl. destruct (Pd.label_leb (fst r') (fst r)) eqn:Hle; simpl.
    + constructor; [apply IH; assumption|].
      apply Forall_forall. intros x Hx. apply in_map_iff in Hx as (y & <- & Hy).
      apply in_insert_row in Hy as [-> | Hy].
      * apply label_leb_no_later; assumption.
      * rewrite Forall_forall in Hall. apply Hall. apply in_map. exact Hy.
    + pose proof (label_leb_total _ _ Hr' Hr Hle) as Hlt.
      constructor; [constructor; assumption|].
      constructor; [exact Hlt|].
      apply Forall_forall. intros x Hx. rewrite Forall_forall in Hall.
      apply (no_later_trans _ _ _ Hlt). apply Hall. exact Hx.
Qed.

Lemma sort_rows_sorted rows :
  Forall is_time (map fst rows) ->
  StronglySorted no_later (map fst (Pd.sort_rows rows)).
Proof.
  unfold Pd.sort_rows.
  assert (H : forall acc,
            Forall is_time (map fst rows) ->
            Forall is_time (map fst acc) ->
            StronglySorted no_later (map fst acc) ->
            StronglySorted no_later
              (map fst (fold_left (fun sorted r => Pd.insert_row r sorted) rows acc))).
  { induction rows as [|r rows IH]; intros acc Hrows Hacc Hsorted; simpl; [exact Hsorted|].
    simpl in Hrows. inversion Hrows as [|? ? Hr Hrest]; subst.
    apply IH; [exact Hrest | | apply insert_row_sorted; assumption].
    apply Forall_forall. intros x Hx. apply in_map_iff in Hx as (y & <- & Hy).
    apply in_insert_row in Hy as [-> | Hy]; [exact Hr|].
    rewrite Forall_forall in Hacc. apply Hacc. apply in_map. exact Hy. }
  intros Hrows. apply H; [exact Hrows | constructor | constructor].
Qed.

Lemma sort_rows_forall (P : Pd.cell -> Prop) rows :
  Forall P (map fst rows) -> Forall P (map fst (Pd.sort_rows rows)).
Proof.
  intros H. apply Forall_forall. intros x Hx.
  apply in_map_iff in Hx as (y & <- & Hy).
  unfold Pd.sort_rows in Hy. apply in_sort_rows_acc in Hy as [Hy | []].
  rewrite Forall_forall in H. apply H. apply in_map. exact Hy.
Qed.

Lemma time_labels_are_times ts : Forall is_time (time_labels ts).
Proof.
  unfold time_labels. rewrite Forall_map. apply Forall_forall. intros; exact I.
Qed.

(** The index of the frame shared by [get_dividends] and [get_splits]. *)
Lemma events_frame_index ticker events frame :
  events_frame ticker events = Ok frame ->
  chronological (Pd.index frame) /\ Forall zero_intraday (Pd.index frame).
Proof.
  unfold events_frame. intros H.
  apply res_bind_ok in H as (f0 & _ & H). cbv zeta in H.
  apply res_bind_ok in H as (idx & _ & H).
  apply res_bind_ok in H as (f1 & _ & H).
  apply res_bind_ok in H as (floored & Hfloor & H).
  apply res_bind_ok in H as (f2 & Haxis & H).
  apply set_axis_ok in Haxis as (Hidx & _ & _).
  inversion H. subst frame. clear H.
  cbn [Pd.set_scalar Pd.index Pd.sort_index]. split.
  - apply sort_rows_sorted. rewrite rows_of_labels, Hidx. apply time_labels_are_times.
  - apply sort_rows_forall. rewrite rows_of_labels, Hidx.
    exact (floor_day_zero_intraday _ _ Hfloor).
Qed.

Lemma drop_column_index c df df' :
  Pd.drop_column c df = Ok df' -> Pd.index df' = Pd.index df.
Proof.
  unfold Pd.drop_column. destruct (Pd.has_column c _); intros H; inversion H. reflexivity.
Qed.

Lemma drop_columns_index cs df df' :
  Pd.drop_columns cs df = Ok df' -> Pd.index df' = Pd.index df.
Proof.
  unfold Pd.drop_columns. destruct (Pd.missing_columns cs df); intros H; inversion H.
  reflexivity.
Qed.

Section CorporateActions.

Variable json_loads : string -> res json.
Variable timestamp_seconds : date_like -> res Z.

(** X4. Whenever [get_dividends] or [get_splits] returns a table indexed
    by date, its index is in chronological order and every entry is
    floored to the day, whatever the order and the time of day of the
    events in the payload. *)
Theorem corporate_actions_index_sorted_and_floored
    ticker start_date end_date headers w frame w' :
  (get_dividends json_loads timestamp_seconds ticker start_date end_date true headers w
   = (Ok frame, w') ->
   chronological (Pd.index frame) /\ Forall zero_intraday (Pd.index frame))
  /\ (get_splits json_loads timestamp_seconds ticker start_date end_date true headers w
      = (Ok frame, w') ->
      chronological (Pd.index frame) /\ Forall zero_intraday (Pd.index frame)).
Proof.
  assert (Hempty : chronological (Pd.index Pd.empty_frame)
                   /\ Forall zero_intraday (Pd.index Pd.empty_frame))
    by (split; constructor).
  split; intros H.
  - unfold get_dividends in H.
    apply bind_ok in H as ([site params] & w1 & _ & H).
    apply bind_ok in H as (resp & w2 & _ & H).
    destruct (ok resp); cbn [negb] in H; [|inversion H; exact Hempty].
    apply bind_ok in H as (data & w3 & _ & H).
    apply bind_ok in H as (no_events & w4 & _ & H).
    apply bind_ok in H as (no_dividends & w5 & _ & H).
    destruct no_dividends; [inversion H; exact Hempty|].
    apply bind_ok in H as (dividends & w6 & _ & H).
    apply bind_ok in H as (f1 & w7 & Hf1 & H). apply lift_ok in Hf1 as [Hf1 _].
    apply bind_ok in H as (f2 & w8 & Hf2 & H). apply lift_ok in Hf2 as [Hf2 _].
    cbn [negb] in H. inversion H. subst frame.
    cbn [Pd.rename_column Pd.index]. rewrite (drop_columns_index _ _ _ Hf2).
    exact (events_frame_index _ _ _ Hf1).
  - unfold get_splits in H.
    apply bind_ok in H as ([site params] & w1 & _ & H).
    apply bind_ok in H as (resp & w2 & _ & H).
    destruct (ok resp); cbn [negb] in H.
    2:{ apply bind_ok in H as (body & w3 & _ & H). discriminate H. }
    apply bind_ok in H as (data & w3 & _ & H).
    apply bind_ok in H as (no_splits & w4 & _ & H).
    destruct no_splits; [discriminate H|].
    apply bind_ok in H as (splits & w6 & _ & H).
    apply bind_ok in H as (f1 & w7 & Hf1 & H). apply lift_ok in Hf1 as [Hf1 _].
    apply bind_ok in H as (f2 & w8 & Hf2 & H). apply lift_ok in Hf2 as [Hf2 _].
    cbn [negb] in H. inversion H. subst frame.
    rewrite (drop_columns_index _ _ _ Hf2).
    exact (events_frame_index _ _ _ Hf1).
Qed.

End CorporateActions.

(** ** Embedded-JSON extraction: the page marker *)

Lemma split_from_nonempty sep k s : PyStr.split_from sep k s <> [].
Proof.
  revert k. induction s as [|c s IH]; intros k; simpl; [discriminate|].
  destruct k as [|k]; [|apply IH].
  destruct (PyStr.startswith sep (String c s)); [discriminate|].
  destruct (PyStr.split_from sep 0 s); discriminate.
Qed.

Lemma split_absent sep s :
  PyStr.contains sep s = false -> PyStr.split sep s = [s].
Proof.
  unfold PyStr.split. induction s as [|c s IH]; intros H; [reflexivity|].
  cbn [PyStr.contains] in H. apply orb_false_iff in H as [Hhere Hlater].
  cbn [PyStr.split_from]. rewrite Hhere, (IH Hlater). reflexivity.
Qed.

Lemma split_present c0 sep s :
  PyStr.contains (String c0 sep) s = true ->
  exists a b rest, PyStr.split (String c0 sep) s = a :: b :: rest.
Proof.
  unfold PyStr.split. induction s as [|c s IH]; intros H.
  - simpl in H. discriminate H.
  - cbn [PyStr.contains] in H. cbn [PyStr.split_from].
    destruct (PyStr.startswith (String c0 sep) (String c s)) eqn:Hhere.
    + destruct (PyStr.split_from (String c0 sep) (String.length (String c0 sep) - 1) s)
        as [|b rest] eqn:Hrest.
      * exfalso. exact (split_from_nonempty _ _ _ Hrest).
      * exists EmptyString, b, rest. reflexivity.
    + simpl in H. destruct (IH H) as (a & b & rest & ->).
      exists (String c a), b, rest. reflexivity.
Qed.

Lemma split_head sep s : exists a rest, PyStr.split sep s = a :: rest.
Proof.
  unfold PyStr.split. destruct (PyStr.split_from sep 0 s) as [|a rest] eqn:H.
  - exfalso. exact (split_from_nonempty _ _ _ H).
  - exists a, rest. reflexivity.
Qed.

Lemma parse_json_world json_loads url headers w :
  snd (_parse_json json_loads url headers w) = log_request (mkRequest url [] headers) w.
Proof. unfold _parse_json. apply after_request. intros resp. quiet_steps. Qed.

Lemma cut_out html :
  PyStr.contains "root.App.main =" html = true ->
  exists after before_this before_brace,
    list_get (PyStr.split "root.App.main =" html) 1 = Ok after
    /\ list_get (PyStr.split "(this)" after) 0 = Ok before_this
    /\ list_get (PyStr.split (String ";" (String "010" "}")) before_this) 0 = Ok before_brace
    /\ embedded_text html = PyStr.strip_space before_brace.
Proof.
  intros Hpresent.
  destruct (split_present _ _ _ Hpresent) as (a & after & rest & Hsplit).
  destruct (split_head "(this)" after) as (before_this & rest1 & Hs1).
  destruct (split_head (String ";" (String "010" "}")) before_this)
    as (before_brace & rest2 & Hs2).
  exists after, before_this, before_brace.
  unfold embedded_text. rewrite Hsplit. cbn [nth]. rewrite Hs1. cbn [hd].
  rewrite Hs2. repeat split.
Qed.

Section Extraction.

Variable json_loads : string -> res json.

(** X5. [_parse_json] sends exactly one request and never consults the
    status of the answer.  When the body lacks the assignment marker the
    call raises [IndexError].  When the marker is there, the text cut out
    after it decides the outcome: the [QuoteSummaryStore] found in it is
    dumped, repaired and read again, and that reading is the result;
    stores without a [QuoteSummaryStore] give [ValueError]; a text that
    is not JSON gives the error of the second attempt to read it. *)
Theorem parse_json_marker url headers w :
  snd (_parse_json json_loads url headers w) = log_request (mkRequest url [] headers) w
  /\ (PyStr.contains "root.App.main =" (text (answer w (mkRequest url [] headers))) = false ->
      fst (_parse_json json_loads url headers w) = Raise IndexError)
  /\ (PyStr.contains "root.App.main =" (text (answer w (mkRequest url [] headers))) = true ->
      (forall doc stores data,
         json_loads (embedded_text (text (answer w (mkRequest url [] headers)))) = Ok doc ->
         stores_of_page doc = Ok stores ->
         Json.getitem stores "QuoteSummaryStore" = Ok data ->
         fst (_parse_json json_loads url headers w)
         = json_loads (repair (Json.dumps data)))
      /\ (forall doc stores,
            json_loads (embedded_text (text (answer w (mkRequest url [] headers)))) = Ok doc ->
            stores_of_page doc = Ok (JObj stores) ->
            Json.lookup "QuoteSummaryStore" stores = None ->
            fst (_parse_json json_loads url headers w)
            = Raise (ValueError "Cannot find QuoteSummaryStore"))
      /\ (forall e,
            json_loads (embedded_text (text (answer w (mkRequest url [] headers)))) = Raise e ->
            fst (_parse_json json_loads url headers w) = Raise e)).
Proof.
  split; [|split].
  - apply parse_json_world.
  - intros Habsent. unfold _parse_json, bind at 1, requests_get.
    cbv zeta. rewrite (split_absent _ _ Habsent). reflexivity.
  - intros Hpresent.
    destruct (cut_out _ Hpresent) as (after & before_this & before_brace & H1 & H2 & H3 & Hcut).
    assert (Hrun : fst (_parse_json json_loads url headers w)
                   = fst (match res_bind (stores_of json_loads (PyStr.strip_space before_brace))
                                  (fun st => Json.getitem st "QuoteSummaryStore") with
                          | Raise _ =>
                              match stores_of json_loads (PyStr.strip_space before_brace) with
                              | Raise e => raise e
                              | Ok (JObj _) => raise (ValueError "Cannot find QuoteSummaryStore")
                              | Ok _ => raise AttributeError
                              end
                          | Ok data => lift (json_loads (repair (Json.dumps data)))
                          end (log_request (mkRequest url [] headers) w))).
    { unfold _parse_json, bind at 1, requests_get.
      cbv zeta. rewrite H1. unfold bind at 1, lift at 1.
      rewrite H2. unfold bind at 1, lift at 1.
      rewrite H3. unfold bind at 1, lift at 1. reflexivity. }
    rewrite Hrun, <- Hcut. clear Hrun. unfold stores_of.
    split; [|split].
    + intros doc stores data Hdoc Hstores Hdata.
      rewrite Hdoc. cbn [res_bind]. rewrite Hstores. cbn [res_bind]. rewrite Hdata.
      reflexivity.
    + intros doc stores Hdoc Hstores Hnone.
      rewrite Hdoc. cbn [res_bind]. rewrite Hstores. cbn [res_bind Json.getitem].
      rewrite Hnone. reflexivity.
    + intros e He. rewrite He. reflexivity.
Qed.

(** X6. [_parse_json_series] raises only when the body lacks the
    assignment marker ([IndexError], before its [try] block), and sends
    one request either way.  Once the marker is there it always returns:
    the series read from the text cut out after the marker, or [None]
    for any failure inside the block; in particular [None] when that
    text is not JSON and when its stores hold no
    [QuoteTimeSeriesStore]. *)
Theorem parse_json_series_total url headers yearly w :
  snd (_parse_json_series json_loads url headers yearly w)
  = log_request (mkRequest url [] headers) w
  /\ (PyStr.contains "root.App.main =" (text (answer w (mkRequest url [] headers))) = false ->
      fst (_parse_json_series json_loads url headers yearly w) = Raise IndexError)
  /\ (PyStr.contains "root.App.main =" (text (answer w (mkRequest url [] headers))) = true ->
      fst (_parse_json_series json_loads url headers yearly w)
      = Ok (match series_of_store json_loads yearly
                    (embedded_text (text (answer w (mkRequest url [] headers)))) with
            | Ok series => Some series
            | Raise _ => None
            end)
      /\ (forall doc stores,
            json_loads (embedded_text (text (answer w (mkRequest url [] headers)))) = Ok doc ->
            stores_of_page doc = Ok (JObj stores) ->
            Json.lookup "QuoteTimeSeriesStore" stores = None ->
            fst (_parse_json_series json_loads url headers yearly w) = Ok None)
      /\ (forall e,
            json_loads (embedded_text (text (answer w (mkRequest url [] headers)))) = Raise e ->
            fst (_parse_json_series json_loads url headers yearly w) = Ok None)).
Proof.
  split; [|split].
  - unfold _parse_json_series. apply after_request. intros resp. quiet_steps.
  - intros Habsent. unfold _parse_json_series, bind at 1, requests_get.
    cbv zeta. rewrite (split_absent _ _ Habsent). reflexivity.
  - intros Hpresent.
    destruct (cut_out _ Hpresent) as (after & before_this & before_brace & H1 & H2 & H3 & Hcut).
    assert (Hrun : fst (_parse_json_series json_loads url headers yearly w)
                   = Ok (match series_of_store json_loads yearly
                                 (embedded_text (text (answer w (mkRequest url [] headers)))) with
                         | Ok series => Some series
                         | Raise _ => None
                         end)).
    { rewrite Hcut. unfold _parse_json_series, bind at 1, requests_get.
      cbv zeta. rewrite H1. unfold bind at 1, lift at 1.
      rewrite H2. unfold bind at 1, lift at 1.
      rewrite H3. unfold bind at 1, lift at 1.
      destruct (series_of_store _ _ _); reflexivity. }
    split; [exact Hrun|]. split.
    + intros doc stores Hdoc Hstores Hnone. rewrite Hrun.
      unfold series_of_store, stores_of. rewrite Hdoc. cbn [res_bind].
      rewrite Hstores. cbn [res_bind Json.getitem]. rewrite Hnone. reflexivity.
    + intros e He. rewrite Hrun. unfold series_of_store, stores_of. rewrite He. reflexivity.
Qed.

End Extraction.

(** ** Time-series store: [list_to_obj] *)

Lemma key_eqb_congr a b c :
  PyDict.key_eqb a b = true -> PyDict.key_eqb c b = PyDict.key_eqb c a.
Proof.
  destruct a as [|[|]|x|x| |], b as [|[|]|y|y| |];
    cbn [PyDict.key_eqb PyDict.int_of]; intros H; try discriminate H;
    try (apply Z.eqb_eq in H); try (apply String.eqb_eq in H);
    destruct c as [|[|]|z|z| |]; cbn [PyDict.key_eqb PyDict.int_of];
    congruence.
Qed.

Lemma get_set k k' v d :
  PyDict.get k (PyDict.set k' v d)
  = if PyDict.key_eqb k k' then Some v else PyDict.get k d.
Proof.
  induction d as [|[k0 v0] d IH]; simpl; [reflexivity|].
  destruct (PyDict.key_eqb k' k0) eqn:H0; simpl.
  - rewrite (key_eqb_congr _ _ k H0). destruct (PyDict.key_eqb k k'); reflexivity.
  - rewrite IH. destruct (PyDict.key_eqb k k0) eqn:H1; [|reflexivity].
    destruct (PyDict.key_eqb k k') eqn:H2; [|reflexivity].
    exfalso. rewrite (key_eqb_congr _ _ k' H1) in H0.
    assert (Hsym : PyDict.key_eqb k' k = true).
    { clear -H2. destruct k as [|[|]|x|x| |], k' as [|[|]|y|y| |];
        cbn [PyDict.key_eqb PyDict.int_of] in *;
        try discriminate H2; try reflexivity;
        try (apply Z.eqb_eq in H2; apply Z.eqb_eq; congruence);
        try (apply String.eqb_eq in H2; apply String.eqb_eq; congruence). }
    congruence.
Qed.

Lemma fold_reports pre items acc :
  fold_left (add_report (JArr (pre ++ items))) (seq (List.length pre) (List.length items)) acc
  = fold_left add_entry items acc.
Proof.
  revert pre acc. induction items as [|x items IH]; intros pre acc; [reflexivity|].
  cbn [List.length seq fold_left].
  assert (Hstep : add_report (JArr (pre ++ x :: items)) acc (List.length pre)
                  = add_entry acc x).
  { unfold add_report, add_entry. destruct acc as [d|e]; [|reflexivity].
    cbn [res_bind Json.getindex].
    rewrite nth_error_app2 by lia. rewrite Nat.sub_diag. reflexivity. }
  rewrite Hstep.
  replace (pre ++ x :: items)%list with ((pre ++ [x]) ++ items)%list
    by (rewrite <- app_assoc; reflexivity).
  replace (S (List.length pre)) with (List.length (pre ++ [x])%list)
    by (rewrite length_app; simpl; lia).
  apply IH.
Qed.

Lemma fold_entries items d0 :
  forallb report_ok items = true ->
  exists d, fold_left add_entry items (Ok d0) = Ok d
            /\ forall date,
                 PyDict.get (JStr date) d
                 = match last_reported date items with
                   | Some v => Some v
                   | None => PyDict.get (JStr date) d0
                   end.
Proof.
  revert d0. induction items as [|item items IH]; intros d0 Hok.
  - exists d0. split; reflexivity.
  - cbn [forallb] in Hok. apply andb_true_iff in Hok as [Hitem Hrest].
    cbn [fold_left last_reported].
    destruct item as [| | | | |fields]; try discriminate Hitem.
    + destruct (IH d0 Hrest) as (d & Hd & Hget). exists d. split; [exact Hd|].
      intros date. rewrite Hget. destruct (last_reported date items); reflexivity.
    + unfold report_ok in Hitem.
      destruct (Json.lookup "asOfDate" fields) as [[| | |day| |]|] eqn:Hday;
        try discriminate Hitem.
      destruct (Json.lookup "reportedValue" fields) as [value|] eqn:Hval;
        try discriminate Hitem.
      assert (Hstep : add_entry (Ok d0) (JObj fields)
                      = Ok (PyDict.set (JStr day) value d0)).
      { unfold add_entry. cbn [res_bind Json.getitem]. rewrite Hval, Hday. reflexivity. }
      rewrite Hstep.
      destruct (IH (PyDict.set (JStr day) value d0) Hrest) as (d & Hd & Hget).
      exists d. split; [exact Hd|].
      intros date. rewrite Hget, get_set. unfold reported. rewrite Hday, Hval.
      cbn [PyDict.key_eqb].
      destruct (last_reported date items); [reflexivity|].
      destruct (String.eqb date day); reflexivity.
Qed.

(** X7. On a series whose entries are [null] or dicts with a date text
    and a reported value, [list_to_obj] succeeds; the dict it builds maps
    every date to the value of the last entry reporting for it, the
    [null] entries being skipped; a date no entry reports for is not a
    key. *)
Theorem list_to_obj_last_report_wins (items : list json) :
  forallb report_ok items = true ->
  exists d,
    list_to_obj (JArr items) = Ok d
    /\ forall date, PyDict.get (JStr date) d = last_reported date items.
Proof.
  intros Hok.
  destruct (fold_entries items [] Hok) as (d & Hd & Hget).
  exists d. split.
  - destruct items as [|x items]; [simpl in Hd; inversion Hd; reflexivity|].
    unfold list_to_obj. cbn [py_len res_bind].
    rewrite <- Hd. exact (fold_reports [] (x :: items) (Ok [])).
  - intros date. rewrite Hget. destruct (last_reported date items); reflexivity.
Qed.

(** ** Financial statements *)

Lemma parse_json_run json_loads url headers w :
  _parse_json json_loads url headers w
  = (fst (_parse_json json_loads url headers w),
     log_request (mkRequest url [] headers) w).
Proof.
  rewrite <- (parse_json_world json_loads url headers w).
  destruct (_parse_json json_loads url headers w); reflexivity.
Qed.

Section Statements.

Variable json_loads : string -> res json.

(** X8. When the repaired store lacks the statement asked for (any
    failure of the two lookups), [get_balance_sheet] returns the empty
    table, whereas [get_cash_flow] lets the error through. *)
Theorem missing_statement_empty_or_fatal ticker (yearly : bool) w :
  (forall json_info e,
     fst (_parse_json json_loads (quote_page ticker "balance-sheet") parse_json_headers w)
     = Ok json_info ->
     statement_records json_info
       (if yearly then "balanceSheetHistory" else "balanceSheetHistoryQuarterly" : string)
       "balanceSheetStatements" = Raise e ->
     fst (get_balance_sheet json_loads ticker yearly w) = Ok Pd.empty_frame)
  /\ (forall json_info e,
        fst (_parse_json json_loads (quote_page ticker "cash-flow") parse_json_headers w)
        = Ok json_info ->
        statement_records json_info
          (if yearly then "cashflowStatementHistory"
           else "cashflowStatementHistoryQuarterly" : string)
          "cashflowStatements" = Raise e ->
        fst (get_cash_flow json_loads ticker yearly w) = Raise e).
Proof.
  split; intros json_info e Hinfo Hmiss.
  - unfold get_balance_sheet, bind. rewrite parse_json_run, Hinfo.
    destruct yearly; rewrite Hmiss; reflexivity.
  - unfold get_cash_flow, bind at 1. rewrite parse_json_run, Hinfo.
    unfold bind, lift. destruct yearly; rewrite Hmiss; reflexivity.
Qed.


(** X10. [get_earnings] returns three empty tables, and no error, when
    the repaired store has no [earnings] entry or has [null] there. *)
Theorem get_earnings_absent ticker w fields :
  fst (_parse_json json_loads (quote_page ticker "financials") parse_json_headers w)
  = Ok (JObj fields) ->
  Json.lookup "earnings" fields = None \/ Json.lookup "earnings" fields = Some JNull ->
  fst (get_earnings json_loads ticker w) = Ok no_earnings
  /\ map snd no_earnings = [Pd.empty_frame; Pd.empty_frame; Pd.empty_frame].
Proof.
  intros Hinfo Hcase. split; [|reflexivity].
  unfold get_earnings, bind at 1. rewrite parse_json_run, Hinfo.
  unfold bind, lift. cbn [Json.contains Json.getitem].
  destruct Hcase as [-> | ->]; reflexivity.
Qed.

End Statements.

(** ** Quote endpoint *)

Section QuoteEndpoint.

Variable json_loads : string -> res json.

Lemma get_quote_data_world ticker headers w :
  snd (get_quote_data json_loads ticker headers w)
  = log_request (mkRequest (quote_url ++ ticker) [] default_headers) w.
Proof.
  unfold get_quote_data. cbv zeta. apply after_request. intros resp. quiet_steps.
Qed.

(** X11. [get_quote_data] sends exactly one request on every path, and
    that request carries the built-in headers whatever headers were
    passed.  On a non-success answer it raises an [AssertionError] with
    its own fixed message: the body of the answer is not read. *)
Theorem get_quote_data_request ticker headers w :
  snd (get_quote_data json_loads ticker headers w)
  = log_request (mkRequest (quote_url ++ ticker) [] default_headers) w
  /\ (ok (answer w (mkRequest (quote_url ++ ticker) [] default_headers)) = false ->
      fst (get_quote_data json_loads ticker headers w)
      = Raise (AssertionError (JStr invalid_response_message))).
Proof.
  split.
  - apply get_quote_data_world.
  - intros Hok. unfold get_quote_data, bind, requests_get. cbv zeta.
    rewrite Hok. reflexivity.
Qed.

Lemma get_quote_data_run ticker headers w :
  get_quote_data json_loads ticker headers w
  = (fst (get_quote_data json_loads ticker headers w),
     log_request (mkRequest (quote_url ++ ticker) [] default_headers) w).
Proof.
  rewrite <- (get_quote_data_world ticker headers w).
  destruct (get_quote_data json_loads ticker headers w); reflexivity.
Qed.

(** X12. For a quote that is a dict, [get_premarket_price] and
    [get_postmarket_price] return the field when the quote has it and
    raise an [AssertionError] (not a [KeyError]) when it has not. *)
Theorem extended_hours_price ticker w quote :
  fst (get_quote_data json_loads ticker default_headers w) = Ok (JObj quote) ->
  fst (get_premarket_price json_loads ticker w)
  = match Json.lookup "preMarketPrice" quote with
    | Some price => Ok price
    | None => Raise (AssertionError (JStr "Premarket price not currently available."))
    end
  /\ fst (get_postmarket_price json_loads ticker w)
     = match Json.lookup "postMarketPrice" quote with
       | Some price => Ok price
       | None => Raise (AssertionError (JStr "Postmarket price not currently available."))
       end.
Proof.
  intros Hquote. split.
  - unfold get_premarket_price, bind at 1. rewrite get_quote_data_run, Hquote.
    unfold bind, lift, raise. cbn [Json.contains Json.getitem].
    destruct (Json.lookup "preMarketPrice" quote); reflexivity.
  - unfold get_postmarket_price, bind at 1. rewrite get_quote_data_run, Hquote.
    unfold bind, lift, raise. cbn [Json.contains Json.getitem].
    destruct (Json.lookup "postMarketPrice" quote); reflexivity.
Qed.

End QuoteEndpoint.

(** ** Earnings calendar: all the pages *)

Lemma server_log_requests rs w : server (log_requests rs w) = server w.
Proof.
  revert w. induction rs as [|r rs IH]; intros w; [reflexivity|].
  simpl. rewrite IH. reflexivity.
Qed.

Lemma sent_log_requests rs w : sent (log_requests rs w) = (sent w ++ rs)%list.
Proof.
  revert w. induction rs as [|r rs IH]; intros w; simpl.
  - now rewrite app_nil_r.
  - rewrite IH. simpl. now rewrite <- app_assoc.
Qed.

Section AllPages.

Variable json_loads : string -> res json.
Variable strftime_ymd : date_like -> res string.

Variable w0 : World.
Variable date : string.
Variable total : Z -> Z.
Variable rows : Z -> list json.

Hypothesis Hformat : strftime_ymd (DateText date) = Ok date.
Hypothesis Hserves : serves_pages json_loads w0 date total rows.

(** One frame that fetches: what it does up to its recursive call. *)
Lemma fetching_frame depth d offset count w :
  offset_ge offset count = Ok false ->
  strftime_ymd d = Ok date ->
  server w = server w0 ->
  get_earnings_for_date json_loads strftime_ymd (S depth) d offset count w
  = (let '(more, w') :=
       get_earnings_for_date json_loads strftime_ymd depth (DateText date)
         (offset + 100) (JInt (total offset)) (log_request (page_request date offset) w) in
     match more with
     | Ok more_earnings => (Ok (rows offset ++ more_earnings)%list, w')
     | Raise e => (Raise e, w')
     end).
Proof.
  intros Hge Hd Hw.
  destruct (Hserves offset w Hw) as (result & stores & Hfetch & Hstores & Htotal & Hrows).
  rewrite get_earnings_for_date_frame.
  unfold bind at 1, lift at 1. rewrite Hge.
  unfold bind at 1, lift at 1. rewrite Hd.
  unfold bind at 1. rewrite Hfetch.
  unfold bind at 1, lift at 1. rewrite Hstores.
  unfold bind at 1, lift at 1. rewrite Htotal.
  unfold bind at 1.
  destruct (get_earnings_for_date _ _ depth _ _ _ _) as [[more|e] w']; [|reflexivity].
  unfold bind, lift, ret. rewrite Hrows. reflexivity.
Qed.

Lemma pages_from (T : Z) j : forall i extra d count w,
  (forall offset, total offset = T) ->
  T <= 100 * Z.of_nat (i + 1 + j) ->
  (j = O \/ 100 * Z.of_nat (i + j) < T) ->
  offset_ge (100 * Z.of_nat i) count = Ok false ->
  strftime_ymd d = Ok date ->
  server w = server w0 ->
  get_earnings_for_date json_loads strftime_ymd (S (S j) + extra) d
    (100 * Z.of_nat i) count w
  = (Ok (List.concat (map rows (page_offsets i (S j)))),
     log_requests (map (page_request date) (page_offsets i (S j))) w).
Proof.
  induction j as [|j IH]; intros i extra d count w HT Hupper Hlower Hge Hd Hw.
  - cbn [Nat.add]. rewrite (fetching_frame _ _ _ _ _ Hge Hd Hw).
    rewrite HT. rewrite get_earnings_for_date_frame.
    unfold bind at 1, lift at 1. cbn [offset_ge].
    replace (T <=? 100 * Z.of_nat i + 100) with true by (symmetry; apply Z.leb_le; lia).
    cbn [ret]. unfold page_offsets. cbn [seq map List.concat log_requests fold_left].
    reflexivity.
  - cbn [Nat.add]. rewrite (fetching_frame _ _ _ _ _ Hge Hd Hw).
    rewrite HT.
    replace (100 * Z.of_nat i + 100) with (100 * Z.of_nat (S i)) by lia.
    change (S (S (j + extra))) with (S (S j) + extra)%nat.
    rewrite (IH (S i) extra (DateText date) (JInt T)
               (log_request (page_request date (100 * Z.of_nat i)) w)).
    + unfold page_offsets. cbn [seq map List.concat log_requests fold_left]. reflexivity.
    + exact HT.
    + replace (S i + 1 + j)%nat with (i + 1 + S j)%nat by lia. exact Hupper.
    + destruct Hlower as [Hj | Hlower]; [discriminate Hj|].
      destruct j; [left; reflexivity | right].
      replace (S i + S j)%nat with (i + S (S j))%nat by lia. exact Hlower.
    + cbn [offset_ge]. f_equal. apply Z.leb_gt.
      destruct Hlower as [Hj | Hlower]; [discriminate Hj | lia].
    + exact Hformat.
    + exact Hw.
Qed.

(** X13. With an upstream that serves every page and reports the same
    total [T] throughout, a fetch granted enough frames collects the
    pages in order, one request per page, at the offsets 0, 100, 200 and
    so on: [n] pages when [100 * (n - 1) < T <= 100 * n], and one page
    when [T <= 100] (one request is sent even for [T <= 0], the first
    count being the default 1). *)
Theorem pagination_collects_every_page (T : Z) (j extra : nat) d :
  (forall offset, total offset = T) ->
  T <= 100 * Z.of_nat (S j) ->
  (j = O \/ 100 * Z.of_nat j < T) ->
  strftime_ymd d = Ok date ->
  get_earnings_for_date json_loads strftime_ymd (S (S j) + extra) d 0 (JInt 1) w0
  = (Ok (List.concat (map rows (page_offsets 0 (S j)))),
     log_requests (map (page_request date) (page_offsets 0 (S j))) w0)
  /\ sent (log_requests (map (page_request date) (page_offsets 0 (S j))) w0)
     = (sent w0 ++ map (page_request date) (page_offsets 0 (S j)))%list.
Proof.
  intros HT Hupper Hlower Hd. split; [|apply sent_log_requests].
  apply (pages_from T j 0 extra d (JInt 1) w0 HT).
  - replace (0 + 1 + j)%nat with (S j) by lia. exact Hupper.
  - exact Hlower.
  - reflexivity.
  - exact Hd.
  - reflexivity.
Qed.

Lemma never_ending depth : forall i d count w,
  (forall k, (i <= k < i + depth)%nat ->
             100 * Z.of_nat k + 100 < total (100 * Z.of_nat k)) ->
  offset_ge (100 * Z.of_nat i) count = Ok false ->
  strftime_ymd d = Ok date ->
  server w = server w0 ->
  get_earnings_for_date json_loads strftime_ymd depth d (100 * Z.of_nat i) count w
  = (Raise RecursionError,
     log_requests (map (page_request date) (page_offsets i depth)) w).
Proof.
  induction depth as [|depth IH]; intros i d count w Hgrow Hge Hd Hw; [reflexivity|].
  rewrite (fetching_frame _ _ _ _ _ Hge Hd Hw).
  replace (100 * Z.of_nat i + 100) with (100 * Z.of_nat (S i)) by lia.
  rewrite (IH (S i) (DateText date) (JInt (total (100 * Z.of_nat i)))
             (log_request (page_request date (100 * Z.of_nat i)) w)).
  - unfold page_offsets. cbn [seq map log_requests fold_left]. reflexivity.
  - intros k Hk. apply Hgrow. lia.
  - cbn [offset_ge]. f_equal. apply Z.leb_gt.
    specialize (Hgrow i ltac:(lia)). lia.
  - exact Hformat.
  - exact Hw.
Qed.

(** X14. Nothing local bounds the recursion: as long as the total the
    upstream reports exceeds the next offset, every frame granted sends
    its request and calls again, so a fetch granted [depth] frames over
    more than [depth] pages ends in [RecursionError] after [depth]
    requests; with a total that always exceeds the next offset this is so
    whatever the depth. *)
Theorem pagination_exhausts_any_depth (depth : nat) d :
  (forall k, (k < depth)%nat -> 100 * Z.of_nat k + 100 < total (100 * Z.of_nat k)) ->
  strftime_ymd d = Ok date ->
  get_earnings_for_date json_loads strftime_ymd depth d 0 (JInt 1) w0
  = (Raise RecursionError,
     log_requests (map (page_request date) (page_offsets 0 depth)) w0)
  /\ List.length (sent (log_requests (map (page_request date) (page_offsets 0 depth)) w0))
     = (List.length (sent w0) + depth)%nat.
Proof.
  intros Hgrow Hd. split.
  - apply (never_ending depth 0 d (JInt 1) w0); [|reflexivity | exact Hd | reflexivity].
    intros k Hk. apply Hgrow. lia.
  - rewrite sent_log_requests, length_app, length_map. unfold page_offsets.
    now rewrite length_map, length_seq.
Qed.

End AllPages.

(** ** Earnings over a range of dates *)

Section DateRange.

Variable json_loads : string -> res json.
Variable strftime_ymd : date_like -> res string.
Variable pd_timestamp : date_like -> res Z.

Lemma scan_dates_outcomes depth dates : forall acc w,
  scan_dates json_loads strftime_ymd depth dates acc w
  = (Ok (acc ++ List.concat
                  (map rows_or_none
                       (fst (day_outcomes json_loads strftime_ymd depth dates w))))%list,
     snd (day_outcomes json_loads strftime_ymd depth dates w)).
Proof.
  induction dates as [|d dates IH]; intros acc w.
  - cbn. unfold ret. now rewrite app_nil_r.
  - cbn [scan_dates day_outcomes]. cbv zeta.
    destruct (get_earnings_for_date json_loads strftime_ymd depth (DateText d) 0 (JInt 1) w)
      as [[rows|e] w1]; cbn [fst snd map List.concat rows_or_none]; rewrite IH.
    + now rewrite app_assoc.
    + reflexivity.
Qed.

Lemma day_outcomes_length depth dates : forall w,
  List.length (fst (day_outcomes json_loads strftime_ymd depth dates w)) = List.length dates.
Proof.
  induction dates as [|d dates IH]; intros w; [reflexivity|].
  cbn [day_outcomes]. cbv zeta. cbn [fst List.length]. now rewrite IH.
Qed.

Lemma format_dates_length dates texts :
  format_dates strftime_ymd dates = Ok texts -> List.length texts = List.length dates.
Proof.
  revert texts. induction dates as [|d dates IH]; intros texts H; simpl in H.
  - inversion H. reflexivity.
  - destruct (strftime_ymd d); [|discriminate H]. simpl in H.
    destruct (format_dates strftime_ymd dates); [|discriminate H].
    inversion H. simpl. f_equal. apply IH. reflexivity.
Qed.

(** X15. Once the two dates parse and the days between them format,
    [get_earnings_in_date_range] returns, whatever the fetches do.  The
    days scanned are the whole days from start to end inclusive, each
    fetched once and in order, in the world the fetch before left; the
    result is the rows of the days whose fetch returned, in the order of
    the days, and a day whose fetch raised ([RecursionError] included)
    contributes nothing.  When the end is before the start no day is
    scanned and no request is sent. *)
Theorem date_range_scan_never_raises depth start_date end_date s e :
  pd_timestamp start_date = Ok s ->
  pd_timestamp end_date = Ok e ->
  (forall texts,
     format_dates strftime_ymd
       (map (fun diff => DateTicks (s + diff * day_ticks))
            (py_range ((e - s) / day_ticks + 1))) = Ok texts ->
     Z.of_nat (List.length texts) = Z.max 0 ((e - s) / day_ticks + 1)
     /\ forall w,
          get_earnings_in_date_range json_loads strftime_ymd pd_timestamp depth
            start_date end_date w
          = (Ok (List.concat
                   (map rows_or_none
                        (fst (day_outcomes json_loads strftime_ymd depth texts w)))),
             snd (day_outcomes json_loads strftime_ymd depth texts w))
          /\ List.length (fst (day_outcomes json_loads strftime_ymd depth texts w))
             = List.length texts)
  /\ (e < s ->
      forall w,
        get_earnings_in_date_range json_loads strftime_ymd pd_timestamp depth
          start_date end_date w = (Ok [], w)).
Proof.
  intros Hs He. split.
  - intros texts Htexts. split.
    + rewrite (format_dates_length _ _ Htexts), length_map.
      unfold py_range. rewrite length_map, length_seq. lia.
    + intros w. split; [|apply day_outcomes_length].
      unfold get_earnings_in_date_range.
      unfold bind at 1, lift at 1. rewrite He.
      unfold bind at 1, lift at 1. rewrite Hs.
      unfold bind at 1, lift at 1.
      unfold bind at 1, lift at 1. rewrite Htexts.
      apply (scan_dates_outcomes depth texts [] w).
  - intros Hlt w.
    assert (Hneg : (e - s) / day_ticks + 1 <= 0).
    { assert ((e - s) / day_ticks < 0); [|lia].
      apply Z.div_lt_upper_bound; unfold day_ticks; lia. }
    unfold get_earnings_in_date_range.
    unfold bind at 1, lift at 1. rewrite He.
    unfold bind at 1, lift at 1. rewrite Hs.
    unfold bind at 1, lift at 1.
    unfold py_range.
    replace (Z.to_nat ((e - s) / day_ticks + 1)) with O by lia.
    reflexivity.
Qed.

End DateRange.

(** ** Numeric normalizer: suffixes *)

Lemma rstrip_letter c d :
  PyStr.contains (String c EmptyString) d = false ->
  PyStr.rstrip (String c EmptyString) (d ++ String c EmptyString) = d.
Proof.
  induction d as [|x d IH]; intros H.
  - cbn. unfold PyStr.eqb_ascii. now rewrite Ascii.eqb_refl.
  - rewrite contains_letter in H. apply orb_false_iff in H as [Hx Hd].
    cbn [append PyStr.rstrip]. rewrite (IH Hd).
    destruct d as [|y d]; [|reflexivity].
    cbn [PyStr.mem_char]. unfold PyStr.eqb_ascii in *.
    rewrite Ascii.eqb_sym, Hx. reflexivity.
Qed.

Lemma strip_letter c d :
  PyStr.contains (String c EmptyString) d = false ->
  PyStr.strip (String c EmptyString) (d ++ String c EmptyString) = d.
Proof.
  intros H. unfold PyStr.strip.
  destruct d as [|x d].
  - cbn. unfold PyStr.eqb_ascii. now rewrite Ascii.eqb_refl.
  - pose proof H as H'. rewrite contains_letter in H'.
    apply orb_false_iff in H' as [Hx _].
    cbn [append PyStr.lstrip PyStr.mem_char]. unfold PyStr.eqb_ascii in *.
    rewrite Ascii.eqb_sym, Hx. cbn [orb].
    exact (rstrip_letter c (String x d) H).
Qed.

(** X16. A numeral followed by the suffix is scaled: when [d] holds no
    [M] and converts to the float [f], [d] followed by [M] gives
    [f * 1e6]; when it holds neither [M] nor [B], [d] followed by [B]
    gives [f * 1e9]. *)
Theorem numeral_with_suffix_is_scaled (d : string) (f : PyFloat.float) :
  py_float (VStr d) = Ok f ->
  PyStr.contains "M" d = false ->
  _convert_to_numeric (d ++ "M") = Ok (VFloat (PyFloat.mul f (PyFloat.nearest 1000000)))
  /\ (PyStr.contains "B" d = false ->
      _convert_to_numeric (d ++ "B")
      = Ok (VFloat (PyFloat.mul f (PyFloat.nearest 1000000000)))).
Proof.
  intros Hf HM. split.
  - rewrite convert_M by (rewrite contains_letter_append, HM; reflexivity).
    rewrite (strip_letter _ _ HM), (force_float_ok _ _ Hf).
    apply py_mul_float_int. reflexivity.
  - intros HB.
    rewrite convert_B.
    + rewrite (strip_letter _ _ HB), (force_float_ok _ _ Hf).
      apply py_mul_float_int. reflexivity.
    + rewrite contains_letter_append, HM. reflexivity.
    + rewrite contains_letter_append, HB. reflexivity.
Qed.

(** X17. [force_float] is idempotent: coercing a value that was already
    coerced changes nothing, so a column can be mapped through it
    twice. *)
Theorem force_float_idempotent (elt : pyval) :
  force_float (force_float elt) = force_float elt.
Proof.
  unfold force_float at 2 3. destruct (py_float elt) as [f|e] eqn:H.
  - reflexivity.
  - unfold force_float. rewrite H. reflexivity.
Qed.

(** ** Raw/formatted repair: the wrappers of a text *)

(** X18. The substitution of [_parse_json] on a text cut at its raw
    wrappers.  When no stretch of text before, between and after the
    wrappers holds the head of a wrapper (brace, quote, [raw], quote,
    colon), and the pattern matches every wrapper whole (a raw text
    without comma or newline, other fields without closing brace or
    newline), every wrapper is replaced by its raw text and every stretch
    is copied as it is. *)
Theorem sub_unwraps_wrappers (t0 : string) (ws : list (wrapper * string)) :
  head_free t0 = true ->
  forallb (fun xt => wrapper_ok (fst xt) && head_free (snd xt)) ws = true ->
  Re.sub_group1 raw_pattern (wrapped t0 ws) = unwrapped t0 ws.
Proof.
  unfold Re.sub_group1. revert t0.
  induction ws as [|[x t] ws IH]; intros t0 H0 Hws; cbn [wrapped unwrapped].
  - apply sub_absent. exact (search_end t0 H0).
  - cbn [forallb fst snd] in Hws.
    apply andb_true_iff in Hws as [Hxt Hws]. apply andb_true_iff in Hxt as [Hx Ht].
    rewrite (sub_step t0 x _ H0 Hx), (IH t Ht Hws). reflexivity.
Qed.

(** The condition on the stretches is needed: a head left open before a
    wrapper takes the wrapper's comma and brace for its own. *)
Example open_head_swallows_wrapper :
  Re.sub_group1 raw_pattern
    (("{" ++ Json.quoted "raw" ++ ": 1")
       ++ text_of (mkWrapper "034" "034" " 5" (" " ++ Json.quoted "fmt" ++ ": 7")))
  = " 1{" ++ Json.quoted "raw" ++ ": 5".
Proof. vm_compute. reflexivity. Qed.

(** ** Statement flattener: shape of the table *)

Lemma has_column_remove_same c cols :
  Pd.has_column c (Pd.remove_column c cols) = false.
Proof.
  induction cols as [|[l v] cols IH]; simpl; [reflexivity|].
  destruct (Pd.is_name c l) eqn:H; [exact IH|]. simpl. now rewrite H.
Qed.

Lemma has_column_remove_other c c' cols :
  Pd.has_column c (Pd.remove_column c' cols) = true -> Pd.has_column c cols = true.
Proof.
  induction cols as [|[l v] cols IH]; simpl; [discriminate|].
  destruct (Pd.is_name c' l); simpl; intros H.
  - rewrite (IH H). apply orb_true_r.
  - apply orb_true_iff in H as [H | H]; [now rewrite H|].
    rewrite (IH H). apply orb_true_r.
Qed.

Lemma in_name_has_column c cols :
  In (Pd.name c) (map fst cols) -> Pd.has_column c cols = true.
Proof.
  induction cols as [|[l v] cols IH]; simpl; [contradiction|].
  intros [-> | H].
  - simpl. now rewrite String.eqb_refl.
  - rewrite (IH H). apply orb_true_r.
Qed.

Lemma get_column_none c cols :
  Pd.has_column c cols = false -> Pd.get_column c cols = None.
Proof.
  induction cols as [|[l v] cols IH]; simpl; [reflexivity|].
  intros H. apply orb_false_iff in H as [Hl Hrest]. rewrite Hl. exact (IH Hrest).
Qed.

Lemma get_column_length n c cols v :
  Forall (fun lv : Pd.cell * list Pd.cell => List.length (snd lv) = n) cols ->
  Pd.get_column c cols = Some v -> List.length v = n.
Proof.
  induction cols as [|[l x] cols IH]; simpl; intros Hall H; [discriminate H|].
  apply Forall_cons_iff in Hall as [Hx Hrest]. cbn [snd] in Hx.
  destruct (Pd.is_name c l); [injection H as <-; exact Hx | exact (IH Hrest H)].
Qed.

Lemma remove_column_lengths n c cols :
  Forall (fun lv : Pd.cell * list Pd.cell => List.length (snd lv) = n) cols ->
  Forall (fun lv : Pd.cell * list Pd.cell => List.length (snd lv) = n)
         (Pd.remove_column c cols).
Proof.
  induction cols as [|[l x] cols IH]; simpl; intros Hall; [constructor|].
  apply Forall_cons_iff in Hall as [Hx Hrest]. cbn [snd] in Hx.
  destruct (Pd.is_name c l); [exact (IH Hrest) | constructor; [exact Hx | exact (IH Hrest)]].
Qed.

Lemma of_records_lengths rs :
  Forall (fun lv : Pd.cell * list Pd.cell => List.length (snd lv) = List.length rs)
         (Pd.columns (Pd.of_records rs)).
Proof.
  unfold Pd.of_records. cbn [Pd.columns]. apply Forall_forall.
  intros lv H. apply in_map_iff in H as (k & <- & _). cbn [snd]. apply length_map.
Qed.

Lemma to_datetime_length cs ts :
  Pd.to_datetime cs = Ok ts -> List.length ts = List.length cs.
Proof.
  revert ts. induction cs as [|c cs IH]; simpl; intros ts H.
  - inversion H. reflexivity.
  - destruct (Pd.to_timestamp c); [|discriminate H]. simpl in H.
    destruct (Pd.to_datetime cs); [|discriminate H].
    inversion H. simpl. f_equal. apply IH. reflexivity.
Qed.

Lemma in_add_keys k ks : forall seen,
  In k (Pd.add_keys seen ks) <-> In k seen \/ In k ks.
Proof.
  induction ks as [|x ks IH]; intros seen; cbn [Pd.add_keys].
  - simpl. tauto.
  - destruct (existsb (String.eqb x) seen) eqn:Hx.
    + rewrite IH. simpl. apply existsb_exists in Hx as (y & Hy & Hxy).
      apply String.eqb_eq in Hxy. subst y. intuition (subst; auto).
    + rewrite IH, in_app_iff. simpl. tauto.
Qed.

Lemma in_union_keys k rs :
  In k (Pd.union_keys rs) <-> exists r, In r rs /\ In k (Pd.keys_of r).
Proof.
  unfold Pd.union_keys.
  assert (H : forall acc,
            In k (fold_left (fun seen v => Pd.add_keys seen (Pd.keys_of v)) rs acc)
            <-> In k acc \/ exists r, In r rs /\ In k (Pd.keys_of r)).
  { induction rs as [|r rs IH]; intros acc; cbn [fold_left].
    - split; [auto | intros [H | (r & [] & _)]; exact H].
    - rewrite IH, in_add_keys. split.
      + intros [[H | H] | (r' & Hr' & H)]; [auto | right; exists r; simpl; auto |].
        right. exists r'. simpl. auto.
      + intros [H | (r' & [<- | Hr'] & H)]; [auto | auto |].
        right. exists r'. auto. }
  rewrite H. simpl. split; [intros [[] | H']; exact H' | auto].
Qed.

Lemma lookup_in_keys k fields :
  (match Json.lookup k fields with Some _ => true | None => false end) = true
  <-> In k (map fst fields).
Proof.
  induction fields as [|[k' v] fields IH]; simpl; [split; [discriminate | tauto]|].
  destruct (String.eqb_spec k k') as [-> | Hne].
  - split; auto.
  - rewrite IH. split; [auto | intros [H | H]; [congruence | exact H]].
Qed.

Lemma has_key_in_keys k r : has_key k r = true <-> In k (Pd.keys_of r).
Proof.
  destruct r; simpl; try (split; [discriminate | tauto]).
  apply lookup_in_keys.
Qed.

Lemma has_column_named k keys (f : string -> list Pd.cell) :
  Pd.has_column k (map (fun x => (Pd.name x, f x)) keys) = existsb (String.eqb k) keys.
Proof.
  induction keys as [|x keys IH]; simpl; [reflexivity | now rewrite IH].
Qed.

(** A frame built from records has the column [k] exactly when some
    record has the key [k]. *)
Lemma has_column_of_records k rs :
  Pd.has_column k (Pd.columns (Pd.of_records rs)) = existsb (has_key k) rs.
Proof.
  unfold Pd.of_records. cbn [Pd.columns]. rewrite has_column_named.
  apply Bool.eq_iff_eq_true. rewrite !existsb_exists. split.
  - intros (x & Hx & Hkx). apply String.eqb_eq in Hkx. subst x.
    apply in_union_keys in Hx as (r & Hr & Hk).
    exists r. split; [exact Hr | now apply has_key_in_keys].
  - intros (r & Hr & Hk). exists k. split; [|apply String.eqb_refl].
    apply in_union_keys. exists r. split; [exact Hr | now apply has_key_in_keys].
Qed.

Lemma get_column_named k keys (f : string -> list Pd.cell) :
  existsb (String.eqb k) keys = true ->
  Pd.get_column k (map (fun x => (Pd.name x, f x)) keys) = Some (f k).
Proof.
  induction keys as [|x keys IH]; simpl; [discriminate|].
  destruct (String.eqb_spec k x) as [-> | Hne]; [reflexivity | exact IH].
Qed.

Lemma get_column_remove_other k c cols :
  String.eqb k c = false ->
  Pd.get_column k (Pd.remove_column c cols) = Pd.get_column k cols.
Proof.
  intros Hkc. induction cols as [|[l v] cols IH]; simpl; [reflexivity|].
  destruct (Pd.is_name c l) eqn:Hc; simpl.
  - destruct (Pd.is_name k l) eqn:Hk; [|exact IH].
    destruct l as [|[| | |t| |]|]; simpl in Hc, Hk; try discriminate Hc.
    apply String.eqb_eq in Hc, Hk. subst. now rewrite String.eqb_refl in Hkc.
  - now rewrite IH.
Qed.

Lemma of_records_not_empty k rs :
  existsb (has_key k) rs = true -> Pd.empty (Pd.of_records rs) = false.
Proof.
  intros H. pose proof H as Hcol. rewrite <- has_column_of_records in Hcol.
  unfold Pd.empty. destruct rs as [|r rs]; [discriminate H|].
  destruct (Pd.index (Pd.of_records (r :: rs))) eqn:Hi; [discriminate Hi|].
  destruct (Pd.columns (Pd.of_records (r :: rs))); [discriminate Hcol | reflexivity].
Qed.

(** X19. Flattening a list of period records of which at least one has a
    key.  When no record has a [maxAge] key the deletion raises
    [KeyError('maxAge')]; when some has [maxAge] but none has [endDate]
    the re-indexing raises the [KeyError] of [set_index].  As soon as
    some record has each of the two keys and the [endDate] values convert
    to dates, a table is returned, records that lack the keys
    notwithstanding.  A returned table has its rows called [Breakdown],
    neither [maxAge] nor [endDate] among them, and one column per record,
    labelled by the dates. *)
Theorem parse_table_shape (records : list json) :
  forallb Pd.is_obj records = true ->
  (existsb (has_key "maxAge") records = false ->
   Pd.empty (Pd.of_records records) = false ->
   _parse_table (JArr records) = Raise (KeyError "maxAge"))
  /\ (existsb (has_key "maxAge") records = true ->
      existsb (has_key "endDate") records = false ->
      _parse_table (JArr records)
      = Raise (KeyError "None of ['endDate'] are in the columns"))
  /\ (existsb (has_key "maxAge") records = true ->
      existsb (has_key "endDate") records = true ->
      forall idx,
        Pd.to_datetime (map (Pd.cell_at "endDate") records) = Ok idx ->
        exists df, _parse_table (JArr records) = Ok df
                   /\ map fst (Pd.columns df) = time_labels idx)
  /\ (forall df,
        _parse_table (JArr records) = Ok df ->
        Pd.empty (Pd.of_records records) = false ->
        Pd.index_name df = Some "Breakdown"
        /\ ~ In (Pd.name "maxAge") (Pd.index df)
        /\ ~ In (Pd.name "endDate") (Pd.index df)
        /\ List.length (Pd.columns df) = List.length records
        /\ Forall is_time (map fst (Pd.columns df))).
Proof.
  intros Hobj.
  assert (Hrun : Pd.empty (Pd.of_records records) = false ->
                 _parse_table (JArr records)
                 = res_bind (Pd.drop_column "maxAge" (Pd.of_records records)) (fun df =>
                   res_bind (Pd.set_index "endDate" df) (fun df =>
                   res_bind (Pd.to_datetime (Pd.index df)) (fun idx =>
                   res_bind (Pd.set_axis (time_labels idx) (Pd.index_name df) df) (fun df =>
                   Ok (Pd.set_index_name "Breakdown" (Pd.transpose df))))))).
  { intros Hfull. unfold _parse_table, Pd.of_json. rewrite Hobj. cbn [res_bind].
    rewrite Hfull. reflexivity. }
  split; [|split; [|split]].
  - intros Hno Hfull. rewrite (Hrun Hfull).
    unfold Pd.drop_column. rewrite has_column_of_records, Hno. reflexivity.
  - intros Hage Hno. rewrite (Hrun (of_records_not_empty _ _ Hage)).
    unfold Pd.drop_column. rewrite has_column_of_records, Hage. cbn [res_bind].
    unfold Pd.set_index. cbn [Pd.columns].
    rewrite get_column_none; [reflexivity|].
    destruct (Pd.has_column "endDate" (Pd.remove_column "maxAge" _)) eqn:H; [|reflexivity].
    apply has_column_remove_other in H. rewrite has_column_of_records in H. congruence.
  - intros Hage Hend idx Hidx. rewrite (Hrun (of_records_not_empty _ _ Hage)).
    unfold Pd.drop_column. rewrite has_column_of_records, Hage. cbn [res_bind].
    unfold Pd.set_index. cbn [Pd.columns].
    rewrite get_column_remove_other by reflexivity.
    assert (Hcol : Pd.get_column "endDate" (Pd.columns (Pd.of_records records))
                   = Some (map (Pd.cell_at "endDate") records)).
    { pose proof Hend as Hhas. rewrite <- has_column_of_records in Hhas.
      unfold Pd.of_records in *. cbn [Pd.columns] in *.
      rewrite has_column_named in Hhas. exact (get_column_named _ _ _ Hhas). }
    rewrite Hcol. cbn [res_bind Pd.index Pd.index_name]. rewrite Hidx. cbn [res_bind].
    unfold Pd.set_axis, Pd.n_rows. cbn [Pd.index].
    replace (List.length (time_labels idx) =? List.length (map (Pd.cell_at "endDate") records))%nat
      with true
      by (symmetry; apply Nat.eqb_eq; unfold time_labels;
          now rewrite length_map, (to_datetime_length _ _ Hidx)).
    cbn [res_bind]. eexists. split; [reflexivity|].
    unfold Pd.set_index_name, Pd.transpose, Pd.n_rows.
    cbn [Pd.columns Pd.index]. rewrite map_map. cbn [fst].
    apply map_snd_enumerate.
  - intros df H Hfull. rewrite (Hrun Hfull) in H.
    apply res_bind_ok in H as (f1 & Hf1 & H).
    apply res_bind_ok in H as (f2 & Hf2 & H).
    apply res_bind_ok in H as (idx & Hidx & H).
    apply res_bind_ok in H as (f3 & Hf3 & H).
    inversion H. subst df. clear H.
    unfold Pd.drop_column in Hf1.
    destruct (Pd.has_column "maxAge" _); [|discriminate Hf1].
    inversion Hf1. subst f1. clear Hf1.
    unfold Pd.set_index in Hf2. cbn [Pd.columns] in Hf2.
    destruct (Pd.get_column "endDate" _) as [v|] eqn:Hv; [|discriminate Hf2].
    inversion Hf2. subst f2. clear Hf2.
    cbn [Pd.index Pd.index_name] in Hidx, Hf3.
    apply set_axis_ok in Hf3 as (Hi3 & _ & Hc3). cbn [Pd.columns] in Hc3.
    assert (Hv_len : List.length v = List.length records).
    { apply (get_column_length _ _ _ _
               (remove_column_lengths _ "maxAge" _ (of_records_lengths records)) Hv). }
    assert (Hlabels : map fst (Pd.columns (Pd.transpose f3)) = time_labels idx).
    { unfold Pd.transpose, Pd.n_rows. cbn [Pd.columns]. rewrite map_map. cbn [fst].
      rewrite map_snd_enumerate. exact Hi3. }
    cbn [Pd.set_index_name Pd.index_name Pd.index Pd.columns].
    split; [reflexivity|]. split; [|split; [|split]].
    + unfold Pd.transpose. cbn [Pd.index]. rewrite Hc3. intros Hin.
      apply in_name_has_column in Hin. apply has_column_remove_other in Hin.
      rewrite has_column_remove_same in Hin. discriminate Hin.
    + unfold Pd.transpose. cbn [Pd.index]. rewrite Hc3. intros Hin.
      apply in_name_has_column in Hin.
      rewrite has_column_remove_same in Hin. discriminate Hin.
    + rewrite <- (length_map fst), Hlabels. unfold time_labels.
      rewrite length_map, (to_datetime_length _ _ Hidx). exact Hv_len.
    + rewrite Hlabels. apply time_labels_are_times.
Qed.

(** ** Earnings calendar: the page marker *)



Lemma contains_later m c s :
  PyStr.contains m s = true -> PyStr.contains m (String c s) = true.
Proof. intros H. cbn [PyStr.contains]. rewrite H. apply orb_true_r. Qed.


Lemma filter_none {A} (f : A -> bool) l :
  (forall x, In x l -> f x = false) -> filter f l = [].
Proof.
  induction l as [|a l IH]; intros H; simpl; [reflexivity|].
  rewrite (H a (or_introl eq_refl)). apply IH. intros x Hx. apply H. right. exact Hx.
Qed.


(** * Sample runs of the further properties *)

Example summary_page_is_repaired :
  _parse_json more_loads "https://finance.yahoo.com/quote/msft" parse_json_headers
    (world_answering (mkResponse true (page_html "summary doc")))
  = (Ok summary_info,
     log_request (mkRequest "https://finance.yahoo.com/quote/msft" [] parse_json_headers)
       (world_answering (mkResponse true (page_html "summary doc")))).
Proof. vm_compute. reflexivity. Qed.

Example series_page_is_read :
  fst (_parse_json_series more_loads "https://finance.yahoo.com/quote/msft/balance-sheet"
         parse_json_headers true
         (world_answering (mkResponse true (page_html "series doc"))))
  = Ok (Some [("annualTotalAssets",
               [(JStr "2019-12-31", JInt 280); (JStr "2020-12-31", JInt 310)]);
              ("annualGoodwill", [])]).
Proof. vm_compute. reflexivity. Qed.

Example splits_table :
  fst splits_run
  = Ok (Pd.mkFrame
          [Pd.CT (Pd.Ts 1402272000); Pd.CT (Pd.Ts 1598832000)] None
          [(Pd.name "splitRatio", [Pd.CJ (JStr "7:1"); Pd.CJ (JStr "4:1")]);
           (Pd.name "ticker", [Pd.CJ (JStr "AAPL"); Pd.CJ (JStr "AAPL")])]
          None).
Proof. vm_compute. reflexivity. Qed.

(** * Instances of the further properties *)

Lemma get_data_sends_at_most_one_request_witness :
  get_data sample_loads epoch_ticks "msft" None None true "1D" default_headers quiet_world
  = (Raise (AssertionError (JStr "interval must be of of '1d', '1wk', '1mo', or '1m'")),
     quiet_world)
  /\ snd (get_data sample_loads epoch_ticks "msft" None None true "1wk" default_headers
            (world_answering (mkResponse true "daily bars")))
     = log_request
         (mkRequest (base_url ++ "msft")
            [("period1", VInt 7223400); ("period2", VInt 1700000000);
             ("interval", VStr "1wk"); ("events", VStr "div,splits")]
            default_headers)
         (world_answering (mkResponse true "daily bars")).
Proof.
  split.
  - apply (proj1 (get_data_sends_at_most_one_request sample_loads epoch_ticks
                    "msft" None None true "1D" default_headers quiet_world)).
    reflexivity.
  - apply (proj2 (proj2 (get_data_sends_at_most_one_request sample_loads epoch_ticks
                           "msft" None None true "1wk" default_headers
                           (world_answering (mkResponse true "daily bars"))))
             (base_url ++ "msft")
             [("period1", VInt 7223400); ("period2", VInt 1700000000);
              ("interval", VStr "1wk"); ("events", VStr "div,splits")]
             (world_answering (mkResponse true "daily bars")));
      reflexivity.
Defined.

Lemma corporate_actions_send_one_request_witness :
  snd dividends_run
  = log_request
      (mkRequest (base_url ++ "msft")
         [("period1", VInt 7223400); ("period2", VInt 1700000000);
          ("interval", VStr "1d"); ("events", VStr "div,splits")]
         default_headers)
      (world_answering (mkResponse true "dividends"))
  /\ snd (get_splits sample_loads epoch_ticks "msft" None None true default_headers
            (world_answering (mkResponse true "dividends")))
     = log_request
         (mkRequest (base_url ++ "msft")
            [("period1", VInt 7223400); ("period2", VInt 1700000000);
             ("interval", VStr "1d"); ("events", VStr "div,splits")]
            default_headers)
         (world_answering (mkResponse true "dividends")).
Proof.
  apply (corporate_actions_send_one_request sample_loads epoch_ticks
           "msft" None None true default_headers
           (world_answering (mkResponse true "dividends"))
           (base_url ++ "msft")
           [("period1", VInt 7223400); ("period2", VInt 1700000000);
            ("interval", VStr "1d"); ("events", VStr "div,splits")]
           (world_answering (mkResponse true "dividends"))).
  reflexivity.
Defined.

Lemma get_data_columns_witness :
  map fst (Pd.columns (table_of (daily_run false)))
  = map Pd.name ["date"; "open"; "high"; "low"; "close"; "adjclose"; "volume"; "ticker"]
  /\ Pd.get_column "ticker" (Pd.columns (table_of (minute_run true)))
     = Some [Pd.CJ (JStr "MSFT"); Pd.CJ (JStr "MSFT")].
Proof.
  split.
  - apply (proj1 (get_data_columns sample_loads epoch_ticks
                    "msft" None None false "1d" default_headers
                    (world_answering (mkResponse true "daily bars"))
                    (table_of (daily_run false)) (snd (daily_run false)) eq_refl)).
  - apply (proj1 (proj2 (get_data_columns sample_loads epoch_ticks
                           "msft" None None true "1m" default_headers
                           (world_answering (mkResponse true "minute bars"))
                           (table_of (minute_run true)) (snd (minute_run true)) eq_refl))).
Defined.

Lemma corporate_actions_index_sorted_and_floored_witness :
  (chronological (Pd.index (table_of dividends_run))
   /\ Forall zero_intraday (Pd.index (table_of dividends_run)))
  /\ (chronological (Pd.index (table_of splits_run))
      /\ Forall zero_intraday (Pd.index (table_of splits_run))).
Proof.
  split.
  - apply (proj1 (corporate_actions_index_sorted_and_floored sample_loads epoch_ticks
                    "msft" None None default_headers
                    (world_answering (mkResponse true "dividends"))
                    (table_of dividends_run) (snd dividends_run))).
    reflexivity.
  - apply (proj2 (corporate_actions_index_sorted_and_floored more_loads epoch_ticks
                    "aapl" None None default_headers
                    (world_answering (mkResponse true "splits"))
                    (table_of splits_run) (snd splits_run))).
    reflexivity.
Defined.

Example embedded_text_of_page :
  embedded_text (page_html "summary doc") = "summary doc".
Proof. vm_compute. reflexivity. Qed.

Lemma parse_json_marker_witness :
  fst (_parse_json more_loads "https://finance.yahoo.com/quote/msft" parse_json_headers
         quiet_world) = Raise IndexError
  /\ fst (_parse_json more_loads "https://finance.yahoo.com/quote/msft"
            parse_json_headers summary_world)
     = more_loads (repair (Json.dumps summary_store))
  /\ fst (_parse_json more_loads "https://finance.yahoo.com/quote/msft"
            parse_json_headers (world_answering (mkResponse true (page_html "series doc"))))
     = Raise (ValueError "Cannot find QuoteSummaryStore").
Proof.
  split; [|split].
  - apply (proj1 (proj2 (parse_json_marker more_loads
                           "https://finance.yahoo.com/quote/msft" parse_json_headers
                           quiet_world))).
    reflexivity.
  - apply (proj1 (proj2 (proj2 (parse_json_marker more_loads
                                  "https://finance.yahoo.com/quote/msft" parse_json_headers
                                  summary_world)) eq_refl)
             (store_doc "QuoteSummaryStore" summary_store)
             (JObj [("QuoteSummaryStore", summary_store)])); reflexivity.
  - apply (proj1 (proj2 (proj2 (proj2 (parse_json_marker more_loads
                                  "https://finance.yahoo.com/quote/msft" parse_json_headers
                                  (world_answering (mkResponse true (page_html "series doc")))))
                           eq_refl))
             (store_doc "QuoteTimeSeriesStore" series_store)
             [("QuoteTimeSeriesStore", series_store)]); reflexivity.
Defined.

Lemma parse_json_series_total_witness :
  fst (_parse_json_series more_loads "https://finance.yahoo.com/quote/msft/balance-sheet"
         parse_json_headers true quiet_world) = Raise IndexError
  /\ fst (_parse_json_series more_loads
            "https://finance.yahoo.com/quote/msft/balance-sheet"
            parse_json_headers true summary_world) = Ok None.
Proof.
  split.
  - apply (proj1 (proj2 (parse_json_series_total more_loads
                           "https://finance.yahoo.com/quote/msft/balance-sheet"
                           parse_json_headers true quiet_world))).
    reflexivity.
  - apply (proj1 (proj2 (proj2 (proj2 (parse_json_series_total more_loads
                           "https://finance.yahoo.com/quote/msft/balance-sheet"
                           parse_json_headers true summary_world)) eq_refl))
             (store_doc "QuoteSummaryStore" summary_store)
             [("QuoteSummaryStore", summary_store)]); reflexivity.
Defined.

Example series_missing_store_is_none :
  fst (_parse_json_series more_loads "https://finance.yahoo.com/quote/msft/balance-sheet"
         parse_json_headers true summary_world) = Ok None.
Proof. vm_compute. reflexivity. Qed.

Lemma list_to_obj_last_report_wins_witness :
  exists d,
    list_to_obj (series_reports false) = Ok d
    /\ forall date,
         PyDict.get (JStr date) d
         = last_reported date
             [JNull;
              JObj [("asOfDate", JStr "2019-12-31"); ("periodType", JStr "12M");
                    ("reportedValue", JInt 280)];
              JObj [("asOfDate", JStr "2020-12-31"); ("periodType", JStr "12M");
                    ("reportedValue", JInt 300)];
              JObj [("asOfDate", JStr "2020-12-31"); ("periodType", JStr "12M");
                    ("reportedValue", JInt 310)]].
Proof.
  apply (list_to_obj_last_report_wins
           [JNull;
            JObj [("asOfDate", JStr "2019-12-31"); ("periodType", JStr "12M");
                  ("reportedValue", JInt 280)];
            JObj [("asOfDate", JStr "2020-12-31"); ("periodType", JStr "12M");
                  ("reportedValue", JInt 300)];
            JObj [("asOfDate", JStr "2020-12-31"); ("periodType", JStr "12M");
                  ("reportedValue", JInt 310)]]).
  reflexivity.
Defined.

Lemma missing_statement_empty_or_fatal_witness :
  fst (get_balance_sheet more_loads "msft" true summary_world) = Ok Pd.empty_frame
  /\ fst (get_cash_flow more_loads "msft" false summary_world)
     = Raise (KeyError "cashflowStatementHistoryQuarterly").
Proof.
  split.
  - apply (proj1 (missing_statement_empty_or_fatal more_loads "msft" true summary_world)
             summary_info (KeyError "balanceSheetHistory")); reflexivity.
  - apply (proj2 (missing_statement_empty_or_fatal more_loads "msft" false summary_world)
             summary_info (KeyError "cashflowStatementHistoryQuarterly")); reflexivity.
Defined.


Example financials_sample :
  map (fun kt => (fst kt, Pd.empty (snd kt)))
      (tables_of (get_financials more_loads "msft" true false statements_world))
  = [("yearly_income_statement", false); ("yearly_balance_sheet", true);
     ("yearly_cash_flow", true)].
Proof. vm_compute. reflexivity. Qed.

Lemma get_earnings_absent_witness :
  fst (get_earnings more_loads "msft" summary_world) = Ok no_earnings
  /\ map snd no_earnings = [Pd.empty_frame; Pd.empty_frame; Pd.empty_frame].
Proof.
  apply (get_earnings_absent more_loads "msft" summary_world
           [("price", JObj [("regularMarketPrice", JInt 5)]); ("earnings", JNull)]).
  - reflexivity.
  - right. reflexivity.
Defined.

Lemma get_quote_data_request_witness :
  fst (get_quote_data more_loads "msft" [] quiet_world)
  = Raise (AssertionError (JStr invalid_response_message)).
Proof.
  apply (proj2 (get_quote_data_request more_loads "msft" [] quiet_world)).
  reflexivity.
Defined.

Lemma extended_hours_price_witness :
  fst (get_premarket_price more_loads "msft" (world_answering (mkResponse true "quote")))
  = Ok (JInt 250)
  /\ fst (get_postmarket_price more_loads "msft" (world_answering (mkResponse true "quote")))
     = Raise (AssertionError (JStr "Postmarket price not currently available.")).
Proof.
  apply (extended_hours_price more_loads "msft" (world_answering (mkResponse true "quote"))
           [("symbol", JStr "MSFT"); ("marketState", JStr "PRE");
            ("preMarketPrice", JInt 250)]).
  reflexivity.
Defined.

Lemma long_upstream :
  serves_pages more_loads long_world "2021-02-03" (fun _ => 250) (fun _ => sample_rows).
Proof.
  intros offset w Hw.
  exists (earnings_page 250 sample_rows),
         (JObj [("ScreenerCriteriaStore", JObj [("meta", JObj [("total", JInt 250)])]);
                ("ScreenerResultsStore",
                 JObj [("results", JObj [("rows", JArr sample_rows)])])]).
  split; [|split; [|split]]; try reflexivity.
  unfold _parse_earnings_json, bind at 1, requests_get, answer. rewrite Hw.
  reflexivity.
Qed.

Lemma pagination_collects_every_page_witness :
  get_earnings_for_date more_loads keep_text 4 (DateText "2021-02-03") 0 (JInt 1) long_world
  = (Ok (List.concat (map (fun _ : Z => sample_rows) (page_offsets 0 3))),
     log_requests (map (page_request "2021-02-03") (page_offsets 0 3)) long_world)
  /\ sent (log_requests (map (page_request "2021-02-03") (page_offsets 0 3)) long_world)
     = (sent long_world ++ map (page_request "2021-02-03") (page_offsets 0 3))%list.
Proof.
  apply (pagination_collects_every_page more_loads keep_text long_world "2021-02-03"
           (fun _ => 250) (fun _ => sample_rows) eq_refl long_upstream
           250 2 0 (DateText "2021-02-03")).
  - reflexivity.
  - vm_compute. discriminate.
  - right. reflexivity.
  - reflexivity.
Defined.

Example three_pages_three_requests :
  map req_url
      (sent (snd (get_earnings_for_date more_loads keep_text 4 (DateText "2021-02-03")
                    0 (JInt 1) long_world)))
  = ["https://finance.yahoo.com/calendar/earnings?day=2021-02-03&offset=0&size=100";
     "https://finance.yahoo.com/calendar/earnings?day=2021-02-03&offset=100&size=100";
     "https://finance.yahoo.com/calendar/earnings?day=2021-02-03&offset=200&size=100"].
Proof. vm_compute. reflexivity. Qed.

Lemma pagination_exhausts_any_depth_witness :
  get_earnings_for_date more_loads keep_text 2 (DateText "2021-02-03") 0 (JInt 1) long_world
  = (Raise RecursionError,
     log_requests (map (page_request "2021-02-03") (page_offsets 0 2)) long_world)
  /\ List.length (sent (log_requests (map (page_request "2021-02-03") (page_offsets 0 2))
                          long_world))
     = (List.length (sent long_world) + 2)%nat.
Proof.
  apply (pagination_exhausts_any_depth more_loads keep_text long_world "2021-02-03"
           (fun _ => 250) (fun _ => sample_rows) eq_refl long_upstream
           2 (DateText "2021-02-03")).
  - intros k Hk. assert (Hcases : k = 0%nat \/ k = 1%nat) by lia.
    destruct Hcases as [-> | ->]; reflexivity.
  - reflexivity.
Defined.

Lemma date_range_scan_never_raises_witness :
  (Z.of_nat (List.length ["day 0"; "day 1"; "day 2"])
   = Z.max 0 ((2 * day_ticks + 5 - 0) / day_ticks + 1)
   /\ forall w,
        get_earnings_in_date_range more_loads day_number_text ticks_of 5
          (DateTicks 0) (DateTicks (2 * day_ticks + 5)) w
        = (Ok (List.concat
                 (map rows_or_none
                      (fst (day_outcomes more_loads day_number_text 5
                              ["day 0"; "day 1"; "day 2"] w)))),
           snd (day_outcomes more_loads day_number_text 5 ["day 0"; "day 1"; "day 2"] w))
        /\ List.length (fst (day_outcomes more_loads day_number_text 5
                               ["day 0"; "day 1"; "day 2"] w))
           = List.length ["day 0"; "day 1"; "day 2"])
  /\ forall w,
       get_earnings_in_date_range more_loads day_number_text ticks_of 5
         (DateTicks (2 * day_ticks + 5)) (DateTicks 0) w = (Ok [], w).
Proof.
  split.
  - apply (proj1 (date_range_scan_never_raises more_loads day_number_text ticks_of 5
                    (DateTicks 0) (DateTicks (2 * day_ticks + 5)) 0 (2 * day_ticks + 5)
                    eq_refl eq_refl)).
    vm_compute. reflexivity.
  - apply (proj2 (date_range_scan_never_raises more_loads day_number_text ticks_of 5
                    (DateTicks (2 * day_ticks + 5)) (DateTicks 0) (2 * day_ticks + 5) 0
                    eq_refl eq_refl)).
    vm_compute. reflexivity.
Defined.

Example failing_days_are_skipped :
  fst (get_earnings_in_date_range more_loads day_number_text ticks_of 5
         (DateTicks 0) (DateTicks (2 * day_ticks + 5)) quiet_world) = Ok []
  /\ map req_url
       (sent (snd (get_earnings_in_date_range more_loads day_number_text ticks_of 5
                     (DateTicks 0) (DateTicks (2 * day_ticks + 5)) quiet_world)))
     = ["https://finance.yahoo.com/calendar/earnings?day=day 0&offset=0&size=100";
        "https://finance.yahoo.com/calendar/earnings?day=day 1&offset=0&size=100";
        "https://finance.yahoo.com/calendar/earnings?day=day 2&offset=0&size=100"]
  /\ fst (get_earnings_in_date_range more_loads day_number_text ticks_of 5
            (DateTicks 0) (DateTicks 5) long_world)
     = Ok (sample_rows ++ sample_rows ++ sample_rows)%list.
Proof. split; [|split]; vm_compute; reflexivity. Qed.

Lemma numeral_with_suffix_is_scaled_witness :
  _convert_to_numeric ("12.3" ++ "M")
  = Ok (VFloat (PyFloat.mul (PyFloat.literal "12.3") (PyFloat.nearest 1000000)))
  /\ _convert_to_numeric ("1_0" ++ "B")
     = Ok (VFloat (PyFloat.mul (PyFloat.literal "10") (PyFloat.nearest 1000000000))).
Proof.
  split.
  - apply (proj1 (numeral_with_suffix_is_scaled "12.3" (PyFloat.literal "12.3")
                    eq_refl eq_refl)).
  - apply (proj2 (numeral_with_suffix_is_scaled "1_0" (PyFloat.literal "10")
                    eq_refl eq_refl)).
    reflexivity.
Defined.

Lemma sub_unwraps_wrappers_witness :
  Re.sub_group1 raw_pattern
    ("{" ++ Json.quoted "a" ++ ": {" ++ Json.quoted "raw" ++ ": 5, "
         ++ Json.quoted "fmt" ++ ": " ++ Json.quoted "5" ++ "}, "
         ++ Json.quoted "n" ++ ": {" ++ Json.quoted "k" ++ ": 1}}")
  = "{" ++ Json.quoted "a" ++ ":  5, " ++ Json.quoted "n" ++ ": {"
        ++ Json.quoted "k" ++ ": 1}}".
Proof.
  apply (sub_unwraps_wrappers
           ("{" ++ Json.quoted "a" ++ ": ")
           [(mkWrapper "034" "034" " 5" (" " ++ Json.quoted "fmt" ++ ": " ++ Json.quoted "5"),
             ", " ++ Json.quoted "n" ++ ": {" ++ Json.quoted "k" ++ ": 1}}")]);
    vm_compute; reflexivity.
Defined.

Lemma parse_table_shape_witness :
  _parse_table (JArr [JObj [("endDate", JInt 1609372800); ("netIncome", JInt 100)]])
  = Raise (KeyError "maxAge")
  /\ _parse_table (JArr [JObj [("maxAge", JInt 1); ("netIncome", JInt 100)]])
     = Raise (KeyError "None of ['endDate'] are in the columns")
  /\ (exists df,
        _parse_table
          (JArr [JObj [("maxAge", JInt 1); ("endDate", JInt 1609372800);
                       ("netIncome", JInt 100)];
                 JObj [("netIncome", JInt 90)]]) = Ok df
        /\ map fst (Pd.columns df) = time_labels [Pd.Ts 1609372800; Pd.NaT])
  /\ forall df,
       _parse_table (JArr period_record_list) = Ok df ->
       Pd.index_name df = Some "Breakdown"
       /\ ~ In (Pd.name "maxAge") (Pd.index df)
       /\ ~ In (Pd.name "endDate") (Pd.index df)
       /\ List.length (Pd.columns df) = List.length period_record_list
       /\ Forall is_time (map fst (Pd.columns df)).
Proof.
  split; [|split; [|split]].
  - apply (proj1 (parse_table_shape
                    [JObj [("endDate", JInt 1609372800); ("netIncome", JInt 100)]]
                    eq_refl)); reflexivity.
  - apply (proj1 (proj2 (parse_table_shape
                           [JObj [("maxAge", JInt 1); ("netIncome", JInt 100)]]
                           eq_refl))); reflexivity.
  - apply (proj1 (proj2 (proj2 (parse_table_shape
                                  [JObj [("maxAge", JInt 1); ("endDate", JInt 1609372800);
                                         ("netIncome", JInt 100)];
                                   JObj [("netIncome", JInt 90)]]
                                  eq_refl)))); reflexivity.
  - intros df H.
    apply (proj2 (proj2 (proj2 (parse_table_shape period_record_list eq_refl))) df H).
    reflexivity.
Defined.


(** * Symbol directories *)

Lemma clean_parts f :
  clean f = true ->
  PyStr.mem_char "|" f = false /\ PyStr.mem_char "013" f = false
  /\ PyStr.mem_char "010" f = false.
Proof.
  unfold clean. intros H.
  apply andb_true_iff in H as [H H3]. apply andb_true_iff in H as [H1 H2].
  apply negb_true_iff in H1, H2, H3. auto.
Qed.

Lemma split_bar a rest :
  PyStr.mem_char "|" a = false ->
  PyStr.split "|" (a ++ String "|" rest) = a :: PyStr.split "|" rest.
Proof.
  unfold PyStr.split. induction a as [|x a IH]; intros H.
  - reflexivity.
  - cbn [PyStr.mem_char] in H. apply orb_false_iff in H as [Hx Ha].
    cbn [append PyStr.split_from PyStr.startswith].
    rewrite Hx, (IH Ha). reflexivity.
Qed.

Lemma split_no_bar a :
  PyStr.mem_char "|" a = false -> PyStr.split "|" a = [a].
Proof. intros H. apply split_absent. rewrite contains_char_mem. exact H. Qed.

Lemma split_bar_fields fields rest :
  forallb clean fields = true ->
  PyStr.split "|" (render_fields fields ++ rest) = (fields ++ PyStr.split "|" rest)%list.
Proof.
  induction fields as [|f fields IH]; intros H; [reflexivity|].
  cbn [forallb] in H. apply andb_true_iff in H as [Hf Hfs].
  cbn [render_fields]. rewrite append_assoc.
  change (("|" ++ render_fields fields) ++ rest)%string
    with (String "|" (render_fields fields ++ rest)).
  rewrite split_bar by apply (clean_parts _ Hf).
  rewrite (IH Hfs). reflexivity.
Qed.

Lemma no_break_in_field f :
  PyStr.mem_char "013" f = false -> PyStr.contains crlf f = false.
Proof.
  induction f as [|x f IH]; intros H; [reflexivity|].
  cbn [PyStr.mem_char] in H. apply orb_false_iff in H as [Hx Hf].
  unfold crlf in *. cbn [PyStr.contains PyStr.startswith].
  rewrite Hx, (IH Hf). reflexivity.
Qed.

Lemma break_is_found p f : PyStr.contains crlf (p ++ crlf ++ f) = true.
Proof.
  induction p as [|x p IH]; [reflexivity|].
  cbn [append]. apply contains_later. exact IH.
Qed.

Lemma split_at_break p f :
  PyStr.mem_char "013" p = false -> PyStr.mem_char "013" f = false ->
  PyStr.split crlf (p ++ crlf ++ f) = [p; f].
Proof.
  intros Hp Hf. unfold PyStr.split. induction p as [|x p IH].
  - change (EmptyString ++ crlf ++ f)%string with (String "013" (String "010" f)).
    unfold crlf. cbn [PyStr.split_from PyStr.startswith String.length Nat.sub].
    cbn. fold crlf. 
    pose proof (split_absent crlf f (no_break_in_field f Hf)) as Hs.
    unfold PyStr.split in Hs. rewrite Hs. reflexivity.
  - cbn [PyStr.mem_char] in Hp. apply orb_false_iff in Hp as [Hx Hp].
    cbn [append]. unfold crlf at 1. cbn [PyStr.split_from PyStr.startswith].
    rewrite Hx. cbn [andb]. fold crlf. rewrite (IH Hp). reflexivity.
Qed.

Lemma clean_line_parts l :
  clean_line l = true ->
  clean (first_field l) = true /\ forallb clean (middle_fields l) = true
  /\ clean (last_field l) = true.
Proof.
  unfold clean_line. intros H.
  apply andb_true_iff in H as [H H3]. apply andb_true_iff in H as [H1 H2]. auto.
Qed.

Lemma no_bar_at_break p f :
  PyStr.mem_char "|" p = false -> PyStr.mem_char "|" f = false ->
  PyStr.mem_char "|" (p ++ crlf ++ f) = false.
Proof. intros Hp Hf. rewrite !mem_char_append, Hp, Hf. reflexivity. Qed.

Lemma render_line_cons l rest :
  (render (l :: rest)
   = first_field l
     ++ String "|" (render_fields (middle_fields l)
                    ++ (last_field l ++ crlf ++ render rest)))%string.
Proof.
  cbn [render]. unfold render_line. rewrite !append_assoc. reflexivity.
Qed.

Lemma fields_hold_no_break fields :
  forallb clean fields = true -> filter (PyStr.contains crlf) fields = [].
Proof.
  intros H. apply filter_none. intros x Hx.
  apply no_break_in_field.
  rewrite forallb_forall in H. apply (clean_parts _ (H x Hx)).
Qed.

Lemma breaks_of_lines lines : forall p,
  PyStr.mem_char "|" p = false ->
  forallb clean_line lines = true ->
  filter (PyStr.contains crlf) (PyStr.split "|" (p ++ crlf ++ render lines))
  = line_breaks p lines.
Proof.
  induction lines as [|l lines IH]; intros p Hp Hlines.
  - cbn [render line_breaks].
    change (crlf ++ EmptyString)%string with crlf.
    rewrite split_no_bar.
    + cbn [filter].
      pose proof (break_is_found p EmptyString) as Hb.
      change (crlf ++ EmptyString)%string with crlf in Hb.
      rewrite Hb. reflexivity.
    + rewrite mem_char_append, Hp. reflexivity.
  - cbn [forallb] in Hlines. apply andb_true_iff in Hlines as [Hl Hrest].
    destruct (clean_line_parts _ Hl) as (Hf & Hm & Hlast).
    rewrite render_line_cons.
    replace (p ++ crlf ++ first_field l
               ++ String "|" (render_fields (middle_fields l)
                              ++ (last_field l ++ crlf ++ render lines)))%string
      with ((p ++ crlf ++ first_field l)
              ++ String "|" (render_fields (middle_fields l)
                             ++ (last_field l ++ crlf ++ render lines)))%string
      by (rewrite !append_assoc; reflexivity).
    rewrite split_bar by (apply no_bar_at_break; [exact Hp | apply (clean_parts _ Hf)]).
    rewrite (split_bar_fields _ _ Hm).
    cbn [filter line_breaks]. rewrite break_is_found.
    rewrite filter_app, (fields_hold_no_break _ Hm). cbn [app].
    rewrite (IH _ (proj1 (clean_parts _ Hlast)) Hrest). reflexivity.
Qed.

Lemma listing_breaks header rows :
  forallb clean_line (header :: rows) = true ->
  filter (PyStr.contains crlf) (PyStr.split "|" (render (header :: rows)))
  = line_breaks (last_field header) rows.
Proof.
  intros Hlines.
  cbn [forallb] in Hlines. apply andb_true_iff in Hlines as [Hl Hrest].
  destruct (clean_line_parts _ Hl) as (Hf & Hm & Hlast).
  rewrite render_line_cons.
  rewrite split_bar by apply (clean_parts _ Hf).
  rewrite (split_bar_fields _ _ Hm).
  cbn [filter].
  rewrite (no_break_in_field _ (proj1 (proj2 (clean_parts _ Hf)))).
  rewrite filter_app, (fields_hold_no_break _ Hm). cbn [app].
  apply breaks_of_lines; [apply (clean_parts _ Hlast) | exact Hrest].
Qed.

Lemma second_parts_breaks rows : forall p,
  clean p = true ->
  forallb clean_line rows = true ->
  second_parts (line_breaks p rows) = Ok (map first_field rows ++ [EmptyString])%list.
Proof.
  induction rows as [|l rows IH]; intros p Hp Hrows.
  - cbn [line_breaks second_parts map app].
    change (p ++ crlf)%string with (p ++ crlf ++ EmptyString)%string.
    rewrite split_at_break; [reflexivity| apply (clean_parts _ Hp) | reflexivity].
  - cbn [forallb] in Hrows. apply andb_true_iff in Hrows as [Hl Hrest].
    destruct (clean_line_parts _ Hl) as (Hf & Hm & Hlast).
    cbn [line_breaks second_parts map app].
    rewrite split_at_break; [| apply (clean_parts _ Hp) | apply (clean_parts _ Hf)].
    cbn [list_get nth_error res_bind].
    rewrite (IH _ Hlast Hrest). reflexivity.
Qed.

Lemma no_word_at_break p f :
  PyStr.contains "NASDAQ" p = false -> PyStr.contains "NASDAQ" f = false ->
  PyStr.contains "NASDAQ" (p ++ crlf ++ f) = false.
Proof.
  intros Hp Hf.
  change (p ++ crlf ++ f)%string with (p ++ String "013" (String "010" f))%string.
  rewrite contains_through by reflexivity. rewrite Hp.
  change (String "010" f) with (EmptyString ++ String "010" f)%string.
  rewrite contains_through by reflexivity. rewrite Hf. reflexivity.
Qed.

Lemma break_not_alone p f :
  PyStr.mem_char "013" p = false ->
  p <> EmptyString \/ f <> EmptyString ->
  String.eqb (p ++ crlf ++ f) crlf = false.
Proof.
  intros Hp Hne. apply String.eqb_neq. intros E.
  destruct p as [|x p].
  - destruct Hne as [Hne | Hne]; [now apply Hne|].
    apply Hne. unfold crlf in E. cbn [append] in E. now injection E.
  - unfold crlf in E. cbn [append] in E. injection E as -> _.
    cbn in Hp. discriminate Hp.
Qed.

Lemma plain_line_parts l :
  plain_line l = true ->
  first_field l <> EmptyString
  /\ PyStr.contains "NASDAQ" (first_field l) = false
  /\ PyStr.contains "NASDAQ" (last_field l) = false.
Proof.
  unfold plain_line. intros H.
  apply andb_true_iff in H as [H H3]. apply andb_true_iff in H as [H1 H2].
  apply negb_true_iff in H1, H2, H3. apply String.eqb_neq in H1. auto.
Qed.

Lemma second_parts_listed rows : forall p,
  clean p = true ->
  PyStr.contains "NASDAQ" p = false ->
  forallb clean_line rows = true ->
  forallb plain_line rows = true ->
  second_parts
    (filter (fun x => negb (PyStr.contains "NASDAQ" x) && negb (String.eqb x crlf))
            (line_breaks p rows))
  = Ok (map first_field rows
        ++ (if String.eqb (final_field p rows) EmptyString then [] else [EmptyString]))%list.
Proof.
  induction rows as [|l rows IH]; intros p Hp Hword Hrows Hplain.
  - cbn [line_breaks filter map app final_field].
    pose proof (no_word_at_break p EmptyString Hword eq_refl) as Hw.
    change (crlf ++ EmptyString)%string with crlf in Hw. rewrite Hw.
    destruct (String.eqb_spec p EmptyString) as [-> | Hne].
    + reflexivity.
    + pose proof (break_not_alone p EmptyString
                    (proj1 (proj2 (clean_parts _ Hp))) (or_introl Hne)) as Hb.
      change (crlf ++ EmptyString)%string with crlf in Hb. rewrite Hb.
      cbn [negb andb second_parts].
      change (p ++ crlf)%string with (p ++ crlf ++ EmptyString)%string.
      rewrite split_at_break; [reflexivity | apply (clean_parts _ Hp) | reflexivity].
  - cbn [forallb] in Hrows, Hplain.
    apply andb_true_iff in Hrows as [Hl Hrest].
    apply andb_true_iff in Hplain as [Hpl Hprest].
    destruct (clean_line_parts _ Hl) as (Hf & Hm & Hlast).
    destruct (plain_line_parts _ Hpl) as (Hne & Hwf & Hwl).
    cbn [line_breaks filter map app final_field].
    rewrite (no_word_at_break _ _ Hword Hwf).
    rewrite (break_not_alone p (first_field l)
               (proj1 (proj2 (clean_parts _ Hp))) (or_intror Hne)).
    cbn [negb andb second_parts].
    rewrite split_at_break; [| apply (clean_parts _ Hp) | apply (clean_parts _ Hf)].
    cbn [list_get nth_error res_bind].
    rewrite (IH _ Hlast Hwl Hrest Hprest). reflexivity.
Qed.

Lemma second_parts_in_range pieces :
  Forall (fun x => PyStr.contains crlf x = true) pieces ->
  exists tickers, second_parts pieces = Ok tickers.
Proof.
  induction 1 as [|x rest Hx _ [others IH]]; [exists []; reflexivity|].
  unfold crlf in Hx. destruct (split_present _ _ _ Hx) as (a & b & more & Hs).
  exists (b :: others). cbn [second_parts]. fold crlf in Hs. rewrite Hs.
  cbn [list_get nth_error res_bind]. rewrite IH. reflexivity.
Qed.

Lemma filter_keeps {A} (f : A -> bool) l : Forall (fun x => f x = true) (filter f l).
Proof. apply Forall_forall. intros x Hx. apply filter_In in Hx. apply Hx. Qed.

Lemma filter_no_file tickers :
  Forall (fun t => PyStr.contains "File" t = false)
         (filter (fun ticker => negb (PyStr.contains "File" ticker)) tickers).
Proof.
  apply Forall_forall. intros x Hx. apply filter_In in Hx as [_ Hx].
  now apply negb_true_iff in Hx.
Qed.

Lemma filter_no_file_app rows extra :
  filter (fun ticker => negb (PyStr.contains "File" ticker))
         (map first_field rows ++ extra)%list
  = (filter no_file (map first_field rows)
     ++ filter (fun ticker => negb (PyStr.contains "File" ticker)) extra)%list.
Proof. rewrite filter_app. reflexivity. Qed.

(** X21. Once the listing file has been fetched and decoded, neither
    [tickers_nasdaq] nor [tickers_other] can fail, whatever the text
    holds: only pieces that hold a line break are split at it, so the
    second part always exists; and no ticker they return holds the word
    File.  A failure of the transfer, and a failure to decode the bytes,
    are passed on unchanged. *)
Theorem listing_split_never_fails (retrieve decode : string -> res string) :
  (forall raw info,
     retrieve "nasdaqlisted.txt" = Ok raw -> decode raw = Ok info ->
     exists tickers, tickers_nasdaq retrieve decode = Ok tickers
       /\ Forall (fun t => PyStr.contains "File" t = false) tickers)
  /\ (forall raw info,
     retrieve "otherlisted.txt" = Ok raw -> decode raw = Ok info ->
     exists tickers, tickers_other retrieve decode = Ok tickers
       /\ Forall (fun t => PyStr.contains "File" t = false) tickers)
  /\ (forall e, retrieve "nasdaqlisted.txt" = Raise e ->
                tickers_nasdaq retrieve decode = Raise e)
  /\ (forall e, retrieve "otherlisted.txt" = Raise e ->
                tickers_other retrieve decode = Raise e)
  /\ (forall raw e, retrieve "nasdaqlisted.txt" = Ok raw -> decode raw = Raise e ->
                    tickers_nasdaq retrieve decode = Raise e)
  /\ (forall raw e, retrieve "otherlisted.txt" = Ok raw -> decode raw = Raise e ->
                    tickers_other retrieve decode = Raise e).
Proof.
  split; [|split; [|split; [|split; [|split]]]].
  - intros raw info H Hd. unfold tickers_nasdaq. rewrite H. cbn [res_bind].
    rewrite Hd. cbn [res_bind].
    destruct (second_parts_in_range
                (filter (fun x => negb (PyStr.contains "NASDAQ" x) && negb (String.eqb x crlf))
                        (filter (PyStr.contains crlf) (PyStr.split "|" info))))
      as [tickers Ht].
    + apply Forall_forall. intros x Hx.
      apply filter_In in Hx as [Hx _]. apply filter_In in Hx as [_ Hx]. exact Hx.
    + rewrite Ht. cbn [res_bind]. eexists. split; [reflexivity|]. apply filter_no_file.
  - intros raw info H Hd. unfold tickers_other. rewrite H. cbn [res_bind].
    rewrite Hd. cbn [res_bind].
    destruct (second_parts_in_range (filter (PyStr.contains crlf) (PyStr.split "|" info)))
      as [tickers Ht]; [apply filter_keeps|].
    rewrite Ht. cbn [res_bind]. eexists. split; [reflexivity|]. apply filter_no_file.
  - intros e H. unfold tickers_nasdaq. rewrite H. reflexivity.
  - intros e H. unfold tickers_other. rewrite H. reflexivity.
  - intros raw e H Hd. unfold tickers_nasdaq. rewrite H. cbn [res_bind]. rewrite Hd.
    reflexivity.
  - intros raw e H Hd. unfold tickers_other. rewrite H. cbn [res_bind]. rewrite Hd.
    reflexivity.
Qed.

(** X22. On a listing file of well-formed lines (fields between bars,
    every line closed by a line break, at least two fields a line),
    [tickers_other] returns the first field of every line after the
    header that does not hold the word File, in order, followed by one
    empty string.  [tickers_nasdaq] returns the same symbols when no
    symbol and no last field holds the word NASDAQ, and the closing
    empty string only when the last field of the file is not empty. *)
Theorem listing_tickers (retrieve decode : string -> res string) raw header rows :
  forallb clean_line (header :: rows) = true ->
  decode raw = Ok (render (header :: rows)) ->
  (retrieve "otherlisted.txt" = Ok raw ->
     tickers_other retrieve decode
     = Ok (filter no_file (map first_field rows) ++ [EmptyString])%list)
  /\ (retrieve "nasdaqlisted.txt" = Ok raw ->
      forallb plain_line (header :: rows) = true ->
      tickers_nasdaq retrieve decode
      = Ok (filter no_file (map first_field rows)
            ++ (if String.eqb (final_field (last_field header) rows) EmptyString
                then [] else [EmptyString]))%list).
Proof.
  intros Hclean Hd. pose proof (listing_breaks header rows Hclean) as Hbreaks.
  cbn [forallb] in Hclean. apply andb_true_iff in Hclean as [Hh Hrows].
  destruct (clean_line_parts _ Hh) as (_ & _ & Hlast).
  split.
  - intros H. unfold tickers_other. rewrite H. cbn [res_bind]. rewrite Hd. cbn [res_bind].
    rewrite Hbreaks, (second_parts_breaks rows _ Hlast Hrows). cbn [res_bind].
    rewrite filter_no_file_app. reflexivity.
  - intros H Hplain. unfold tickers_nasdaq. rewrite H. cbn [res_bind].
    rewrite Hd. cbn [res_bind].
    cbn [forallb] in Hplain. apply andb_true_iff in Hplain as [Hph Hprows].
    destruct (plain_line_parts _ Hph) as (_ & _ & Hword).
    rewrite Hbreaks, (second_parts_listed rows _ Hlast Hword Hrows Hprows).
    cbn [res_bind]. rewrite filter_no_file_app.
    destruct (String.eqb (final_field (last_field header) rows) EmptyString); reflexivity.
Qed.

(** * Instances for the symbol directories *)

Example sample_listing_tickers :
  tickers_nasdaq sample_retrieve ascii_decode = Ok ["AAPL"; "MSFT"]
  /\ tickers_other sample_retrieve ascii_decode = Ok ["AAPL"; "MSFT"; EmptyString].
Proof. split; vm_compute; reflexivity. Qed.

Lemma listing_split_never_fails_witness :
  sample_retrieve "nasdaqlisted.txt" = Ok (render sample_listing)
  /\ exists tickers, tickers_nasdaq sample_retrieve ascii_decode = Ok tickers
       /\ Forall (fun t => PyStr.contains "File" t = false) tickers.
Proof.
  split; [reflexivity|].
  apply (proj1 (listing_split_never_fails sample_retrieve ascii_decode)
           (render sample_listing) (render sample_listing)); reflexivity.
Defined.

Lemma listing_tickers_witness :
  forallb clean_line sample_listing = true
  /\ forallb plain_line sample_listing = true
  /\ tickers_other sample_retrieve ascii_decode = Ok ["AAPL"; "MSFT"; EmptyString]
  /\ tickers_nasdaq sample_retrieve ascii_decode = Ok ["AAPL"; "MSFT"].
Proof.
  split; [reflexivity|]. split; [reflexivity|]. split.
  - apply (proj1 (listing_tickers sample_retrieve ascii_decode (render sample_listing)
                    (mkLine "Symbol" ["Security Name"; "Test Issue"] "NextShares")
                    (tl sample_listing) eq_refl eq_refl)).
    reflexivity.
  - apply (proj2 (listing_tickers sample_retrieve ascii_decode (render sample_listing)
                    (mkLine "Symbol" ["Security Name"; "Test Issue"] "NextShares")
                    (tl sample_listing) eq_refl eq_refl)); reflexivity.
Defined.
